(** * Trigger engine of the crypto dashboard: a shallow embedding

    This development embeds [src/triggers.py] (class [TriggerEngine]) together
    with the two collaborators it calls, [src/telegram_utils.py]
    ([send_telegram_message]) and [src/journal.py] ([append_journal_entry]),
    and proves properties of the embedded functions.

    Conventions of the embedding:
    - a Python [float] is an IEEE-754 binary64 value, represented by
      [spec_float] of the Standard Library with [prec = 53], [emax = 1024];
      arithmetic is the correctly rounded arithmetic of [SpecFloat];
    - the integer literals the engine compares metrics with (61, 60, 50, 75,
      25, 0, 1_000_000_000, 12, 3600, 100) are all exactly representable, and
      Python compares an [int] with a [float] by exact value, so a numeric
      metric is modelled by the binary64 value it denotes;
    - the engine object, the journal file, the clock and the output channels
      form an explicit world that every method threads; a Python exception is
      an explicit outcome that keeps the world as mutated so far. *)

From Stdlib Require Import ZArith QArith Qabs Bool List Lia Ascii String DecimalString.
From Stdlib Require Import Floats.SpecFloat.
From Stdlib Require DecimalPos DecimalN.
From stdpp Require Import gmap strings.

Local Open Scope Z_scope.

(** ** Binary64 numbers *)

Module Float.

Definition prec : Z := 53.
Definition emax : Z := 1024.

Definition float := spec_float.

Definition add : float -> float -> float := SFadd prec emax.
Definition sub : float -> float -> float := SFsub prec emax.
Definition mul : float -> float -> float := SFmul prec emax.
Definition div : float -> float -> float := SFdiv prec emax.
Definition abs : float -> float := SFabs.

(** [float(n)] for an integer [n] (round to nearest, ties to even). *)
Definition of_Z (n : Z) : float := binary_normalize prec emax n 0 false.

(** Python's comparison operators on floats: every comparison with a NaN
    operand is [False]. *)
Definition lt (x y : float) : bool := SFltb x y.
Definition le (x y : float) : bool := SFleb x y.
Definition gt (x y : float) : bool := SFltb y x.
Definition ge (x y : float) : bool := SFleb y x.
Definition eqb (x y : float) : bool := SFeqb x y.

(** The exact rational value of a finite float ([None] for NaN and the
    infinities). *)
Definition to_Q (x : float) : option Q :=
  match x with
  | S754_zero _ => Some 0%Q
  | S754_finite s m e =>
      let v := match e with
               | Z0 => inject_Z (Zpos m)
               | Zpos p => inject_Z (Zpos m * 2 ^ Zpos p)
               | Zneg p => Qmake (Zpos m) (2 ^ p)%positive
               end in
      Some (if s then Qopp v else v)
  | _ => None
  end.

(** Decimal literals of the source, as the nearest binary64 value. *)
Definition lit_0_70 : float := S754_finite false 6305039478318694 (-53).
Definition lit_0_25 : float := S754_finite false 4503599627370496 (-54).
Definition lit_0_05 : float := S754_finite false 7205759403792794 (-57).
Definition lit_0_45 : float := S754_finite false 8106479329266893 (-54).
Definition lit_0_50 : float := S754_finite false 4503599627370496 (-53).
Definition lit_0_60 : float := S754_finite false 5404319552844595 (-53).
Definition lit_0_35 : float := S754_finite false 6305039478318694 (-54).
Definition lit_0_10 : float := S754_finite false 7205759403792794 (-56).
Definition lit_1e9 : float := S754_finite false 8388608000000000 (-23).

End Float.

Abbreviation float := Float.float.

(** ** The metric snapshot

    [metrics] is a Python dict that the engine reads only through
    [metrics.get(key, default)] on six fixed keys; a field is [None] when the
    key is absent from the dict. *)

(** One element of [metrics['macro_events']], a dict. A field is [None] when
    the key is absent: subscripting it raises [KeyError]. *)
Record macro_event := {
  ev_event : option string;   (* event['event'] *)
  ev_date : option string     (* event['date'] *)
}.

Record Metrics := {
  btc_dominance : option float;
  alt_season_index : option float;
  btc_funding_rate : option float;
  hype_funding_rate : option float;
  stablecoin_delta : option float;
  macro_events : option (list macro_event)
}.

(** [d.get(key, default)] *)
Definition get {A} (field : option A) (dflt : A) : A :=
  match field with Some v => v | None => dflt end.

Definition empty_metrics : Metrics :=
  {| btc_dominance := None; alt_season_index := None; btc_funding_rate := None;
     hype_funding_rate := None; stablecoin_delta := None; macro_events := None |}.

(** ** Allocation *)

Definition Allocation : Type := float * float * float.

Definition BTC_DOMINANCE_PHASE : Allocation := (Float.lit_0_70, Float.lit_0_25, Float.lit_0_05).
Definition ALT_SEASON_PHASE : Allocation := (Float.lit_0_45, Float.lit_0_50, Float.lit_0_05).
Definition NEUTRAL_PHASE : Allocation := (Float.lit_0_60, Float.lit_0_35, Float.lit_0_05).

(** [TriggerEngine.calculate_allocation] (it reads no field of [self]). *)
Definition calculate_allocation (metrics : Metrics) : Allocation :=
  let btc_dom := get (btc_dominance metrics) (Float.of_Z 60) in
  let alt_index := get (alt_season_index metrics) (Float.of_Z 50) in
  if Float.ge btc_dom (Float.of_Z 61) && Float.lt alt_index (Float.of_Z 50) then
    BTC_DOMINANCE_PHASE
  else if Float.lt btc_dom (Float.of_Z 60) && Float.ge alt_index (Float.of_Z 50) then
    ALT_SEASON_PHASE
  else
    NEUTRAL_PHASE.

(** The sum of the three fractions as Python computes [a[0] + a[1] + a[2]]. *)
Definition allocation_sum (a : Allocation) : float :=
  let '(btc, alts, stables) := a in Float.add (Float.add btc alts) stables.

(** The sum of the exact rational values of the three fractions. *)
Definition allocation_exact_sum (a : Allocation) : option Q :=
  let '(btc, alts, stables) := a in
  match Float.to_Q btc, Float.to_Q alts, Float.to_Q stables with
  | Some x, Some y, Some z => Some (x + y + z)%Q
  | _, _, _ => None
  end.

(** [abs(q - 1.0) <= 1e-9] on exact values. *)
Definition within_1e_9_of_one (q : option Q) : bool :=
  match q with
  | Some v => Qle_bool (Qabs (v - 1)) (1 # 1000000000)
  | None => false
  end.

(** The two guarded bands of [calculate_allocation]. *)
Definition dominance_band (btc_dom alt_index : float) : bool :=
  Float.ge btc_dom (Float.of_Z 61) && Float.lt alt_index (Float.of_Z 50).

Definition alt_band (btc_dom alt_index : float) : bool :=
  Float.lt btc_dom (Float.of_Z 60) && Float.ge alt_index (Float.of_Z 50).

(** ** Values written to the journal *)

(** [change_pct] is an [int] literal at the evaluators' call sites and a
    [float] at the allocation update. *)
Inductive pynum :=
| PyInt (n : Z)
| PyFloat (x : float).

(** ** The Python runtime and the outside world *)

(** Library functions that the engine calls and that are pure. *)
Record Runtime := {
  (** [format(x, '.<digits>f')] *)
  format_f : nat -> float -> string;
  (** [format(x, '.<digits>%')] *)
  format_pct : nat -> float -> string;
  (** [datetime.strptime(s, '%Y-%m-%d')], in microseconds since the origin of
      [datetime]; [None] when it raises [ValueError] *)
  strptime_Ymd : string -> option Z
}.

(** What the outside world answers to the engine, call by call. *)
Record Env := {
  (** the reading of the [k]-th call of [time.time()] *)
  clock : nat -> float;
  (** the reading of the [k]-th call of [datetime.now()], in microseconds *)
  wall_clock : nat -> Z;
  (** [os.getenv('TG_TOKEN')] and [os.getenv('TG_CHAT')] *)
  TG_TOKEN : option string;
  TG_CHAT : option string;
  (** the [k]-th [requests.post] followed by [raise_for_status]: [None] when
      both pass, [Some e] when one raises an exception whose text is [e] *)
  requests_post : nat -> option string;
  (** whether the file operations of the [k]-th call of
      [append_journal_entry] fail with [OSError] *)
  journal_fails : nat -> bool
}.

(** Exceptions on the modelled paths. All are subclasses of [Exception]. *)
Inductive exn :=
| KeyError (key : string)
| ValueError
| OSError
| RequestException (text : string).

Inductive outcome (A : Type) :=
| Returned (a : A)
| Raised (e : exn).
Arguments Returned {A} a.
Arguments Raised {A} e.

(** ** The engine object *)

Record TriggerEngine := {
  last_allocation : option Allocation;
  last_trigger_time : gmap string float;
  cooldown_hours : Z
}.

(** [TriggerEngine.__init__] *)
Definition TriggerEngine_init : TriggerEngine :=
  {| last_allocation := None; last_trigger_time := ∅; cooldown_hours := 12 |}.

(** ** The world *)

(** A cell of a CSV row. *)
Inductive cell :=
| CStr (s : string)
| CNum (n : pynum)
| CTime (t : Z).   (* a [datetime] before [strftime] *)

(** Calls observed at the engine's boundary, oldest first: this is a history
    of what the engine did, not a field of the Python program. *)
Inductive event :=
| EvRecord (trigger_name : string) (t : float)               (* _record_trigger *)
| EvTelegram (text : string)                                 (* send_telegram_message(text) *)
| EvJournal (asset : string) (change_pct : pynum) (reason emotion : string).
                                                             (* append_journal_entry(...) *)

Record World := {
  self : TriggerEngine;
  clock_reads : nat;                       (* calls of time.time() so far *)
  now_reads : nat;                         (* calls of datetime.now() so far *)
  posts : nat;                             (* HTTP posts so far *)
  journal_calls : nat;                     (* calls of append_journal_entry so far *)
  journal_file : option (list (list cell)); (* trading_journal.csv; None: no such file *)
  stdout : list string;                    (* lines printed, oldest first *)
  chat : list string;                      (* messages delivered to the chat, oldest first *)
  trace : list event
}.

Definition set_self (f : TriggerEngine -> TriggerEngine) (w : World) : World :=
  {| self := f (self w); clock_reads := clock_reads w; now_reads := now_reads w;
     posts := posts w; journal_calls := journal_calls w; journal_file := journal_file w;
     stdout := stdout w; chat := chat w; trace := trace w |}.

Definition set_clock_reads (n : nat) (w : World) : World :=
  {| self := self w; clock_reads := n; now_reads := now_reads w;
     posts := posts w; journal_calls := journal_calls w; journal_file := journal_file w;
     stdout := stdout w; chat := chat w; trace := trace w |}.

Definition set_now_reads (n : nat) (w : World) : World :=
  {| self := self w; clock_reads := clock_reads w; now_reads := n;
     posts := posts w; journal_calls := journal_calls w; journal_file := journal_file w;
     stdout := stdout w; chat := chat w; trace := trace w |}.

Definition set_posts (n : nat) (w : World) : World :=
  {| self := self w; clock_reads := clock_reads w; now_reads := now_reads w;
     posts := n; journal_calls := journal_calls w; journal_file := journal_file w;
     stdout := stdout w; chat := chat w; trace := trace w |}.

Definition set_journal_calls (n : nat) (w : World) : World :=
  {| self := self w; clock_reads := clock_reads w; now_reads := now_reads w;
     posts := posts w; journal_calls := n; journal_file := journal_file w;
     stdout := stdout w; chat := chat w; trace := trace w |}.

Definition set_journal_file (f : option (list (list cell))) (w : World) : World :=
  {| self := self w; clock_reads := clock_reads w; now_reads := now_reads w;
     posts := posts w; journal_calls := journal_calls w; journal_file := f;
     stdout := stdout w; chat := chat w; trace := trace w |}.

Definition set_stdout (l : list string) (w : World) : World :=
  {| self := self w; clock_reads := clock_reads w; now_reads := now_reads w;
     posts := posts w; journal_calls := journal_calls w; journal_file := journal_file w;
     stdout := l; chat := chat w; trace := trace w |}.

Definition set_chat (l : list string) (w : World) : World :=
  {| self := self w; clock_reads := clock_reads w; now_reads := now_reads w;
     posts := posts w; journal_calls := journal_calls w; journal_file := journal_file w;
     stdout := stdout w; chat := l; trace := trace w |}.

Definition set_trace (l : list event) (w : World) : World :=
  {| self := self w; clock_reads := clock_reads w; now_reads := now_reads w;
     posts := posts w; journal_calls := journal_calls w; journal_file := journal_file w;
     stdout := stdout w; chat := chat w; trace := l |}.

(** The world in which a freshly constructed engine starts. *)
Definition initial_world : World :=
  {| self := TriggerEngine_init; clock_reads := 0; now_reads := 0; posts := 0;
     journal_calls := 0; journal_file := None; stdout := []; chat := []; trace := [] |}.

(** ** Computations: state passing with exceptions *)

Definition M (A : Type) : Type := World -> World * outcome A.

Definition ret {A} (a : A) : M A := fun w => (w, Returned a).

Definition raise {A} (e : exn) : M A := fun w => (w, Raised e).

Definition bind {A B} (m : M A) (k : A -> M B) : M B :=
  fun w =>
    match m w with
    | (w', Returned a) => k a w'
    | (w', Raised e) => (w', Raised e)
    end.

(** [try: body / except Exception: handler]; the world keeps what [body] did
    before it raised. *)
Definition try_except {A} (body : M A) (handler : exn -> M A) : M A :=
  fun w =>
    match body w with
    | (w', Returned a) => (w', Returned a)
    | (w', Raised e) => handler e w'
    end.

Declare Scope py_scope.
Delimit Scope py_scope with py.
Notation "x <- m ;; k" := (bind m (fun x => k))
  (at level 100, m at level 99, right associativity) : py_scope.
Notation "m ;; k" := (bind m (fun _ => k))
  (at level 100, right associativity) : py_scope.
Local Open Scope py_scope.

Definition gets {A} (f : World -> A) : M A := fun w => (w, Returned (f w)).

Definition modify (f : World -> World) : M unit := fun w => (f w, Returned tt).

(** [a and b], where [b] is evaluated only when [a] is true. *)
Definition and_then (a : bool) (b : M bool) : M bool :=
  if a then b else ret false.

(** [d[key]] on a dict whose entry is [field]. *)
Definition subscript {A} (key : string) (field : option A) : M A :=
  match field with
  | Some v => ret v
  | None => raise (KeyError key)
  end.

Definition log (e : event) : M unit := modify (fun w => set_trace (trace w ++ [e]) w).

Definition print (line : string) : M unit :=
  modify (fun w => set_stdout (stdout w ++ [line]) w).

(** The newline of a Python string literal. *)
Definition nl : string := String (Ascii.ascii_of_nat 10) EmptyString.

Section Engine.

Context (R : Runtime) (E : Env).

(** ** Clocks *)

(** [time.time()] *)
Definition time_time : M float :=
  k <- gets clock_reads ;;
  modify (set_clock_reads (S k)) ;;
  ret (clock E k).

(** [datetime.now()] *)
Definition datetime_now : M Z :=
  k <- gets now_reads ;;
  modify (set_now_reads (S k)) ;;
  ret (wall_clock E k).

(** ** src/telegram_utils.py *)

(** Truth value of what [os.getenv] returns: [None] and the empty string are
    false. *)
Definition truthy (v : option string) : bool :=
  match v with
  | Some (String _ _) => true
  | _ => false
  end.

(** [str(e)] *)
Definition exn_text (e : exn) : string :=
  match e with
  | KeyError key => "'" +:+ key +:+ "'"
  | ValueError => ""
  | OSError => ""
  | RequestException text => text
  end.

Definition send_telegram_message (text : string) : M bool :=
  log (EvTelegram text) ;;
  let token := TG_TOKEN E in
  let chat_id := TG_CHAT E in
  if negb (truthy token) || negb (truthy chat_id) then
    print ("Telegram alert (no bot configured): " +:+ text) ;;
    ret false
  else
    try_except
      (k <- gets posts ;;
       modify (set_posts (S k)) ;;
       match requests_post E k with
       | None => modify (fun w => set_chat (chat w ++ [text]) w) ;; ret true
       | Some e => raise (RequestException e)
       end)
      (fun e =>
         print ("Failed to send Telegram message: " +:+ exn_text e) ;;
         ret false).

(** ** src/journal.py *)

Definition journal_header : list cell :=
  [CStr "date"; CStr "asset"; CStr "change_pct"; CStr "reason"; CStr "emotion"].

Definition ensure_journal_exists : M unit :=
  f <- gets journal_file ;;
  match f with
  | None => modify (set_journal_file (Some [journal_header]))
  | Some _ => ret tt
  end.

(** The file operations of one call fail as a whole, before the file is
    touched, when the environment says so. *)
Definition append_journal_entry (asset : string) (change_pct : pynum)
    (reason emotion : string) : M unit :=
  log (EvJournal asset change_pct reason emotion) ;;
  k <- gets journal_calls ;;
  modify (set_journal_calls (S k)) ;;
  if journal_fails E k then raise OSError
  else
    ensure_journal_exists ;;
    f <- gets journal_file ;;
    now <- datetime_now ;;
    let row := [CTime now; CStr asset; CNum change_pct; CStr reason; CStr emotion] in
    modify (set_journal_file (Some (default [] f ++ [row]))).

(** ** src/triggers.py *)

Definition _should_trigger (trigger_name : string) : M bool :=
  now <- time_time ;;
  s <- gets self ;;
  let last_time := default (Float.of_Z 0) (last_trigger_time s !! trigger_name) in
  ret (Float.ge (Float.sub now last_time) (Float.of_Z (cooldown_hours s * 3600))).

Definition _record_trigger (trigger_name : string) : M unit :=
  t <- time_time ;;
  modify (set_self (fun s =>
    {| last_allocation := last_allocation s;
       last_trigger_time := <[trigger_name := t]> (last_trigger_time s);
       cooldown_hours := cooldown_hours s |})) ;;
  log (EvRecord trigger_name t).

Definition rotation_message (btc_dom alt_index : float) : string :=
  "🔄 *BTC.D < 60% & alt momentum ↑* – start rotation." +:+ nl +:+
  "BTC Dom: " +:+ format_f R 1 btc_dom +:+ "% | Alt Index: " +:+ format_f R 1 alt_index.

Definition check_rotation_triggers (metrics : Metrics) : M (option string) :=
  let btc_dom := get (btc_dominance metrics) (Float.of_Z 60) in
  let alt_index := get (alt_season_index metrics) (Float.of_Z 50) in
  let trigger_name := "rotation" in
  c <- and_then (Float.lt btc_dom (Float.of_Z 60) && Float.gt alt_index (Float.of_Z 50))
         (_should_trigger trigger_name) ;;
  if c then
    _record_trigger trigger_name ;;
    let message := rotation_message btc_dom alt_index in
    send_telegram_message message ;;
    append_journal_entry "ROTATION" (PyInt (-10)) "BTC.D <60, rotate" "😐" ;;
    ret (Some message)
  else
    ret None.

Definition alt_season_full_message (alt_index : float) : string :=
  "🚀 *Full alt-season (≥ 75)*" +:+ nl +:+ "Alt Index: " +:+ format_f R 1 alt_index.

Definition alt_season_end_message (alt_index : float) : string :=
  "📉 *Back to BTC dominance*" +:+ nl +:+ "Alt Index: " +:+ format_f R 1 alt_index.

Definition check_alt_season_triggers (metrics : Metrics) : M (option string) :=
  let alt_index := get (alt_season_index metrics) (Float.of_Z 50) in
  c <- and_then (Float.ge alt_index (Float.of_Z 75)) (_should_trigger "alt_season_full") ;;
  if c then
    _record_trigger "alt_season_full" ;;
    let message := alt_season_full_message alt_index in
    send_telegram_message message ;;
    append_journal_entry "ALTS" (PyInt 25) "Full alt-season" "🚀" ;;
    ret (Some message)
  else
    c <- and_then (Float.le alt_index (Float.of_Z 25)) (_should_trigger "alt_season_end") ;;
    if c then
      _record_trigger "alt_season_end" ;;
      let message := alt_season_end_message alt_index in
      send_telegram_message message ;;
      append_journal_entry "BTC" (PyInt 20) "Back to BTC dominance" "📉" ;;
      ret (Some message)
    else
      ret None.

Definition funding_message (asset : string) (funding : float) : string :=
  "⚠️ *Crowded leverage: " +:+ asset +:+ "*" +:+ nl +:+
  "Funding: " +:+ format_f R 3 funding +:+ "%/8h".

Definition funding_reason (asset : string) (funding : float) : string :=
  "Crowded leverage: " +:+ asset +:+ ". Funding " +:+ format_f R 3 funding +:+ "%".

Definition check_funding_triggers (metrics : Metrics) : M (option string) :=
  let btc_funding := get (btc_funding_rate metrics) (Float.of_Z 0) in
  let hype_funding := get (hype_funding_rate metrics) (Float.of_Z 0) in
  let messages := [] in
  c <- and_then (Float.ge (Float.abs btc_funding) Float.lit_0_10)
         (_should_trigger "funding_btc") ;;
  messages <-
    (if c then
       _record_trigger "funding_btc" ;;
       let message := funding_message "BTC" btc_funding in
       send_telegram_message message ;;
       append_journal_entry "BTC" (PyInt (-20)) (funding_reason "BTC" btc_funding) "⚠️" ;;
       ret (messages ++ [message])
     else ret messages) ;;
  c <- and_then (Float.ge (Float.abs hype_funding) Float.lit_0_10)
         (_should_trigger "funding_hype") ;;
  messages <-
    (if c then
       _record_trigger "funding_hype" ;;
       let message := funding_message "HYPE" hype_funding in
       send_telegram_message message ;;
       append_journal_entry "HYPE" (PyInt (-20)) (funding_reason "HYPE" hype_funding) "⚠️" ;;
       ret (messages ++ [message])
     else ret messages) ;;
  ret (match messages with
       | [] => None
       | _ => Some (String.concat "; " messages)
       end).

Definition stablecoin_message (stable_delta : float) : string :=
  "💰 *New stable-coin issuance – ammo loaded*" +:+ nl +:+
  "7d Change: $" +:+ format_f R 1 (Float.div stable_delta Float.lit_1e9) +:+ "B".

Definition check_stablecoin_triggers (metrics : Metrics) : M (option string) :=
  let stable_delta := get (stablecoin_delta metrics) (Float.of_Z 0) in
  c <- and_then (Float.ge stable_delta (Float.of_Z 1000000000))
         (_should_trigger "stablecoin_issuance") ;;
  if c then
    _record_trigger "stablecoin_issuance" ;;
    let message := stablecoin_message stable_delta in
    send_telegram_message message ;;
    append_journal_entry "STABLES" (PyInt 10) "New stable-coin issuance" "💰" ;;
    ret (Some message)
  else
    ret None.

(** [timedelta.total_seconds()] of a difference of [d] microseconds: the
    quotient [d / 10**6] as a float (one rounding in Python; the two roundings
    here agree with it whenever [|d| < 2**53], about 285 years). *)
Definition total_seconds (d : Z) : float :=
  Float.div (Float.of_Z d) (Float.of_Z 1000000).

Definition macro_trigger_name (name : string) : string := "macro_" +:+ name.

Definition macro_message (name date : string) : string :=
  "📅 *Macro in play: " +:+ name +:+ "*" +:+ nl +:+ "Date: " +:+ date.

Definition macro_reason (name : string) : string := "Macro in play: " +:+ name.

(** The body of the [try] for one event: [Some message] when it executes
    [return message], [None] when it falls through to the next iteration. *)
Definition macro_try_body (now : Z) (event : macro_event) : M (option string) :=
  date <- subscript "date" (ev_date event) ;;
  event_date <- match strptime_Ymd R date with
                | Some d => ret d
                | None => raise ValueError
                end ;;
  let time_diff :=
    Float.abs (Float.div (total_seconds (event_date - now)) (Float.of_Z 3600)) in
  c <- and_then (Float.le time_diff (Float.of_Z 12))
         (name <- subscript "event" (ev_event event) ;;
          _should_trigger (macro_trigger_name name)) ;;
  if c then
    name <- subscript "event" (ev_event event) ;;
    _record_trigger (macro_trigger_name name) ;;
    name <- subscript "event" (ev_event event) ;;
    date <- subscript "date" (ev_date event) ;;
    let message := macro_message name date in
    send_telegram_message message ;;
    name <- subscript "event" (ev_event event) ;;
    append_journal_entry "CASH" (PyInt 0) (macro_reason name) "📅" ;;
    ret (Some message)
  else
    ret None.

(** The [for] loop; [except Exception: continue] skips to the next event. *)
Fixpoint macro_loop (now : Z) (events : list macro_event) : M (option string) :=
  match events with
  | [] => ret None
  | event :: rest =>
      r <- try_except (macro_try_body now event) (fun _ => ret None) ;;
      match r with
      | Some message => ret (Some message)
      | None => macro_loop now rest
      end
  end.

Definition check_macro_triggers (metrics : Metrics) : M (option string) :=
  let macro_events := get (macro_events metrics) [] in
  now <- datetime_now ;;
  macro_loop now macro_events.

(** The dict that [check_all_triggers] returns. *)
Record Results := {
  res_rotation : option string;
  res_alt_season : option string;
  res_funding : option string;
  res_stablecoin : option string;
  res_macro : option string;
  res_allocation : Allocation
}.

(** [a != b] on tuples of three floats. *)
Definition allocation_ne (a b : Allocation) : bool :=
  let '(a0, a1, a2) := a in
  let '(b0, b1, b2) := b in
  negb (Float.eqb a0 b0 && Float.eqb a1 b1 && Float.eqb a2 b2).

Definition allocation_message (a : Allocation) : string :=
  let '(a0, a1, a2) := a in
  "📊 *Allocation Update*" +:+ nl +:+
  "BTC: " +:+ format_pct R 0 a0 +:+ " | ALTS: " +:+ format_pct R 0 a1 +:+
  " | STABLES: " +:+ format_pct R 0 a2.

Definition check_all_triggers (metrics : Metrics) : M Results :=
  rotation <- check_rotation_triggers metrics ;;
  alt_season <- check_alt_season_triggers metrics ;;
  funding <- check_funding_triggers metrics ;;
  stablecoin <- check_stablecoin_triggers metrics ;;
  macro <- check_macro_triggers metrics ;;
  let current_allocation := calculate_allocation metrics in
  s <- gets self ;;
  match last_allocation s with
  | Some last =>
      if allocation_ne last current_allocation then
        let btc_change :=
          Float.mul (Float.sub (fst (fst current_allocation)) (fst (fst last)))
                    (Float.of_Z 100) in
        let message := allocation_message current_allocation in
        send_telegram_message message ;;
        append_journal_entry "ALLOCATION" (PyFloat btc_change)
                             "Auto allocation update" "📊"
      else ret tt
  | None => ret tt
  end ;;
  modify (set_self (fun s =>
    {| last_allocation := Some current_allocation;
       last_trigger_time := last_trigger_time s;
       cooldown_hours := cooldown_hours s |})) ;;
  ret {| res_rotation := rotation; res_alt_season := alt_season;
         res_funding := funding; res_stablecoin := stablecoin;
         res_macro := macro; res_allocation := current_allocation |}.

End Engine.

(** ** A reference runtime

    CPython's behaviour for the three library functions, used to run the
    engine on concrete snapshots. The properties below hold for every
    runtime. *)

Module CPython.

(** The decimal digits of a natural number. *)
Definition digits_of_N (n : N) : string := NilZero.string_of_uint (N.to_uint n).

(** [s] padded on the left with zeros to a width of [width]. *)
Fixpoint zero_pad (fuel : nat) (width : nat) (s : string) : string :=
  match fuel with
  | O => s
  | S fuel' =>
      if (String.length s <? width)%nat then zero_pad fuel' width ("0" +:+ s) else s
  end.

(** [n / d] rounded to the nearest integer, ties to even ([0 <= n], [0 < d]). *)
Definition div_half_even (n d : Z) : Z :=
  let q := n / d in
  let r := n mod d in
  match (2 * r ?= d) with
  | Lt => q
  | Gt => q + 1
  | Eq => if Z.even q then q else q + 1
  end.

(** [format(x, '.<digits>f')]: the exact value of [x], correctly rounded to
    [digits] decimals. *)
Definition format_f (digits : nat) (x : float) : string :=
  let fixed (s : bool) (num den : Z) : string :=
    let scale := 10 ^ Z.of_nat digits in
    let q := div_half_even (num * scale) den in
    let int_part := digits_of_N (Z.to_N (q / scale)) in
    let frac_part := zero_pad digits digits (digits_of_N (Z.to_N (q mod scale))) in
    (if s then "-" else "") +:+ int_part +:+
    match digits with
    | O => ""
    | _ => "." +:+ frac_part
    end in
  match x with
  | S754_nan => "nan"
  | S754_infinity s => if s then "-inf" else "inf"
  | S754_zero s => fixed s 0 1
  | S754_finite s m e =>
      match e with
      | Zneg p => fixed s (Zpos m) (2 ^ Zpos p)
      | _ => fixed s (Zpos m * 2 ^ e) 1
      end
  end.

(** [format(x, '.<digits>%')]: CPython multiplies by 100 in binary64, then
    formats as ['f'] and appends the percent sign. *)
Definition format_pct (digits : nat) (x : float) : string :=
  format_f digits (Float.mul x (Float.of_Z 100)) +:+ "%".

Definition digit_of (c : Ascii.ascii) : option Z :=
  let n := Z.of_nat (Ascii.nat_of_ascii c) in
  if (48 <=? n) && (n <=? 57) then Some (n - 48) else None.

Definition is_leap (y : Z) : bool :=
  (y mod 4 =? 0) && (negb (y mod 100 =? 0) || (y mod 400 =? 0)).

Definition days_in_month (y m : Z) : Z :=
  if m =? 2 then (if is_leap y then 29 else 28)
  else if (m =? 4) || (m =? 6) || (m =? 9) || (m =? 11) then 30
  else 31.

Definition days_before_month (y m : Z) : Z :=
  let cumulative := nth (Z.to_nat (m - 1)) [0; 31; 59; 90; 120; 151; 181; 212; 243; 273; 304; 334] 0 in
  cumulative + (if (2 <? m) && is_leap y then 1 else 0).

(** Days from 0001-01-01 to the given date. *)
Definition days_from_origin (y m d : Z) : Z :=
  let y' := y - 1 in
  y' * 365 + y' / 4 - y' / 100 + y' / 400 + days_before_month y m + (d - 1).

(** [%m]: the regular expression [1[0-2]|0[1-9]|[1-9]], which must be followed
    by the hyphen of the format. Returns the month and the rest after the
    hyphen. *)
Definition parse_month (s : string) : option (Z * string) :=
  let one :=
    match s with
    | String a (String "-"%char rest) =>
        match digit_of a with
        | Some m => if 1 <=? m then Some (m, rest) else None
        | None => None
        end
    | _ => None
    end in
  match s with
  | String a (String b (String "-"%char rest)) =>
      match digit_of a, digit_of b with
      | Some x, Some y =>
          let m := 10 * x + y in
          if (1 <=? m) && (m <=? 12) then Some (m, rest) else one
      | _, _ => one
      end
  | _ => one
  end.

(** [%d]: the regular expression [3[01]|[12]\d|0[1-9]|[1-9]| [1-9]]; whatever
    it leaves unconsumed makes [strptime] raise. *)
Definition parse_day (s : string) : option Z :=
  match s with
  | String a EmptyString =>
      match digit_of a with
      | Some d => if 1 <=? d then Some d else None
      | None => None
      end
  | String a (String b EmptyString) =>
      match digit_of a, digit_of b with
      | Some x, Some y =>
          let d := 10 * x + y in
          if (1 <=? d) && (d <=? 31) then Some d else None
      | None, Some y =>
          if Ascii.eqb a " "%char && (1 <=? y) then Some y else None
      | _, _ => None
      end
  | _ => None
  end.

(** [datetime.strptime(s, '%Y-%m-%d')] as microseconds from 0001-01-01. *)
Definition strptime_Ymd (s : string) : option Z :=
  match s with
  | String a (String b (String c (String d (String "-"%char rest)))) =>
      match digit_of a, digit_of b, digit_of c, digit_of d with
      | Some a, Some b, Some c, Some d =>
          let year := 1000 * a + 100 * b + 10 * c + d in
          match parse_month rest with
          | Some (month, rest) =>
              match parse_day rest with
              | Some day =>
                  if (1 <=? year) && (day <=? days_in_month year month) then
                    Some (days_from_origin year month day * 86400 * 1000000)
                  else None
              | None => None
              end
          | None => None
          end
      | _, _, _, _ => None
      end
  | _ => None
  end.

Definition runtime : Runtime := Build_Runtime format_f format_pct strptime_Ymd.

End CPython.

(** ** Vocabulary of the properties *)

(** The comparison that [_should_trigger] makes, for an engine [s] and a
    clock reading [now]. *)
Definition eligible (s : TriggerEngine) (trigger_name : string) (now : float) : bool :=
  Float.ge (Float.sub now (default (Float.of_Z 0) (last_trigger_time s !! trigger_name)))
           (Float.of_Z (cooldown_hours s * 3600)).

(** The engine after [_record_trigger] wrote [t] for [trigger_name]. *)
Definition recorded (trigger_name : string) (t : float) (s : TriggerEngine) : TriggerEngine :=
  {| last_allocation := last_allocation s;
     last_trigger_time := <[trigger_name := t]> (last_trigger_time s);
     cooldown_hours := cooldown_hours s |}.

(** The cooldown window of a constructed engine, in seconds. *)
Definition window : float := Float.of_Z 43200.

(** The world and the outcome of a computation. *)
Definition world_after {A} (m : M A) (w : World) : World := fst (m w).
Definition outcome_of {A} (m : M A) (w : World) : outcome A := snd (m w).

(** A history made of firings only: each is a cooldown record followed by
    the notification and the journal call of the same firing. *)
Fixpoint firing_blocks (h : list event) : bool :=
  match h with
  | [] => true
  | EvRecord _ _ :: EvTelegram _ :: EvJournal _ _ _ _ :: rest => firing_blocks rest
  | _ => false
  end.

(** The cooldown map after the records of a history, applied in order. *)
Fixpoint replay (h : list event) (m : gmap string float) : gmap string float :=
  match h with
  | [] => m
  | EvRecord k t :: rest => replay rest (<[k := t]> m)
  | _ :: rest => replay rest m
  end.

(** The trigger names recorded in a history. *)
Fixpoint recorded_names (h : list event) : list string :=
  match h with
  | [] => []
  | EvRecord k _ :: rest => k :: recorded_names rest
  | _ :: rest => recorded_names rest
  end.

(** The texts sent to the notification sink in a history. *)
Fixpoint notifications (h : list event) : list string :=
  match h with
  | [] => []
  | EvTelegram text :: rest => text :: notifications rest
  | _ :: rest => notifications rest
  end.

(** What a computation did to the engine, the history and the counters:
    the engine is [s'], the history grew by [h], and the computation made
    [dc] clock readings and [dj] journal calls. *)
Definition stepped (w w' : World) (s' : TriggerEngine) (h : list event) (dc dj : nat) : Prop :=
  self w' = s'
  /\ trace w' = trace w ++ h
  /\ clock_reads w' = (clock_reads w + dc)%nat
  /\ journal_calls w' = (journal_calls w + dj)%nat.

(** The three events of one firing. *)
Definition firing (trigger_name : string) (t : float) (message asset : string)
    (change_pct : pynum) (reason emotion : string) : list event :=
  [EvRecord trigger_name t; EvTelegram message; EvJournal asset change_pct reason emotion].

(** The world after one more clock reading. *)
Definition tick (w : World) : World := set_clock_reads (S (clock_reads w)) w.

(** The guards of the evaluators on the snapshot, cooldown apart. *)
Definition rotation_condition (metrics : Metrics) : bool :=
  Float.lt (get (btc_dominance metrics) (Float.of_Z 60)) (Float.of_Z 60)
  && Float.gt (get (alt_season_index metrics) (Float.of_Z 50)) (Float.of_Z 50).

Definition alt_season_full_condition (metrics : Metrics) : bool :=
  Float.ge (get (alt_season_index metrics) (Float.of_Z 50)) (Float.of_Z 75).

Definition alt_season_end_condition (metrics : Metrics) : bool :=
  Float.le (get (alt_season_index metrics) (Float.of_Z 50)) (Float.of_Z 25).

Definition funding_btc_condition (metrics : Metrics) : bool :=
  Float.ge (Float.abs (get (btc_funding_rate metrics) (Float.of_Z 0))) Float.lit_0_10.

Definition funding_hype_condition (metrics : Metrics) : bool :=
  Float.ge (Float.abs (get (hype_funding_rate metrics) (Float.of_Z 0))) Float.lit_0_10.

Definition stablecoin_condition (metrics : Metrics) : bool :=
  Float.ge (get (stablecoin_delta metrics) (Float.of_Z 0)) (Float.of_Z 1000000000).

(** ["; ".join(messages) if messages else None] *)
Definition joined (messages : list string) : option string :=
  match messages with
  | [] => None
  | _ => Some (String.concat "; " messages)
  end.

(** What [check_funding_triggers] returns when it returns. *)
Definition funding_result (btc_fires hype_fires : bool) (btc_message hype_message : string)
  : option string :=
  match btc_fires, hype_fires with
  | true, true => Some (btc_message +:+ "; " +:+ hype_message)
  | true, false => Some btc_message
  | false, true => Some hype_message
  | false, false => None
  end.

(** The engine after the records of a history. *)
Definition replayed (h : list event) (s : TriggerEngine) : TriggerEngine :=
  {| last_allocation := last_allocation s;
     last_trigger_time := replay h (last_trigger_time s);
     cooldown_hours := cooldown_hours s |}.

(** Every record of the history [h] is for a name in [own], was written at a
    clock reading made during the computation, and follows a cooldown check
    that succeeded against the engine as it was at that point. [c] and [c']
    are the numbers of clock readings before and after the computation. *)
Definition checked_records (E : Env) (own : string -> Prop) (s : TriggerEngine)
    (c c' : nat) (h : list event) : Prop :=
  forall pre k t post, h = pre ++ EvRecord k t :: post ->
    own k
    /\ exists j i, (c <= j)%nat /\ (j < i)%nat /\ (i < c')%nat /\ t = clock E i
         /\ eligible (replayed pre s) k (clock E j) = true.

(** What an evaluator does, whatever its outcome: the history grows by
    firings only, the engine is the old one with the records of these firings
    and nothing else changed, there is one journal call per firing, every
    record is checked, and an exception can only be the [OSError] of the last
    journal call. *)
Definition summary {A} (E : Env) (own : string -> Prop) (w : World)
    (r : World * outcome A) : Prop :=
  exists h,
    trace (fst r) = trace w ++ h
    /\ firing_blocks h = true
    /\ self (fst r) = replayed h (self w)
    /\ (clock_reads w <= clock_reads (fst r))%nat
    /\ journal_calls (fst r) = (journal_calls w + length (recorded_names h))%nat
    /\ checked_records E own (self w) (clock_reads w) (clock_reads (fst r)) h
    /\ (forall e, snd r = Raised e ->
          e = OSError
          /\ (journal_calls w < journal_calls (fst r))%nat
          /\ journal_fails E (pred (journal_calls (fst r))) = true).

(** The cooldown names of each evaluator. *)
Definition rotation_keys (k : string) : Prop := k = "rotation".
Definition alt_season_keys (k : string) : Prop := k = "alt_season_full" \/ k = "alt_season_end".
Definition funding_keys (k : string) : Prop := k = "funding_btc" \/ k = "funding_hype".
Definition stablecoin_keys (k : string) : Prop := k = "stablecoin_issuance".
Definition macro_keys (events : list macro_event) (k : string) : Prop :=
  exists event name, In event events /\ ev_event event = Some name
                     /\ k = macro_trigger_name name.

(** Whether the date of a macro event parses and lies within 12 hours of
    [now], as [check_macro_triggers] computes it. *)
Definition event_in_window (R : Runtime) (now : Z) (event : macro_event) : bool :=
  match ev_date event with
  | Some date =>
      match strptime_Ymd R date with
      | Some event_date =>
          Float.le (Float.abs (Float.div (total_seconds (event_date - now))
                                         (Float.of_Z 3600)))
                   (Float.of_Z 12)
      | None => false
      end
  | None => false
  end.

(** The name and the date of an event that qualifies, cooldown apart: its
    date parses and lies in the window, and it has a name. *)
Definition macro_candidate (R : Runtime) (now : Z) (event : macro_event)
  : option (string * string) :=
  if event_in_window R now event then
    match ev_event event, ev_date event with
    | Some name, Some date => Some (name, date)
    | _, _ => None
    end
  else None.

(** The first qualifying event, in the words of the specification: scanning
    the events in order, the first one that is a candidate (date parses and
    lies within 12 hours of [now], name present) and whose cooldown name is
    eligible for the engine [s]. Each candidate is checked at its own clock
    reading, the first at reading number [c]. Returns the name, the date and
    the number of the reading of the check. *)
Fixpoint first_qualifying (R : Runtime) (E : Env) (s : TriggerEngine) (now : Z) (c : nat)
    (events : list macro_event) : option (string * string * nat) :=
  match events with
  | [] => None
  | event :: rest =>
      match macro_candidate R now event with
      | Some (name, date) =>
          if eligible s (macro_trigger_name name) (clock E c) then Some (name, date, c)
          else first_qualifying R E s now (S c) rest
      | None => first_qualifying R E s now c rest
      end
  end.

(** Whether the date field of an event is present and parses. *)
Definition date_parses (R : Runtime) (event : macro_event) : bool :=
  match ev_date event with
  | Some date => match strptime_Ymd R date with Some _ => true | None => false end
  | None => false
  end.

(** The two phases of [check_all_triggers]: the five evaluators in the order
    of the dict literal, then the allocation update. *)
Definition evaluators (R : Runtime) (E : Env) (metrics : Metrics)
  : M (option string * option string * option string * option string * option string) :=
  (rotation <- check_rotation_triggers R E metrics ;;
   alt_season <- check_alt_season_triggers R E metrics ;;
   funding <- check_funding_triggers R E metrics ;;
   stablecoin <- check_stablecoin_triggers R E metrics ;;
   macro <- check_macro_triggers R E metrics ;;
   ret (rotation, alt_season, funding, stablecoin, macro))%py.

(** The engine after [self.last_allocation = a]. *)
Definition stored (a : Allocation) (s : TriggerEngine) : TriggerEngine :=
  {| last_allocation := Some a;
     last_trigger_time := last_trigger_time s;
     cooldown_hours := cooldown_hours s |}.

(** The events of one allocation update. *)
Definition allocation_events (R : Runtime) (last current : Allocation) : list event :=
  [EvTelegram (allocation_message R current);
   EvJournal "ALLOCATION"
     (PyFloat (Float.mul (Float.sub (fst (fst current)) (fst (fst last))) (Float.of_Z 100)))
     "Auto allocation update" "📊"].

(** The prior allocation when there is one and [current] differs from it. *)
Definition allocation_changed (s : TriggerEngine) (current : Allocation) : option Allocation :=
  match last_allocation s with
  | Some last => if allocation_ne last current then Some last else None
  | None => None
  end.

Definition allocation_update (R : Runtime) (E : Env) (metrics : Metrics) : M Allocation :=
  (let current_allocation := calculate_allocation metrics in
   s <- gets self ;;
   match last_allocation s with
   | Some last =>
       if allocation_ne last current_allocation then
         let btc_change :=
           Float.mul (Float.sub (fst (fst current_allocation)) (fst (fst last)))
                     (Float.of_Z 100) in
         let message := allocation_message R current_allocation in
         send_telegram_message E message ;;
         append_journal_entry E "ALLOCATION" (PyFloat btc_change)
                              "Auto allocation update" "📊"
       else ret tt
   | None => ret tt
   end ;;
   modify (set_self (stored current_allocation)) ;;
   ret current_allocation)%py.

(** The three tuples that [calculate_allocation] can return. *)
Definition is_phase (a : Allocation) : Prop :=
  a = BTC_DOMINANCE_PHASE \/ a = ALT_SEASON_PHASE \/ a = NEUTRAL_PHASE.

(** Every cooldown name the engine can use on a snapshot. *)
Definition all_keys (metrics : Metrics) (k : string) : Prop :=
  rotation_keys k \/ alt_season_keys k \/ funding_keys k \/ stablecoin_keys k
  \/ macro_keys (get (macro_events metrics) []) k.


(** The five trigger categories, their evaluators and their cooldown names. *)
Inductive category := Rotation | AltSeason | Funding | Stablecoin | Macro.

Definition evaluator (R : Runtime) (E : Env) (c : category)
  : Metrics -> M (option string) :=
  match c with
  | Rotation => check_rotation_triggers R E
  | AltSeason => check_alt_season_triggers R E
  | Funding => check_funding_triggers R E
  | Stablecoin => check_stablecoin_triggers R E
  | Macro => check_macro_triggers R E
  end.

Definition keys_of (c : category) (metrics : Metrics) : string -> Prop :=
  match c with
  | Rotation => rotation_keys
  | AltSeason => alt_season_keys
  | Funding => funding_keys
  | Stablecoin => stablecoin_keys
  | Macro => macro_keys (get (macro_events metrics) [])
  end.

(** The world with another instant recorded for [k]. *)
Definition poke (k : string) (t : float) (w : World) : World :=
  set_self (recorded k t) w.

(** A computation that neither reads nor writes the instant recorded for
    [k]: with another instant for [k] it ends in the same world, up to that
    instant, with the same outcome. *)
Definition unaffected {A} (k : string) (m : M A) : Prop :=
  forall t w, m (poke k t w) = (poke k t (fst (m w)), snd (m w)).

(** The snapshot with another list under ['macro_events']. *)
Definition with_macro_events (events : list macro_event) (metrics : Metrics) : Metrics :=
  {| btc_dominance := btc_dominance metrics;
     alt_season_index := alt_season_index metrics;
     btc_funding_rate := btc_funding_rate metrics;
     hype_funding_rate := hype_funding_rate metrics;
     stablecoin_delta := stablecoin_delta metrics;
     macro_events := Some events |}.

(** What a history holds when the evaluator of a category returned an alert:
    a record for one of its cooldown names, whose condition held on the
    snapshot. *)
Definition fired (c : category) (metrics : Metrics) (h : list event) : Prop :=
  match c with
  | Rotation => In "rotation" (recorded_names h)
  | AltSeason =>
      (alt_season_full_condition metrics = true /\ In "alt_season_full" (recorded_names h))
      \/ (alt_season_end_condition metrics = true /\ In "alt_season_end" (recorded_names h))
  | Funding =>
      (funding_btc_condition metrics = true /\ In "funding_btc" (recorded_names h))
      \/ (funding_hype_condition metrics = true /\ In "funding_hype" (recorded_names h))
  | Stablecoin => In "stablecoin_issuance" (recorded_names h)
  | Macro =>
      exists k, macro_keys (get (macro_events metrics) []) k /\ In k (recorded_names h)
  end.

(** The value that a computation returned, if it returned. *)
Definition returned {A} (o : outcome A) : option A :=
  match o with
  | Returned a => Some a
  | Raised _ => None
  end.

(** A new engine's world in which [funding_hype] was recorded at 6803 s. *)
Definition hype_recorded_world : World :=
  set_self (recorded "funding_hype" (Float.of_Z 6803)) initial_world.

(** A concrete environment: the clock reads [start], [start + 1], ... seconds,
    the wall clock stands at [wall] microseconds, no bot is configured, and
    the journal fails on the calls listed in [failing]. *)
Definition test_env (start : Z) (wall : Z) (failing : list nat) : Env :=
  {| clock := fun k => Float.of_Z (start + Z.of_nat k);
     wall_clock := fun _ => wall;
     TG_TOKEN := None; TG_CHAT := None;
     requests_post := fun _ => None;
     journal_fails := fun k => bool_decide (k ∈ failing) |}.

(** Snapshots and worlds for running the engine. *)

(** [btc_dominance = 55], [alt_season_index = 80]: the rotation and the full
    alt-season conditions hold. *)
Definition rotation_metrics : Metrics :=
  {| btc_dominance := Some (Float.of_Z 55);
     alt_season_index := Some (Float.of_Z 80);
     btc_funding_rate := None; hype_funding_rate := None;
     stablecoin_delta := None; macro_events := None |}.

(** Both funding rates at 0.25 percent. *)
Definition funding_metrics : Metrics :=
  {| btc_dominance := None; alt_season_index := None;
     btc_funding_rate := Some Float.lit_0_25;
     hype_funding_rate := Some Float.lit_0_25;
     stablecoin_delta := None; macro_events := None |}.

(** Two macro events dated 2025-07-12, an unparsable one between them. *)
Definition macro_metrics : Metrics :=
  {| btc_dominance := None; alt_season_index := None;
     btc_funding_rate := None; hype_funding_rate := None;
     stablecoin_delta := None;
     macro_events :=
       Some [ {| ev_event := Some "Fed Meeting"; ev_date := Some "2025-07-12" |};
              {| ev_event := Some "Payrolls"; ev_date := Some "12 July 2025" |};
              {| ev_event := Some "CPI"; ev_date := Some "2025-07-12" |} ] |}.

(** 2025-07-12 06:00:00 in microseconds since 0001-01-01. *)
Definition morning_of_event : Z := 63887875200000000 + 6 * 3600 * 1000000.

(** A snapshot on the boundary: [btc_dominance = 60.5], [alt_season_index = 40]. *)
Definition boundary_metrics : Metrics :=
  {| btc_dominance := Some (Float.div (Float.of_Z 121) (Float.of_Z 2));
     alt_season_index := Some (Float.of_Z 40);
     btc_funding_rate := None; hype_funding_rate := None;
     stablecoin_delta := None; macro_events := None |}.

(** Scenario A of the specification: nothing fires. *)
Definition scenario_A_metrics : Metrics :=
  {| btc_dominance := Some (Float.of_Z 65);
     alt_season_index := Some (Float.of_Z 40);
     btc_funding_rate := Some Float.lit_0_05;
     hype_funding_rate := Some Float.lit_0_05;
     stablecoin_delta := Some (Float.of_Z 0);
     macro_events := Some [] |}.

(** ** Vocabulary of the sinks and of a session *)

(** Whether a bot is configured: [token] and [chat_id] are both non-empty. *)
Definition configured (E : Env) : bool := truthy (TG_TOKEN E) && truthy (TG_CHAT E).

(** Whether the [k]-th post of the session passes. *)
Definition post_ok (E : Env) (k : nat) : bool :=
  match requests_post E k with
  | None => true
  | Some _ => false
  end.

(** Of the texts passed to [send_telegram_message] in turn, those that reach
    the chat, when [k] posts were made before. *)
Fixpoint delivered (E : Env) (k : nat) (texts : list string) : list string :=
  match texts with
  | [] => []
  | text :: rest =>
      if configured E then
        if post_ok E k then text :: delivered E (S k) rest else delivered E (S k) rest
      else delivered E k rest
  end.

(** The lines printed for the texts that do not reach the chat. *)
Fixpoint console (E : Env) (k : nat) (texts : list string) : list string :=
  match texts with
  | [] => []
  | text :: rest =>
      if configured E then
        match requests_post E k with
        | None => console E (S k) rest
        | Some e => ("Failed to send Telegram message: " +:+ e) :: console E (S k) rest
        end
      else ("Telegram alert (no bot configured): " +:+ text) :: console E k rest
  end.

(** The arguments of the journal calls of a history. *)
Fixpoint journal_requests (h : list event) : list (string * pynum * string * string) :=
  match h with
  | [] => []
  | EvJournal asset change_pct reason emotion :: rest =>
      (asset, change_pct, reason, emotion) :: journal_requests rest
  | _ :: rest => journal_requests rest
  end.

(** Of the journal calls made in turn, those whose file operations pass,
    when [k] calls were made before. *)
Fixpoint written {A} (E : Env) (k : nat) (calls : list A) : list A :=
  match calls with
  | [] => []
  | call :: rest =>
      if journal_fails E k then written E (S k) rest else call :: written E (S k) rest
  end.

(** The columns of a journal row after the date. *)
Definition row_data (row : list cell) : option (string * pynum * string * string) :=
  match row with
  | [CTime _; CStr asset; CNum change_pct; CStr reason; CStr emotion] =>
      Some (asset, change_pct, reason, emotion)
  | _ => None
  end.

(** The file after [rows] were appended by calls of [append_journal_entry]:
    the first of them creates the file with its header when there is none. *)
Definition extend (f : option (list (list cell))) (rows : list (list cell))
  : option (list (list cell)) :=
  match rows with
  | [] => f
  | _ => Some (default [journal_header] f ++ rows)
  end.

(** A computation [m] keeps the relation [Rel] between the world it starts in
    and the world it ends in, whatever its outcome. *)
Definition keeps {A} (Rel : World -> World -> Prop) (m : M A) : Prop :=
  forall w, Rel w (fst (m w)).

(** What a computation does to the notification sink. *)
Definition notified (E : Env) (w w' : World) : Prop :=
  exists h,
    trace w' = trace w ++ h
    /\ posts w' = (posts w + if configured E then length (notifications h) else 0)%nat
    /\ chat w' = chat w ++ delivered E (posts w) (notifications h)
    /\ stdout w' = stdout w ++ console E (posts w) (notifications h).

(** What a computation does to the journal. *)
Definition journaled (E : Env) (w w' : World) : Prop :=
  exists h rows,
    trace w' = trace w ++ h
    /\ journal_calls w' = (journal_calls w + length (journal_requests h))%nat
    /\ journal_file w' = extend (journal_file w) rows
    /\ map row_data rows = map Some (written E (journal_calls w) (journal_requests h)).

(** A session of the dashboard: the engine is kept between refreshes, and
    each refresh calls [check_all_triggers] on a new snapshot, whether the
    previous call returned or raised. *)
Fixpoint session (R : Runtime) (E : Env) (snapshots : list Metrics) (w : World) : World :=
  match snapshots with
  | [] => w
  | metrics :: rest => session R E rest (world_after (check_all_triggers R E metrics) w)
  end.

(** The cooldown names of the snapshots of a session. *)
Definition session_keys (snapshots : list Metrics) (k : string) : Prop :=
  exists metrics, In metrics snapshots /\ all_keys metrics k.

(** No event of the snapshot lies within 12 hours of [now] with a name and a
    date that parses. *)
Definition no_macro_candidate (R : Runtime) (now : Z) (metrics : Metrics) : bool :=
  forallb (fun event => match macro_candidate R now event with
                        | Some _ => false
                        | None => true
                        end)
          (get (macro_events metrics) []).

(** No threshold of the five evaluators is met on the snapshot. *)
Definition quiet (R : Runtime) (now : Z) (metrics : Metrics) : bool :=
  negb (rotation_condition metrics)
  && negb (alt_season_full_condition metrics)
  && negb (alt_season_end_condition metrics)
  && negb (funding_btc_condition metrics)
  && negb (funding_hype_condition metrics)
  && negb (stablecoin_condition metrics)
  && no_macro_candidate R now metrics.

(** ** Python values and exceptions of the readers and of the metric client *)

Module Py.

(** The exceptions raised on the modelled paths of [src/journal.py]
    (readers) and [src/metrics.py]. All are subclasses of [Exception]. A
    [KeyError] carries its key, an integer key in decimal. *)
Inductive exception :=
| KeyError (key : string)
| IndexError
| TypeError
| ValueError
| AttributeError
| OverflowError
| RequestException (text : string).

Inductive result (A : Type) :=
| Ok (a : A)
| Raise (e : exception).
Arguments Ok {A} a.
Arguments Raise {A} e.

End Py.

(** Library functions on strings and floats that the readers and the metric
    client call and that are pure. *)
Record Text := {
  (** [str(x)] of a float: what [csv.writer] writes for a float cell *)
  str_float : float -> string;
  (** [t.strftime('%Y-%m-%d %H:%M:%S')], [t] in microseconds since the origin
      of [datetime] *)
  strftime_YmdHMS : Z -> string;
  (** [s.isdigit()] *)
  isdigit : string -> bool;
  (** [float(s)] of a string; [None] when it raises [ValueError] *)
  float_of_str : string -> option float;
  (** [sum(xs)] of a non-empty list of floats *)
  sum_floats : list float -> float
}.

(** [str(n)] of an [int]. *)
Definition str_int (n : Z) : string :=
  if n <? 0 then "-" +:+ CPython.digits_of_N (Z.abs_N n) else CPython.digits_of_N (Z.abs_N n).

(** ** src/journal.py, the readers *)

(** The text that [csv.writer] writes for a cell and that [csv.reader] gives
    back: a string as it is, a number through [str], the date as
    [append_journal_entry] formats it. *)
Definition render (L : Text) (c : cell) : string :=
  match c with
  | CStr s => s
  | CNum (PyInt n) => str_int n
  | CNum (PyFloat x) => str_float L x
  | CTime t => strftime_YmdHMS L t
  end.

(** A row as [csv.DictReader] yields it: the pairs of [dict(zip(fieldnames,
    row))] in the order of the field names, a missing value being [None]
    ([restval]), and the values beyond the field names, stored under the key
    [None] ([restkey]) when there are any. *)
Definition entry : Type := list (string * option string) * list string.

Fixpoint dict_row (fieldnames row : list string) : entry :=
  match fieldnames, row with
  | [], rest => ([], rest)
  | k :: ks, [] => let '(d, rest) := dict_row ks [] in ((k, None) :: d, rest)
  | k :: ks, v :: vs => let '(d, rest) := dict_row ks vs in ((k, Some v) :: d, rest)
  end.

(** [d[key]] on the pairs of a dict built by successive assignments: the last
    assignment to [key] wins; [None] when the key is absent ([KeyError]). *)
Fixpoint dict_get {V} (key : string) (d : list (string * V)) : option V :=
  match d with
  | [] => None
  | (k, v) :: rest =>
      match dict_get key rest with
      | Some v' => Some v'
      | None => if String.eqb k key then Some v else None
      end
  end.

(** [entry[key]] for a string key. *)
Definition entry_get (key : string) (e : entry) : option (option string) :=
  dict_get key (fst e).

Definition is_empty_row (row : list string) : bool :=
  match row with
  | [] => true
  | _ => false
  end.

(** [list(csv.DictReader(file))] on the rows of the file: the first row gives
    the field names, and empty rows are skipped after it. *)
Definition DictReader (rows : list (list string)) : list entry :=
  match rows with
  | [] => []
  | fieldnames :: data =>
      map (dict_row fieldnames) (List.filter (fun row => negb (is_empty_row row)) data)
  end.

(** [l[start:]] *)
Definition slice_from {A} (start : Z) (l : list A) : list A :=
  let len := Z.of_nat (length l) in
  let s := if start <? 0 then Z.max (start + len) 0 else Z.min start len in
  skipn (Z.to_nat s) l.

(** [read_journal(limit=limit)] on the content of the journal file ([None]:
    no such file). It reads the file and nothing else. *)
Definition read_journal (L : Text) (file : option (list (list cell))) (limit : option Z)
  : list entry :=
  match file with
  | None => []
  | Some rows =>
      let entries := DictReader (map (map (render L)) rows) in
      match limit with
      | Some n => if n =? 0 then entries else slice_from (- n) entries
      | None => entries
      end
  end.

(** [s.replace(c, '')] for a one-character string [c]. *)
Fixpoint remove_char (c : ascii) (s : string) : string :=
  match s with
  | EmptyString => EmptyString
  | String a rest =>
      if Ascii.eqb a c then remove_char c rest else String a (remove_char c rest)
  end.

(** The filter of the comprehension of [get_journal_stats]:
    [s.replace('-', '').replace('.', '').isdigit()]. *)
Definition looks_numeric (L : Text) (s : string) : bool :=
  isdigit L (remove_char "."%char (remove_char "-"%char s)).

(** The comprehension [[float(entry['change_pct']) for entry in entries if
    ...]]: the entries are visited in order, and the first subscript, method
    call or conversion that raises ends it. *)
Fixpoint changes_of (L : Text) (entries : list entry) : Py.result (list float) :=
  match entries with
  | [] => Py.Ok []
  | e :: rest =>
      match entry_get "change_pct" e with
      | None => Py.Raise (Py.KeyError "change_pct")
      | Some None => Py.Raise Py.AttributeError
      | Some (Some s) =>
          if looks_numeric L s then
            match float_of_str L s with
            | None => Py.Raise Py.ValueError
            | Some x =>
                match changes_of L rest with
                | Py.Ok xs => Py.Ok (x :: xs)
                | Py.Raise err => Py.Raise err
                end
            end
          else changes_of L rest
      end
  end.

(** The dict that [get_journal_stats] returns. *)
Record Stats := {
  total_entries : nat;
  total_changes : pynum;
  avg_change : pynum;
  last_entry : option entry
}.

(** [get_journal_stats()] on the content of the journal file. *)
Definition get_journal_stats (L : Text) (file : option (list (list cell)))
  : Py.result Stats :=
  let entries := read_journal L file None in
  match entries with
  | [] =>
      Py.Ok {| total_entries := 0; total_changes := PyInt 0; avg_change := PyInt 0;
               last_entry := None |}
  | _ =>
      match changes_of L entries with
      | Py.Raise err => Py.Raise err
      | Py.Ok changes =>
          let total_changes :=
            match changes with
            | [] => PyInt 0
            | _ => PyFloat (sum_floats L changes)
            end in
          let avg_change :=
            match changes with
            | [] => PyInt 0
            | _ => PyFloat (Float.div (sum_floats L changes)
                                      (Float.of_Z (Z.of_nat (length changes))))
            end in
          Py.Ok {| total_entries := length entries; total_changes := total_changes;
                   avg_change := avg_change; last_entry := List.last (map Some entries) None |}
      end
  end.

(** The entry that [read_journal] yields for a row written by
    [append_journal_entry] under the header of [ensure_journal_exists]. *)
Definition journal_entry (L : Text) (now : Z) (asset : string) (change_pct : pynum)
    (reason emotion : string) : entry :=
  ([("date", Some (strftime_YmdHMS L now)); ("asset", Some asset);
    ("change_pct", Some (render L (CNum change_pct))); ("reason", Some reason);
    ("emotion", Some emotion)], []).




(** An entry that the comprehension of [get_journal_stats] passes without
    raising: it has a [change_pct] string, and [float] accepts that string
    whenever the digit filter lets it through. *)
Definition countable (L : Text) (e : entry) : Prop :=
  exists s, entry_get "change_pct" e = Some (Some s)
            /\ (looks_numeric L s = true -> float_of_str L s <> None).

(** The statistics of a journal without entries. *)
Definition no_stats : Stats :=
  {| total_entries := 0; total_changes := PyInt 0; avg_change := PyInt 0; last_entry := None |}.

(** ** A reference for the library functions on strings

    CPython's behaviour for the functions of [Text], on strings of ASCII
    characters (a Python [str] is modelled by its UTF-8 bytes; digits and
    spaces outside ASCII are not recognised here). The properties stated for
    every [Text] do not depend on it. *)

Module PyText.

Definition is_digit (c : ascii) : bool :=
  match CPython.digit_of c with
  | Some _ => true
  | None => false
  end.

Fixpoint all_digits (s : string) : bool :=
  match s with
  | EmptyString => true
  | String c rest => is_digit c && all_digits rest
  end.

(** [s.isdigit()]: at least one character, and digits only. *)
Definition isdigit (s : string) : bool :=
  match s with
  | EmptyString => false
  | _ => all_digits s
  end.

(** The value of a string of digits, 0 for the empty string. *)
Definition digits_value (s : string) : N :=
  match NilZero.uint_of_string s with
  | Some d => N.of_uint d
  | None => 0%N
  end.

(** The binary64 value nearest to [(-1)^neg * n * 10^e10] (ties to even). *)
Definition of_decimal (neg : bool) (n : N) (e10 : Z) : float :=
  match n with
  | N0 => S754_zero neg
  | Npos p =>
      if 0 <=? e10 then
        binary_normalize Float.prec Float.emax
          (if neg then Z.neg p * 10 ^ e10 else Z.pos p * 10 ^ e10) 0 neg
      else
        SFdiv Float.prec Float.emax (S754_finite neg p 0)
              (S754_finite false (Z.to_pos (10 ^ (- e10))) 0)
  end.

Definition is_space (c : ascii) : bool :=
  let n := Ascii.nat_of_ascii c in
  Nat.eqb n 32 || (Nat.leb 9 n && Nat.leb n 13).

Fixpoint lstrip (s : string) : string :=
  match s with
  | EmptyString => EmptyString
  | String c rest => if is_space c then lstrip rest else s
  end.

Definition rev_string (s : string) : string :=
  string_of_list_ascii (rev (list_ascii_of_string s)).

Definition strip (s : string) : string := rev_string (lstrip (rev_string (lstrip s))).

(** Underscores are allowed between two digits only; they are dropped. *)
Fixpoint drop_underscores (prev : ascii) (s : string) : option string :=
  match s with
  | EmptyString => if Ascii.eqb prev "_"%char then None else Some EmptyString
  | String c rest =>
      if Ascii.eqb c "_"%char then
        if is_digit prev then drop_underscores c rest else None
      else if Ascii.eqb prev "_"%char && negb (is_digit c) then None
      else option_map (String c) (drop_underscores c rest)
  end.

(** The longest prefix of digits, and what follows it. *)
Fixpoint span_digits (s : string) : string * string :=
  match s with
  | EmptyString => (EmptyString, EmptyString)
  | String c rest =>
      if is_digit c then let '(ds, tl) := span_digits rest in (String c ds, tl)
      else (EmptyString, s)
  end.

Definition lower (c : ascii) : ascii :=
  let n := Ascii.nat_of_ascii c in
  if Nat.leb 65 n && Nat.leb n 90 then Ascii.ascii_of_nat (n + 32) else c.

Fixpoint lower_string (s : string) : string :=
  match s with
  | EmptyString => EmptyString
  | String c rest => String (lower c) (lower_string rest)
  end.

(** An optional sign: whether it is a minus, and what follows it. *)
Definition split_sign (s : string) : bool * string :=
  match s with
  | String "-"%char rest => (true, rest)
  | String "+"%char rest => (false, rest)
  | _ => (false, s)
  end.

(** The exponent part: [e] or [E], an optional sign and at least one digit,
    up to the end of the string. *)
Definition parse_exponent (s : string) : option Z :=
  match s with
  | EmptyString => Some 0
  | String c rest =>
      if Ascii.eqb (lower c) "e"%char then
        let '(neg, rest) := split_sign rest in
        let '(ds, tl) := span_digits rest in
        match ds, tl with
        | String _ _, EmptyString =>
            Some (if neg then - Z.of_N (digits_value ds) else Z.of_N (digits_value ds))
        | _, _ => None
        end
      else None
  end.

(** A decimal number: digits, an optional point and digits, at least one
    digit in all, and an optional exponent. *)
Definition parse_decimal (neg : bool) (s : string) : option float :=
  let '(int_digits, tl) := span_digits s in
  let '(frac_digits, tl) :=
    match tl with
    | String "."%char tl' => span_digits tl'
    | _ => (EmptyString, tl)
    end in
  match int_digits +:+ frac_digits with
  | EmptyString => None
  | digits =>
      match parse_exponent tl with
      | Some e =>
          Some (of_decimal neg (digits_value digits) (e - Z.of_nat (String.length frac_digits)))
      | None => None
      end
  end.

(** [float(s)]: spaces around the number are dropped; [inf], [infinity] and
    [nan] are accepted in any case, with a sign; a number beyond the range
    gives an infinity. *)
Definition float_of_str (s : string) : option float :=
  match drop_underscores Ascii.zero (strip s) with
  | None => None
  | Some s =>
      let '(neg, body) := split_sign s in
      let word := lower_string body in
      if String.eqb word "inf" || String.eqb word "infinity" then Some (S754_infinity neg)
      else if String.eqb word "nan" then Some S754_nan
      else parse_decimal neg body
  end.

(** *** [repr] of a float: the shortest decimal string that reads back as
    the same float *)

(** The exact value of a positive finite float as a fraction. *)
Definition fraction_of (m : positive) (e : Z) : Z * Z :=
  match e with
  | Zneg p => (Z.pos m, 2 ^ Z.pos p)
  | _ => (Z.pos m * 2 ^ e, 1)
  end.

(** The number of decimal digits of a positive integer. *)
Definition decimal_length (n : Z) : Z := Z.of_nat (String.length (CPython.digits_of_N (Z.to_N n))).

(** The decimal point of [num / den] (both positive): the [k] with
    [10^(k-1) <= num / den < 10^k]. *)
Fixpoint decimal_point_below (fuel : nat) (num den : Z) (k : Z) : Z :=
  match fuel with
  | O => k
  | S fuel' =>
      if den <=? 10 * num then k else decimal_point_below fuel' (10 * num) den (k - 1)
  end.

Definition decimal_point (num den : Z) : Z :=
  if den <=? num then decimal_length (num / den) else decimal_point_below 400 num den 0.

(** The digits of the shortest decimal that rounds to [x = num / den], and
    its decimal point. [p] is the number of digits tried. *)
Fixpoint shortest_digits (fuel : nat) (x : float) (num den k : Z) (p : Z) : Z * Z :=
  let scale := p - k in
  let '(snum, sden) := if 0 <=? scale then (num * 10 ^ scale, den)
                       else (num, den * 10 ^ (- scale)) in
  let lo := snum / sden in
  let r := snum mod sden in
  let hi := lo + 1 in
  let reads c := Float.eqb (of_decimal false (Z.to_N c) (k - p)) x in
  let pick c := if c =? 10 ^ p then (1, k + 1) else (c, k) in
  match fuel with
  | O => pick lo
  | S fuel' =>
      if r =? 0 then pick lo
      else
        match reads lo && (1 <=? lo), reads hi with
        | true, true =>
            match (2 * r ?= sden) with
            | Lt => pick lo
            | Gt => pick hi
            | Eq => if Z.even lo then pick lo else pick hi
            end
        | true, false => pick lo
        | false, true => pick hi
        | false, false => shortest_digits fuel' x num den k (p + 1)
        end
  end.

Fixpoint strip_zeros (fuel : nat) (n : Z) : Z :=
  match fuel with
  | O => n
  | S fuel' => if (n mod 10 =? 0) && negb (n =? 0) then strip_zeros fuel' (n / 10) else n
  end.

Fixpoint zeros (n : nat) : string :=
  match n with
  | O => EmptyString
  | S n' => String "0"%char (zeros n')
  end.

(** The layout of [repr]: [digits] with its decimal point at [decpt], in
    exponent notation when [decpt <= -4] or [decpt > 16]. *)
Definition layout (digits : string) (decpt : Z) : string :=
  let n := Z.of_nat (String.length digits) in
  if (decpt <=? -4) || (16 <? decpt) then
    let e := decpt - 1 in
    let mantissa :=
      match digits with
      | String d EmptyString => String d EmptyString
      | String d rest => String d ("." +:+ rest)
      | EmptyString => EmptyString
      end in
    mantissa +:+ "e" +:+ (if e <? 0 then "-" else "+")
    +:+ CPython.zero_pad 2 2 (CPython.digits_of_N (Z.abs_N e))
  else if decpt <=? 0 then
    "0." +:+ zeros (Z.to_nat (- decpt)) +:+ digits
  else if decpt <? n then
    String.substring 0 (Z.to_nat decpt) digits +:+ "."
    +:+ String.substring (Z.to_nat decpt) (Z.to_nat (n - decpt)) digits
  else
    digits +:+ zeros (Z.to_nat (decpt - n)) +:+ ".0".

Definition str_float (x : float) : string :=
  match x with
  | S754_nan => "nan"
  | S754_infinity s => if s then "-inf" else "inf"
  | S754_zero s => if s then "-0.0" else "0.0"
  | S754_finite s m e =>
      let '(num, den) := fraction_of m e in
      let k := decimal_point num den in
      let '(c, decpt) := shortest_digits 17 (S754_finite false m e) num den k 1 in
      (if s then "-" else "") +:+ layout (CPython.digits_of_N (Z.to_N (strip_zeros 17 c))) decpt
  end.

(** *** [strftime] *)

(** The date of the day number [n] (0 for 0001-01-01), by the computation of
    [datetime]. *)
Definition ord2ymd (n : Z) : Z * Z * Z :=
  let n400 := n / 146097 in
  let n := n mod 146097 in
  let n100 := n / 36524 in
  let n := n mod 36524 in
  let n4 := n / 1461 in
  let n := n mod 1461 in
  let n1 := n / 365 in
  let n := n mod 365 in
  let year := n400 * 400 + 1 + n100 * 100 + n4 * 4 + n1 in
  if (n1 =? 4) || (n100 =? 4) then (year - 1, 12, 31)
  else
    let month := (n + 50) / 32 in
    let preceding := CPython.days_before_month year month in
    if n <? preceding then
      (year, month - 1, n - (preceding - CPython.days_in_month year (month - 1)) + 1)
    else (year, month, n - preceding + 1).

Definition two_digits (n : Z) : string := CPython.zero_pad 2 2 (CPython.digits_of_N (Z.to_N n)).

(** [t.strftime('%Y-%m-%d %H:%M:%S')] *)
Definition strftime_YmdHMS (t : Z) : string :=
  let seconds := t / 1000000 in
  let '(year, month, day) := ord2ymd (seconds / 86400) in
  let s := seconds mod 86400 in
  CPython.zero_pad 4 4 (CPython.digits_of_N (Z.to_N year)) +:+ "-" +:+ two_digits month +:+ "-"
  +:+ two_digits day +:+ " " +:+ two_digits (s / 3600) +:+ ":" +:+ two_digits (s mod 3600 / 60)
  +:+ ":" +:+ two_digits (s mod 60).

(** [sum(xs)]: the additions are made from the left, starting from zero (as
    CPython does up to version 3.11). *)
Definition sum_floats (xs : list float) : float :=
  fold_left Float.add xs (S754_zero false).

Definition text : Text :=
  Build_Text str_float strftime_YmdHMS isdigit float_of_str sum_floats.

End PyText.

(** ** src/metrics.py: the metric client *)

Module CryptoMetrics.

(** A document as [response.json()] returns it. The pairs of an object are
    in the order of the document, with distinct keys. A JSON [null] is
    Python's [None]. *)
#[warnings="-register-all"] Inductive json :=
| JNull
| JBool (b : bool)
| JInt (n : Z)
| JFloat (x : float)
| JStr (s : string)
| JList (items : list json)
| JDict (d : list (string * json)).

(** A response whose status is not an error, seen through the two calls the
    client makes on it: [response.json()], and [csv.reader] on
    [response.text]. Each gives its value, or the text of the exception it
    raises. *)
Record response := {
  json_of : string + json;
  rows_of : string + list (list string)
}.

(** One exchange: [session.get] or [session.post] followed by
    [raise_for_status] raises an exception with the given text, or gives a
    response. *)
Inductive exchange :=
| Failed (text : string)
| Answered (r : response).

(** What the outside world answers to the client. *)
Record Web := {
  (** the [k]-th HTTP exchange of the session *)
  http : nat -> exchange;
  (** [os.getenv('TRADINGECON_KEY')] and [os.getenv('FINNHUB_KEY')] *)
  TRADINGECON_KEY : option string;
  FINNHUB_KEY : option string;
  (** the reading of the [k]-th call of [time.time()] *)
  time : nat -> float
}.

(** What the client did so far. *)
Record Net := {
  requests : list (string * string);      (* method and URL of each exchange, oldest first *)
  sleeps : list Z;                        (* the arguments of time.sleep, oldest first *)
  output : list (string * Py.exception);  (* printed lines: the text before the colon, and
                                             the exception whose str() follows it *)
  time_reads : nat                        (* calls of time.time() so far *)
}.

Definition idle : Net := {| requests := []; sleeps := []; output := []; time_reads := 0 |}.

(** *** Computations of the client *)

Definition N (A : Type) : Type := Net -> Net * Py.result A.

Definition ret {A} (a : A) : N A := fun n => (n, Py.Ok a).

Definition raise {A} (e : Py.exception) : N A := fun n => (n, Py.Raise e).

Definition bind {A B} (m : N A) (k : A -> N B) : N B :=
  fun n =>
    match m n with
    | (n', Py.Ok a) => k a n'
    | (n', Py.Raise e) => (n', Py.Raise e)
    end.

(** The outcome of a pure operation. *)
Definition lift {A} (r : Py.result A) : N A := fun n => (n, r).

(** [try: body / except <classes>: handler], for the classes that [catches]
    accepts; another exception goes through. *)
Definition try_except {A} (catches : Py.exception -> bool) (body : N A)
    (handler : Py.exception -> N A) : N A :=
  fun n =>
    match body n with
    | (n', Py.Ok a) => (n', Py.Ok a)
    | (n', Py.Raise e) => if catches e then handler e n' else (n', Py.Raise e)
    end.

(** [except Exception] *)
Definition any_exception (e : Py.exception) : bool := true.

(** [except KeyError] *)
Definition is_KeyError (e : Py.exception) : bool :=
  match e with
  | Py.KeyError _ => true
  | _ => false
  end.

(** [except (KeyError, IndexError)] *)
Definition is_KeyError_or_IndexError (e : Py.exception) : bool :=
  match e with
  | Py.KeyError _ | Py.IndexError => true
  | _ => false
  end.

Declare Scope net_scope.
Delimit Scope net_scope with net.
Notation "x <- m ;; k" := (bind m (fun x => k))
  (at level 100, m at level 99, right associativity) : net_scope.
Notation "m ;; k" := (bind m (fun _ => k))
  (at level 100, right associativity) : net_scope.

(** [print(f"<text>: {e}")] *)
Definition print (text : string) (e : Py.exception) : N unit :=
  fun n => ({| requests := requests n; sleeps := sleeps n;
               output := output n ++ [(text, e)]; time_reads := time_reads n |}, Py.Ok tt).

(** [time.sleep(seconds)] *)
Definition sleep (seconds : Z) : N unit :=
  fun n => ({| requests := requests n; sleeps := sleeps n ++ [seconds];
               output := output n; time_reads := time_reads n |}, Py.Ok tt).

(** *** Python's operations on the values of a document *)

(** The truth value of a document. *)
Definition truthy (v : json) : bool :=
  match v with
  | JNull => false
  | JBool b => b
  | JInt n => negb (n =? 0)
  | JFloat (S754_zero _) => false
  | JFloat _ => true
  | JStr EmptyString => false
  | JStr _ => true
  | JList [] => false
  | JList _ => true
  | JDict [] => false
  | JDict _ => true
  end.

(** [v[key]] for a string [key]. *)
Definition getitem_str (v : json) (key : string) : Py.result json :=
  match v with
  | JDict d =>
      match dict_get key d with
      | Some x => Py.Ok x
      | None => Py.Raise (Py.KeyError key)
      end
  | _ => Py.Raise Py.TypeError
  end.

(** [l[i]] on a sequence, a negative [i] counting from the end; [None] when
    it is out of range. *)
Definition item_at {A} (i : Z) (l : list A) : option A :=
  let len := Z.of_nat (length l) in
  let j := if i <? 0 then i + len else i in
  if (0 <=? j) && (j <? len) then nth_error l (Z.to_nat j) else None.

(** [v[i]] for an integer [i]. A string is indexed here by bytes; the client
    uses the indices 0 and -1 only, and never looks at the character it
    gets. *)
Definition getitem_int (v : json) (i : Z) : Py.result json :=
  match v with
  | JList items =>
      match item_at i items with
      | Some x => Py.Ok x
      | None => Py.Raise Py.IndexError
      end
  | JStr s =>
      match item_at i (list_ascii_of_string s) with
      | Some c => Py.Ok (JStr (String c EmptyString))
      | None => Py.Raise Py.IndexError
      end
  | JDict _ => Py.Raise (Py.KeyError (str_int i))
  | _ => Py.Raise Py.TypeError
  end.

Fixpoint is_prefix (p s : string) : bool :=
  match p, s with
  | EmptyString, _ => true
  | String a p', String b s' => Ascii.eqb a b && is_prefix p' s'
  | String _ _, EmptyString => false
  end.

Fixpoint is_substring (p s : string) : bool :=
  is_prefix p s
  || match s with
     | EmptyString => false
     | String _ s' => is_substring p s'
     end.

Definition is_string (key : string) (v : json) : bool :=
  match v with
  | JStr s => String.eqb s key
  | _ => false
  end.

(** [key in v] for a string [key]: a key of an object, an item of a list, a
    substring of a string. *)
Definition contains (key : string) (v : json) : Py.result bool :=
  match v with
  | JDict d =>
      Py.Ok (match dict_get key d with
             | Some _ => true
             | None => false
             end)
  | JList items => Py.Ok (existsb (is_string key) items)
  | JStr s => Py.Ok (is_substring key s)
  | _ => Py.Raise Py.TypeError
  end.

(** [v.get(key, default)] *)
Definition get_or (v : json) (key : string) (dflt : json) : Py.result json :=
  match v with
  | JDict d =>
      Py.Ok (match dict_get key d with
             | Some x => x
             | None => dflt
             end)
  | _ => Py.Raise Py.AttributeError
  end.

(** The items that [for x in v] visits: the items of a list, the keys of an
    object, the characters of a string (bytes here: the client tests each of
    them for a substring of several characters, and goes on). *)
Definition iterate (v : json) : Py.result (list json) :=
  match v with
  | JList items => Py.Ok items
  | JDict d => Py.Ok (map (fun kv => JStr (fst kv)) d)
  | JStr s => Py.Ok (map (fun c => JStr (String c EmptyString)) (list_ascii_of_string s))
  | _ => Py.Raise Py.TypeError
  end.

(** [v[:n]]: the first [n] items of a list, the first [n] characters (bytes
    here) of a string; an object cannot be sliced ([TypeError] up to CPython
    3.11). *)
Definition slice_to (n : nat) (v : json) : Py.result json :=
  match v with
  | JList items => Py.Ok (JList (firstn n items))
  | JStr s => Py.Ok (JStr (String.substring 0 n s))
  | _ => Py.Raise Py.TypeError
  end.

(** A document that is a number; [True] and [False] are the integers 1 and
    0. *)
Definition number_of (v : json) : option pynum :=
  match v with
  | JInt n => Some (PyInt n)
  | JFloat x => Some (PyFloat x)
  | JBool b => Some (PyInt (if b then 1 else 0))
  | _ => None
  end.

Definition is_infinite (x : float) : bool :=
  match x with
  | S754_infinity _ => true
  | _ => false
  end.

(** [float(n)] of an [int]: [OverflowError] beyond the range of a float. *)
Definition float_of_int (n : Z) : Py.result float :=
  let x := Float.of_Z n in
  if is_infinite x then Py.Raise Py.OverflowError else Py.Ok x.

(** The operand of a float operation. *)
Definition as_float (a : pynum) : Py.result float :=
  match a with
  | PyInt n => float_of_int n
  | PyFloat x => Py.Ok x
  end.

(** An integer as the dividend or the divisor of an exact division. *)
Definition int_operand (n : Z) : float :=
  match n with
  | Z0 => S754_zero false
  | Zpos p => S754_finite false p 0
  | Zneg p => S754_finite true p 0
  end.

(** [a / b] for a non-zero integer [b]: the quotient of two integers is
    rounded once. *)
Definition truediv (a : pynum) (b : Z) : Py.result float :=
  match a with
  | PyInt n =>
      let q := SFdiv Float.prec Float.emax (int_operand n) (int_operand b) in
      if is_infinite q then Py.Raise Py.OverflowError else Py.Ok q
  | PyFloat x =>
      match float_of_int b with
      | Py.Ok y => Py.Ok (Float.div x y)
      | Py.Raise e => Py.Raise e
      end
  end.

(** [a * b] and [a + b] on numbers. *)
Definition mul (a b : pynum) : Py.result pynum :=
  match a, b with
  | PyInt m, PyInt n => Py.Ok (PyInt (m * n))
  | _, _ =>
      match as_float a, as_float b with
      | Py.Ok x, Py.Ok y => Py.Ok (PyFloat (Float.mul x y))
      | Py.Raise e, _ => Py.Raise e
      | _, Py.Raise e => Py.Raise e
      end
  end.

Definition add (a b : pynum) : Py.result pynum :=
  match a, b with
  | PyInt m, PyInt n => Py.Ok (PyInt (m + n))
  | _, _ =>
      match as_float a, as_float b with
      | Py.Ok x, Py.Ok y => Py.Ok (PyFloat (Float.add x y))
      | Py.Raise e, _ => Py.Raise e
      | _, Py.Raise e => Py.Raise e
      end
  end.

(** A value used as a number in the arithmetic of the client: [TypeError]
    for a value that is no number. (Where Python multiplies a string or a
    list by an integer without raising, the product is then added to a number
    in the same [try] block, which raises [TypeError] one step later.) *)
Definition operand (v : json) : Py.result pynum :=
  match number_of v with
  | Some a => Py.Ok a
  | None => Py.Raise Py.TypeError
  end.

(** [v >= k] for an integer [k] that a float holds exactly. *)
Definition ge_int (v : json) (k : Z) : Py.result bool :=
  match number_of v with
  | Some (PyInt n) => Py.Ok (k <=? n)
  | Some (PyFloat x) => Py.Ok (Float.ge x (Float.of_Z k))
  | None => Py.Raise Py.TypeError
  end.

(** The literals of the source, as the nearest binary64 values. *)
Definition lit_58_5 : float := S754_finite false 8233143068786688 (-47).
Definition lit_45_2 : float := S754_finite false 6361334473660826 (-47).
Definition lit_0_08 : float := S754_finite false 5764607523034235 (-56).
Definition lit_0_02 : float := S754_finite false 5764607523034235 (-58).

(** The keys of a dict built by successive assignments, in the order of
    their first assignment. *)
Fixpoint dict_keys {V} (seen : list string) (d : list (string * V)) : list string :=
  match d with
  | [] => []
  | (k, _) :: rest =>
      if existsb (String.eqb k) seen then dict_keys seen rest
      else k :: dict_keys (k :: seen) rest
  end.

(** [d.values()] *)
Definition dict_values {V} (d : list (string * V)) : list V :=
  omap (fun k => dict_get k d) (dict_keys [] d).

Section Client.

Context (L : Text) (W : Web).

Local Open Scope net_scope.

(** [float(v)] *)
Definition float_of (v : json) : Py.result float :=
  match v with
  | JFloat x => Py.Ok x
  | JInt n => float_of_int n
  | JBool b => Py.Ok (Float.of_Z (if b then 1 else 0))
  | JStr s =>
      match float_of_str L s with
      | Some x => Py.Ok x
      | None => Py.Raise Py.ValueError
      end
  | _ => Py.Raise Py.TypeError
  end.

(** [float(v)] for a value of a CSV row: a string, or [None] for a missing
    column. *)
Definition float_of_cell (v : option string) : Py.result float :=
  match v with
  | Some s =>
      match float_of_str L s with
      | Some x => Py.Ok x
      | None => Py.Raise Py.ValueError
      end
  | None => Py.Raise Py.TypeError
  end.

(** [time.time()] *)
Definition time_time : N float :=
  fun n => ({| requests := requests n; sleeps := sleeps n; output := output n;
               time_reads := S (time_reads n) |}, Py.Ok (time W (time_reads n))).

(** [self.session.get] or [self.session.post], then
    [response.raise_for_status()]. *)
Definition exchange_with (method url : string) : N response :=
  fun n =>
    let n' := {| requests := requests n ++ [(method, url)]; sleeps := sleeps n;
                 output := output n; time_reads := time_reads n |} in
    match http W (length (requests n)) with
    | Failed text => (n', Py.Raise (Py.RequestException text))
    | Answered r => (n', Py.Ok r)
    end.

(** [response.json()] *)
Definition response_json (r : response) : N json :=
  match json_of r with
  | inl text => raise (Py.RequestException text)
  | inr v => ret v
  end.

(** The [for attempt in range(3)] loop of [_make_request]: [Some v] stands
    for [return v] inside the [try]. *)
Fixpoint attempt_loop (url : string) (post : bool) (attempts : list Z) : N json :=
  match attempts with
  | [] => ret JNull
  | attempt :: rest =>
      r <- try_except any_exception
             (response <- exchange_with (if post then "POST" else "GET") url ;;
              v <- response_json response ;;
              ret (Some v))
             (fun e =>
                print ("Request failed (attempt " +:+ str_int (attempt + 1) +:+ ")") e ;;
                (if attempt <? 2 then sleep (2 ^ attempt) else ret tt) ;;
                ret None) ;;
      match r with
      | Some v => ret v
      | None => attempt_loop url post rest
      end
  end.

(** [_make_request(url, params, headers, json_data)]: a POST when
    [json_data] is true, a GET otherwise. *)
Definition _make_request (url : string) (json_data : option json) : N json :=
  attempt_loop url (match json_data with
                    | Some v => truthy v
                    | None => false
                    end) [0; 1; 2].

(** [_get_csv_data(url)] *)
Definition _get_csv_data (url : string) : N (option (list entry)) :=
  try_except any_exception
    (response <- exchange_with "GET" url ;;
     match rows_of response with
     | inl text => raise (Py.RequestException text)
     | inr rows => ret (Some (DictReader rows))
     end)
    (fun e => print "CSV request failed" e ;; ret None).

(** The fallback of [get_btc_dominance_and_alt_cap]. *)
Definition mock_dominance : pynum * pynum := (PyFloat lit_58_5, PyInt 850000000000).

Definition get_btc_dominance_and_alt_cap : N (pynum * pynum) :=
  let url := "https://api.coingecko.com/api/v3/global" in
  data <- _make_request url None ;;
  if negb (truthy data) then ret mock_dominance
  else
    try_except is_KeyError
      (d <- lift (getitem_str data "data") ;;
       p <- lift (getitem_str d "market_cap_percentage") ;;
       btc_dom <- lift (getitem_str p "btc") ;;
       d <- lift (getitem_str data "data") ;;
       t <- lift (getitem_str d "total_market_cap") ;;
       total_cap <- lift (getitem_str t "usd") ;;
       btc_dom <- lift (operand btc_dom) ;;
       share <- lift (truediv btc_dom 100) ;;
       total_cap <- lift (operand total_cap) ;;
       alt_cap <- lift (mul total_cap (PyFloat (Float.sub (Float.of_Z 1) share))) ;;
       ret (btc_dom, alt_cap))
      (fun _ => ret mock_dominance).

(** The first loop of [get_alt_season_index]: the first of the column names
    that the row has decides; [None] when the row has none of them. *)
Fixpoint first_column (cols : list string) (latest_entry : entry) : option (Py.result float) :=
  match cols with
  | [] => None
  | col :: rest =>
      match entry_get col latest_entry with
      | Some v => Some (float_of_cell v)
      | None => first_column rest latest_entry
      end
  end.

(** The second loop: the first value that [float] accepts is returned, a
    [ValueError] goes to the next value, another exception leaves the loop;
    [None] when the values are exhausted. *)
Fixpoint first_numeric (values : list (option string)) : option (Py.result float) :=
  match values with
  | [] => None
  | v :: rest =>
      match float_of_cell v with
      | Py.Ok x => Some (Py.Ok x)
      | Py.Raise Py.ValueError => first_numeric rest
      | Py.Raise e => Some (Py.Raise e)
      end
  end.

Definition get_alt_season_index : N float :=
  let url := "https://www.blockchaincenter.net/altcoin-season-index.csv" in
  try_except any_exception
    (csv_data <- _get_csv_data url ;;
     match List.last (map Some (default [] csv_data)) None with
     | None => ret lit_45_2
     | Some latest_entry =>
         match first_column ["value"; "index"; "score"; "alt_season_index"] latest_entry with
         | Some r => lift r
         | None =>
             match first_numeric (dict_values (fst latest_entry)) with
             | Some r => lift r
             | None =>
                 match snd latest_entry with
                 | [] => ret lit_45_2
                 | _ => raise Py.TypeError
                 end
             end
         end
     end)
    (fun e => print "Alt season index fetch failed" e ;; ret lit_45_2).

(** The fallback of [get_btc_funding_and_oi]. *)
Definition mock_funding : pynum * pynum := (PyFloat lit_0_08, PyInt 25000000000).

Definition get_btc_funding_and_oi : N (pynum * pynum) :=
  try_except any_exception
    (funding_data <- _make_request "https://fapi.binance.com/fapi/v1/fundingRate" None ;;
     oi_data <- _make_request "https://fapi.binance.com/fapi/v1/openInterest" None ;;
     if negb (truthy funding_data) || negb (truthy oi_data) then ret mock_funding
     else
       latest <- lift (getitem_int funding_data (-1)) ;;
       rate <- lift (getitem_str latest "fundingRate") ;;
       rate <- lift (float_of rate) ;;
       let funding_rate := Float.mul rate (Float.of_Z 100) in
       oi <- lift (getitem_str oi_data "openInterest") ;;
       open_interest <- lift (float_of oi) ;;
       ret (PyFloat funding_rate, PyFloat open_interest))
    (fun _ => ret mock_funding).

Definition get_hyperliquid_funding (symbol : string) : N float :=
  let url := "https://api.hyperliquid.xyz/info" in
  let json_data := JDict [("type", JStr "perpFundingRates"); ("symbol", JStr symbol)] in
  data <- _make_request url (Some json_data) ;;
  if negb (truthy data) then ret Float.lit_0_05
  else
    try_except is_KeyError_or_IndexError
      (first <- lift (getitem_int data 0) ;;
       rate <- lift (getitem_str first "fundingRate") ;;
       rate <- lift (float_of rate) ;;
       ret (Float.mul rate (Float.of_Z 100)))
      (fun _ => ret Float.lit_0_05).

(** One iteration of the loop of [get_stablecoin_delta]: the total after
    [stablecoin]. *)
Definition add_stablecoin (current_total : pynum) (stablecoin : json) : Py.result pynum :=
  match contains "circulating" stablecoin with
  | Py.Raise e => Py.Raise e
  | Py.Ok true =>
      match contains "price" stablecoin with
      | Py.Raise e => Py.Raise e
      | Py.Ok true =>
          match getitem_str stablecoin "circulating" with
          | Py.Raise e => Py.Raise e
          | Py.Ok c =>
              match getitem_str c "peggedUSD" with
              | Py.Raise e => Py.Raise e
              | Py.Ok pegged =>
                  match getitem_str stablecoin "price" with
                  | Py.Raise e => Py.Raise e
                  | Py.Ok price =>
                      match operand pegged, operand price with
                      | Py.Ok a, Py.Ok b =>
                          match mul a b with
                          | Py.Ok value => add current_total value
                          | Py.Raise e => Py.Raise e
                          end
                      | Py.Raise e, _ => Py.Raise e
                      | _, Py.Raise e => Py.Raise e
                      end
                  end
              end
          end
      | Py.Ok false =>
          match getitem_str stablecoin "circulating" with
          | Py.Raise e => Py.Raise e
          | Py.Ok c =>
              match get_or c "peggedUSD" (JInt 0) with
              | Py.Raise e => Py.Raise e
              | Py.Ok pegged =>
                  match operand pegged with
                  | Py.Ok a => add current_total a
                  | Py.Raise e => Py.Raise e
                  end
              end
          end
      end
  | Py.Ok false =>
      match contains "mcap" stablecoin with
      | Py.Raise e => Py.Raise e
      | Py.Ok true =>
          match getitem_str stablecoin "mcap" with
          | Py.Raise e => Py.Raise e
          | Py.Ok mcap =>
              match operand mcap with
              | Py.Ok a => add current_total a
              | Py.Raise e => Py.Raise e
              end
          end
      | Py.Ok false => Py.Ok current_total
      end
  end.

(** The loop: the first iteration that raises ends it. *)
Fixpoint total_of (current_total : pynum) (stablecoins : list json) : Py.result pynum :=
  match stablecoins with
  | [] => Py.Ok current_total
  | stablecoin :: rest =>
      match add_stablecoin current_total stablecoin with
      | Py.Ok total => total_of total rest
      | Py.Raise e => Py.Raise e
      end
  end.

(** The fallback of [get_stablecoin_delta]. *)
Definition mock_delta : pynum := PyInt 2500000000.

Definition get_stablecoin_delta : N pynum :=
  let url := "https://stablecoins.llama.fi/stablecoins" in
  try_except any_exception
    (data <- _make_request url None ;;
     if negb (truthy data) then ret mock_delta
     else
       stablecoins <- lift (iterate data) ;;
       current_total <- lift (total_of (PyInt 0) stablecoins) ;;
       estimated_weekly_change <- lift (mul current_total (PyFloat lit_0_02)) ;;
       ret estimated_weekly_change)
    (fun e => print "Stablecoin delta fetch failed" e ;; ret mock_delta).

(** The truth value of what [os.getenv] returns. *)
Definition key_set (v : option string) : bool :=
  match v with
  | Some (String _ _) => true
  | _ => false
  end.

(** The comprehension of [get_macro_events]: the events whose importance is
    at least 3. *)
Fixpoint high_importance (events : list json) : Py.result (list json) :=
  match events with
  | [] => Py.Ok []
  | event :: rest =>
      match get_or event "importance" (JInt 0) with
      | Py.Raise e => Py.Raise e
      | Py.Ok importance =>
          match ge_int importance 3 with
          | Py.Raise e => Py.Raise e
          | Py.Ok keep =>
              match high_importance rest with
              | Py.Raise e => Py.Raise e
              | Py.Ok kept => Py.Ok (if keep then event :: kept else kept)
              end
          end
      end
  end.

(** The fallback of [get_macro_events]. *)
Definition mock_events : json :=
  JList [JDict [("event", JStr "Fed Meeting"); ("date", JStr "2025-07-12");
                ("importance", JInt 3)]].

(** The Finnhub part of [get_macro_events] and the fallback after it. *)
Definition finnhub_events : N json :=
  found <-
    (if key_set (FINNHUB_KEY W) then
       try_except any_exception
         (data <- _make_request "https://finnhub.io/api/v1/calendar/economic" None ;;
          listed <- (if truthy data then lift (contains "economicCalendar" data)
                     else ret false) ;;
          if listed then
            calendar <- lift (getitem_str data "economicCalendar") ;;
            events <- lift (iterate calendar) ;;
            kept <- lift (high_importance events) ;;
            ret (Some (JList (firstn 5 kept)))
          else ret None)
         (fun e => print "Finnhub API failed" e ;; ret None)
     else ret None) ;;
  match found with
  | Some events => ret events
  | None => ret mock_events
  end.

Definition get_macro_events : N json :=
  found <-
    (if key_set (TRADINGECON_KEY W) then
       try_except any_exception
         (data <- _make_request "https://api.tradingeconomics.com/calendar" None ;;
          if truthy data then
            events <- lift (slice_to 5 data) ;;
            ret (Some events)
          else ret None)
         (fun e => print "TradingEconomics API failed" e ;; ret None)
     else ret None) ;;
  match found with
  | Some events => ret events
  | None => finnhub_events
  end.

(** The dict that [get_all_metrics] returns, field by field. *)
Record AllMetrics := {
  btc_dom : pynum;          (* 'btc_dominance' *)
  alt_cap : pynum;          (* 'alt_market_cap' *)
  alt_index : float;        (* 'alt_season_index' *)
  btc_funding : pynum;      (* 'btc_funding_rate' *)
  btc_oi : pynum;           (* 'btc_open_interest' *)
  hype_funding : float;     (* 'hype_funding_rate' *)
  stable_delta : pynum;     (* 'stablecoin_delta' *)
  events : json;            (* 'macro_events' *)
  timestamp : float         (* 'timestamp' *)
}.

Definition get_all_metrics : N AllMetrics :=
  dominance <- get_btc_dominance_and_alt_cap ;;
  alt_index <- get_alt_season_index ;;
  funding <- get_btc_funding_and_oi ;;
  hype_funding <- get_hyperliquid_funding "HYPE" ;;
  stable_delta <- get_stablecoin_delta ;;
  macro_events <- get_macro_events ;;
  now <- time_time ;;
  ret {| btc_dom := fst dominance; alt_cap := snd dominance; alt_index := alt_index;
         btc_funding := fst funding; btc_oi := snd funding; hype_funding := hype_funding;
         stable_delta := stable_delta; events := macro_events; timestamp := now |}.

End Client.

End CryptoMetrics.

(** ** Vocabulary of the metric client *)

(** The document that [_make_request] gets from the [k]-th exchange: [None]
    when the exchange or [response.json()] raises. *)
Definition document (W : CryptoMetrics.Web) (k : nat) : option CryptoMetrics.json :=
  match CryptoMetrics.http W k with
  | CryptoMetrics.Failed _ => None
  | CryptoMetrics.Answered r =>
      match CryptoMetrics.json_of r with
      | inl _ => None
      | inr v => Some v
      end
  end.

(** The number of attempts that fail, of the three that a call of
    [_make_request] can make from the [k]-th exchange on. *)
Definition failures (W : CryptoMetrics.Web) (k : nat) : nat :=
  match document W k, document W (S k), document W (S (S k)) with
  | Some _, _, _ => 0
  | None, Some _, _ => 1
  | None, None, Some _ => 2
  | None, None, None => 3
  end.

(** What that call returns: the first document it gets, [None] after three
    failures. *)
Definition first_document (W : CryptoMetrics.Web) (k : nat) : CryptoMetrics.json :=
  match document W k, document W (S k), document W (S (S k)) with
  | Some v, _, _ => v
  | None, Some v, _ => v
  | None, None, Some v => v
  | None, None, None => CryptoMetrics.JNull
  end.

(** The HTTP method of a call of [_make_request]. *)
Definition method_of (json_data : option CryptoMetrics.json) : string :=
  match json_data with
  | Some v => if CryptoMetrics.truthy v then "POST" else "GET"
  | None => "GET"
  end.


(** The sum of the arguments of [time.sleep]. *)
Definition total_sleep (seconds : list Z) : Z := fold_right Z.add 0 seconds.

(** A computation of the client that makes at most [r] HTTP exchanges and
    sleeps at most [s] seconds in all, whatever its outcome. *)
Definition costs {A} (r : nat) (s : Z) (m : CryptoMetrics.N A) : Prop :=
  forall n, exists new_requests new_sleeps,
    CryptoMetrics.requests (fst (m n)) = CryptoMetrics.requests n ++ new_requests
    /\ CryptoMetrics.sleeps (fst (m n)) = CryptoMetrics.sleeps n ++ new_sleeps
    /\ (length new_requests <= r)%nat
    /\ total_sleep new_sleeps <= s
    /\ Forall (fun seconds => 0 < seconds) new_sleeps.







(** The number of items of what [get_macro_events] returns. *)
Definition events_length (v : CryptoMetrics.json) : nat :=
  match v with
  | CryptoMetrics.JList items => length items
  | CryptoMetrics.JStr s => String.length s
  | _ => 0
  end.

(** Whether a key of an object makes the loop of [get_stablecoin_delta]
    subscript it. *)
Definition names_a_supply (key : string) : bool :=
  CryptoMetrics.is_substring "circulating" key || CryptoMetrics.is_substring "mcap" key.

(** A computation of the client that never raises. *)
Definition total {A} (m : CryptoMetrics.N A) : Prop :=
  forall n, exists n' a, m n = (n', Py.Ok a).

(** A computation of the client whose value, when it returns one, satisfies
    [P]. *)
Definition returns_with {A} (P : A -> Prop) (m : CryptoMetrics.N A) : Prop :=
  forall n n' a, m n = (n', Py.Ok a) -> P a.

(** At most five events, in a found list or in none. *)
Definition at_most_five (found : option CryptoMetrics.json) : Prop :=
  match found with
  | Some v => (events_length v <= 5)%nat
  | None => True
  end.



(** A computation of the client that makes no exchange and does not sleep. *)
Definition inert {A} (m : CryptoMetrics.N A) : Prop :=
  forall n, CryptoMetrics.requests (fst (m n)) = CryptoMetrics.requests n
            /\ CryptoMetrics.sleeps (fst (m n)) = CryptoMetrics.sleeps n.

(** The exception that the conversion of the first item of Hyperliquid's
    answer raises and that [get_hyperliquid_funding] does not catch: the item
    is no object, or [float] refuses its [fundingRate]. *)
Definition rate_error (L : Text) (item : CryptoMetrics.json) : option Py.exception :=
  match item with
  | CryptoMetrics.JDict d =>
      match dict_get "fundingRate" d with
      | Some v =>
          match CryptoMetrics.float_of L v with
          | Py.Raise e => Some e
          | Py.Ok _ => None
          end
      | None => None
      end
  | _ => Some Py.TypeError
  end.

Definition is_object (v : CryptoMetrics.json) : bool :=
  match v with
  | CryptoMetrics.JDict _ => true
  | _ => false
  end.

(** A web that gives the listed exchanges in turn and reaches no server after
    them, with no API key set. *)
Definition web_of (exchanges : list CryptoMetrics.exchange) : CryptoMetrics.Web :=
  {| CryptoMetrics.http := fun k => nth k exchanges (CryptoMetrics.Failed "unreachable");
     CryptoMetrics.TRADINGECON_KEY := None;
     CryptoMetrics.FINNHUB_KEY := None;
     CryptoMetrics.time := fun k => Float.of_Z (1752300000 + Z.of_nat k) |}.

(** A response whose body is the given document. *)
Definition json_response (v : CryptoMetrics.json) : CryptoMetrics.exchange :=
  CryptoMetrics.Answered
    {| CryptoMetrics.json_of := inr v; CryptoMetrics.rows_of := inl "not a CSV file" |}.

(** ** Journal rows with an integer change *)




(** ** Order facts on binary64 comparisons *)

Lemma SFcompare_antisym (x y : float) (c : comparison) :
  SFcompare x y = Some c -> SFcompare y x = Some (CompOpp c).
Proof.
  destruct x as [sx|sx| |sx mx ex], y as [sy|sy| |sy my ey]; simpl;
    try discriminate;
    try (intros [= <-]; repeat match goal with s : bool |- _ => destruct s end;
         reflexivity).
  intros [= <-]. f_equal.
  destruct sx, sy; try reflexivity;
    rewrite (Z.compare_antisym ex ey);
    destruct (ex ?= ey)%Z eqn:He; simpl; try reflexivity;
    change (PosDef.Pos.compare_cont Eq my mx) with (Pos.compare_cont (CompOpp Eq) my mx);
    rewrite <- (Pos.compare_cont_antisym mx my Eq); reflexivity.
Qed.

Lemma float_lt_not_ge (x y : float) : Float.lt x y = true -> Float.ge x y = false.
Proof.
  unfold Float.lt, Float.ge, SFltb, SFleb.
  destruct (SFcompare x y) as [c|] eqn:Hc; [|discriminate].
  rewrite (SFcompare_antisym _ _ _ Hc). now destruct c.
Qed.

Lemma float_ge_not_lt (x y : float) : Float.ge x y = true -> Float.lt x y = false.
Proof.
  intros H. destruct (Float.lt x y) eqn:E; [|reflexivity].
  apply float_lt_not_ge in E. congruence.
Qed.

(** ** Allocation calculator *)

(** C1. [calculate_allocation] returns the tuple of the first band that
    applies, in priority order: the dominance band ([btc_dominance >= 61] and
    [alt_season_index < 50]) gives (0.70, 0.25, 0.05), else the alt band
    ([btc_dominance < 60] and [alt_season_index >= 50]) gives
    (0.45, 0.50, 0.05), else the neutral tuple (0.60, 0.35, 0.05). The two
    guarded bands never overlap and the three tuples are pairwise different,
    so exactly one branch accounts for the result. Every returned tuple sums
    to 1.0 within 1e-9, as a binary64 sum and on exact values. Absent metrics
    read as 60 and 50 and give the neutral tuple. An input with
    [60 <= btc_dominance < 61] and [alt_season_index < 50] gives the neutral
    tuple. *)
Theorem calculate_allocation_bands (metrics : Metrics) :
  let btc_dom := get (btc_dominance metrics) (Float.of_Z 60) in
  let alt_index := get (alt_season_index metrics) (Float.of_Z 50) in
  (dominance_band btc_dom alt_index = true ->
     calculate_allocation metrics = BTC_DOMINANCE_PHASE)
  /\ (dominance_band btc_dom alt_index = false ->
      alt_band btc_dom alt_index = true ->
      calculate_allocation metrics = ALT_SEASON_PHASE)
  /\ (dominance_band btc_dom alt_index = false ->
      alt_band btc_dom alt_index = false ->
      calculate_allocation metrics = NEUTRAL_PHASE)
  /\ (dominance_band btc_dom alt_index && alt_band btc_dom alt_index = false)
  /\ (BTC_DOMINANCE_PHASE <> ALT_SEASON_PHASE
      /\ BTC_DOMINANCE_PHASE <> NEUTRAL_PHASE
      /\ ALT_SEASON_PHASE <> NEUTRAL_PHASE)
  /\ within_1e_9_of_one (Float.to_Q (allocation_sum (calculate_allocation metrics))) = true
  /\ within_1e_9_of_one (allocation_exact_sum (calculate_allocation metrics)) = true
  /\ calculate_allocation empty_metrics = NEUTRAL_PHASE
  /\ (Float.ge btc_dom (Float.of_Z 60) = true ->
      Float.lt btc_dom (Float.of_Z 61) = true ->
      Float.lt alt_index (Float.of_Z 50) = true ->
      calculate_allocation metrics = NEUTRAL_PHASE).
Proof.
  intros btc_dom alt_index.
  assert (Hcalc : calculate_allocation metrics =
                  if dominance_band btc_dom alt_index then BTC_DOMINANCE_PHASE
                  else if alt_band btc_dom alt_index then ALT_SEASON_PHASE
                  else NEUTRAL_PHASE) by reflexivity.
  assert (Hexcl : dominance_band btc_dom alt_index && alt_band btc_dom alt_index = false).
  { unfold dominance_band, alt_band.
    destruct (Float.lt alt_index (Float.of_Z 50)) eqn:Ha.
    - rewrite (float_lt_not_ge _ _ Ha). now rewrite !andb_false_r.
    - now rewrite andb_false_r. }
  repeat split.
  - intros H. now rewrite Hcalc, H.
  - intros H1 H2. now rewrite Hcalc, H1, H2.
  - intros H1 H2. now rewrite Hcalc, H1, H2.
  - exact Hexcl.
  - discriminate.
  - discriminate.
  - discriminate.
  - rewrite Hcalc.
    destruct (dominance_band btc_dom alt_index);
      [|destruct (alt_band btc_dom alt_index)]; vm_compute; reflexivity.
  - rewrite Hcalc.
    destruct (dominance_band btc_dom alt_index);
      [|destruct (alt_band btc_dom alt_index)]; vm_compute; reflexivity.
  - intros H60 H61 H50. rewrite Hcalc. unfold dominance_band, alt_band.
    rewrite (float_lt_not_ge _ _ H61), (float_ge_not_lt _ _ H60). reflexivity.
Qed.

Lemma calculate_allocation_bands_witness :
  calculate_allocation boundary_metrics = NEUTRAL_PHASE.
Proof.
  apply (calculate_allocation_bands boundary_metrics); vm_compute; reflexivity.
Defined.

Section Properties.

Context (R : Runtime) (E : Env).

Local Open Scope py_scope.

(** ** The primitive steps *)

Lemma time_time_run (w : World) :
  time_time E w = (set_clock_reads (S (clock_reads w)) w, Returned (clock E (clock_reads w))).
Proof. reflexivity. Qed.

Lemma datetime_now_run (w : World) :
  datetime_now E w = (set_now_reads (S (now_reads w)) w, Returned (wall_clock E (now_reads w))).
Proof. reflexivity. Qed.

Lemma should_trigger_run (trigger_name : string) (w : World) :
  _should_trigger E trigger_name w =
  (set_clock_reads (S (clock_reads w)) w,
   Returned (eligible (self w) trigger_name (clock E (clock_reads w)))).
Proof. reflexivity. Qed.

Lemma record_trigger_run (trigger_name : string) (w : World) :
  let t := clock E (clock_reads w) in
  _record_trigger E trigger_name w =
  (set_trace (trace w ++ [EvRecord trigger_name t])
     (set_self (recorded trigger_name t) (set_clock_reads (S (clock_reads w)) w)),
   Returned tt).
Proof. reflexivity. Qed.

(** ** The sinks *)

Ltac unfold_world :=
  unfold stepped, set_self, set_clock_reads, set_now_reads, set_posts, set_journal_calls,
    set_journal_file, set_stdout, set_chat, set_trace; simpl.

Lemma stepped_refl (w : World) : stepped w w (self w) [] 0 0.
Proof. unfold stepped. rewrite app_nil_r. repeat split; lia. Qed.

Lemma stepped_trans (w1 w2 w3 : World) (s2 s3 : TriggerEngine) (h1 h2 : list event)
    (dc1 dc2 dj1 dj2 : nat) :
  stepped w1 w2 s2 h1 dc1 dj1 -> stepped w2 w3 s3 h2 dc2 dj2 ->
  stepped w1 w3 s3 (h1 ++ h2) (dc1 + dc2) (dj1 + dj2).
Proof.
  intros (Hs1 & Ht1 & Hc1 & Hj1) (Hs2 & Ht2 & Hc2 & Hj2).
  unfold stepped. rewrite Ht2, Ht1, Hc2, Hc1, Hj2, Hj1, app_assoc.
  repeat split; [assumption | lia | lia].
Qed.

(** The notification sink always returns: a failed post is caught inside it.
    It touches neither the engine nor the clock nor the journal. *)
Lemma send_telegram_message_spec (text : string) (w : World) :
  exists w' delivered,
    send_telegram_message E text w = (w', Returned delivered)
    /\ stepped w w' (self w) [EvTelegram text] 0 0.
Proof.
  unfold send_telegram_message, bind, log, modify, print, try_except, gets, ret, raise.
  simpl.
  destruct (negb (truthy (TG_TOKEN E)) || negb (truthy (TG_CHAT E))).
  - eexists _, _. split; [reflexivity|]. unfold_world. repeat split; lia.
  - simpl. destruct (requests_post E (posts w)).
    + eexists _, _. split; [reflexivity|]. unfold_world. repeat split; lia.
    + eexists _, _. split; [reflexivity|]. unfold_world. repeat split; lia.
Qed.

(** The journal sink raises [OSError] exactly when the environment makes its
    file operations fail. It touches neither the engine nor the clock. *)
Lemma append_journal_entry_spec (asset : string) (change_pct : pynum)
    (reason emotion : string) (w : World) :
  exists w',
    append_journal_entry E asset change_pct reason emotion w =
      (w', if journal_fails E (journal_calls w) then Raised OSError else Returned tt)
    /\ stepped w w' (self w) [EvJournal asset change_pct reason emotion] 0 1.
Proof.
  unfold append_journal_entry, ensure_journal_exists, datetime_now, bind, log, modify,
    gets, ret, raise.
  simpl. destruct (journal_fails E (journal_calls w)).
  - eexists. split; [reflexivity|]. unfold_world. repeat split; lia.
  - unfold_world.
    destruct (journal_file w); simpl;
      (eexists; split; [reflexivity|]; unfold_world; repeat split; lia).
Qed.

(** One firing: the record is made first, then the notification, then the
    journal call, whose failure is the only way to raise. *)
Lemma firing_spec {A} (trigger_name message asset : string) (change_pct : pynum)
    (reason emotion : string) (a : A) (w : World) :
  let t := clock E (clock_reads w) in
  exists w',
    (_record_trigger E trigger_name ;;
     send_telegram_message E message ;;
     append_journal_entry E asset change_pct reason emotion ;;
     ret a) w =
      (w', if journal_fails E (journal_calls w) then Raised OSError else Returned a)
    /\ stepped w w' (recorded trigger_name t (self w))
         (firing trigger_name t message asset change_pct reason emotion) 1 1.
Proof.
  intros t. unfold bind at 1. rewrite record_trigger_run. fold t.
  set (w1 := set_trace _ _).
  assert (H1 : stepped w w1 (recorded trigger_name t (self w)) [EvRecord trigger_name t] 1 0).
  { subst w1. unfold_world. repeat split; lia. }
  unfold bind at 1.
  destruct (send_telegram_message_spec message w1) as (w2 & d & -> & H2).
  unfold bind at 1.
  destruct (append_journal_entry_spec asset change_pct reason emotion w2) as (w3 & -> & H3).
  exists w3. split.
  - replace (journal_calls w2) with (journal_calls w).
    + now destruct (journal_fails E (journal_calls w)).
    + destruct H1 as (_ & _ & _ & Hj1), H2 as (_ & _ & _ & Hj2). lia.
  - destruct H1 as (Hs1 & Ht1 & Hc1 & Hj1), H2 as (Hs2 & Ht2 & Hc2 & Hj2),
      H3 as (Hs3 & Ht3 & Hc3 & Hj3).
    unfold stepped, firing. rewrite Hs3, Hs2, Ht3, Ht2, Ht1, <- !app_assoc. simpl.
    repeat split; lia.
Qed.

(** ** Guarded firings *)

(** The shape shared by the evaluators: a guard on the snapshot, then the
    cooldown check (made only when the guard holds), then the firing. *)
Lemma guarded_run {A} (cond : bool) (trigger_name : string) (fire rest : M A) (w : World) :
  (c <- and_then cond (_should_trigger E trigger_name) ;; if c then fire else rest) w =
  if cond && eligible (self w) trigger_name (clock E (clock_reads w)) then fire (tick w)
  else rest (if cond then tick w else w).
Proof.
  destruct cond; simpl; [|reflexivity].
  unfold bind at 1. rewrite should_trigger_run. fold (tick w).
  now destruct (eligible (self w) trigger_name (clock E (clock_reads w))).
Qed.

Lemma stepped_tick (w w' : World) (s' : TriggerEngine) (h : list event) (dc dj : nat) :
  stepped (tick w) w' s' h dc dj -> stepped w w' s' h (S dc) dj.
Proof.
  unfold stepped, tick. unfold_world. intros (-> & -> & -> & ->). repeat split; lia.
Qed.

(** A guarded firing followed by [return]: what every single-condition
    evaluator is. *)
Lemma guarded_firing_run (cond : bool) (trigger_name message asset : string)
    (change_pct : pynum) (reason emotion : string) (w : World) :
  let fires := cond && eligible (self w) trigger_name (clock E (clock_reads w)) in
  let t := clock E (S (clock_reads w)) in
  exists w',
    (c <- and_then cond (_should_trigger E trigger_name) ;;
     if c then
       _record_trigger E trigger_name ;;
       send_telegram_message E message ;;
       append_journal_entry E asset change_pct reason emotion ;;
       ret (Some message)
     else ret None) w =
    (w', if fires then
           if journal_fails E (journal_calls w) then Raised OSError
           else Returned (Some message)
         else Returned None)
    /\ stepped w w'
         (if fires then recorded trigger_name t (self w) else self w)
         (if fires then firing trigger_name t message asset change_pct reason emotion else [])
         (if fires then 2 else if cond then 1 else 0)
         (if fires then 1 else 0).
Proof.
  intros fires t. rewrite guarded_run. fold fires. destruct fires.
  - destruct (firing_spec trigger_name message asset change_pct reason emotion
                (Some message) (tick w)) as (w' & Hrun & Hstep).
    exists w'. split; [exact Hrun|]. exact (stepped_tick _ _ _ _ _ _ Hstep).
  - destruct cond.
    + exists (tick w). split; [reflexivity|].
      exact (stepped_tick _ _ _ _ _ _ (stepped_refl (tick w))).
    + exists w. split; [reflexivity|]. apply stepped_refl.
Qed.

(** ** The evaluators, step by step *)

Lemma check_rotation_triggers_run (metrics : Metrics) (w : World) :
  let btc_dom := get (btc_dominance metrics) (Float.of_Z 60) in
  let alt_index := get (alt_season_index metrics) (Float.of_Z 50) in
  let fires := rotation_condition metrics
               && eligible (self w) "rotation" (clock E (clock_reads w)) in
  let t := clock E (S (clock_reads w)) in
  let message := rotation_message R btc_dom alt_index in
  exists w',
    check_rotation_triggers R E metrics w =
    (w', if fires then
           if journal_fails E (journal_calls w) then Raised OSError
           else Returned (Some message)
         else Returned None)
    /\ stepped w w'
         (if fires then recorded "rotation" t (self w) else self w)
         (if fires then firing "rotation" t message "ROTATION" (PyInt (-10))
                          "BTC.D <60, rotate" "😐"
          else [])
         (if fires then 2 else if rotation_condition metrics then 1 else 0)
         (if fires then 1 else 0).
Proof. apply guarded_firing_run. Qed.

Lemma check_stablecoin_triggers_run (metrics : Metrics) (w : World) :
  let stable_delta := get (stablecoin_delta metrics) (Float.of_Z 0) in
  let fires := stablecoin_condition metrics
               && eligible (self w) "stablecoin_issuance" (clock E (clock_reads w)) in
  let t := clock E (S (clock_reads w)) in
  let message := stablecoin_message R stable_delta in
  exists w',
    check_stablecoin_triggers R E metrics w =
    (w', if fires then
           if journal_fails E (journal_calls w) then Raised OSError
           else Returned (Some message)
         else Returned None)
    /\ stepped w w'
         (if fires then recorded "stablecoin_issuance" t (self w) else self w)
         (if fires then firing "stablecoin_issuance" t message "STABLES" (PyInt 10)
                          "New stable-coin issuance" "💰"
          else [])
         (if fires then 2 else if stablecoin_condition metrics then 1 else 0)
         (if fires then 1 else 0).
Proof. apply guarded_firing_run. Qed.

Lemma check_alt_season_triggers_run (metrics : Metrics) (w : World) :
  let alt_index := get (alt_season_index metrics) (Float.of_Z 50) in
  let c0 := clock_reads w in
  let full_fires := alt_season_full_condition metrics
                    && eligible (self w) "alt_season_full" (clock E c0) in
  let c1 := if alt_season_full_condition metrics then S c0 else c0 in
  let end_fires := alt_season_end_condition metrics
                   && eligible (self w) "alt_season_end" (clock E c1) in
  exists w' dc,
    check_alt_season_triggers R E metrics w =
    (w', if full_fires then
           if journal_fails E (journal_calls w) then Raised OSError
           else Returned (Some (alt_season_full_message R alt_index))
         else if end_fires then
           if journal_fails E (journal_calls w) then Raised OSError
           else Returned (Some (alt_season_end_message R alt_index))
         else Returned None)
    /\ stepped w w'
         (if full_fires then recorded "alt_season_full" (clock E (S c0)) (self w)
          else if end_fires then recorded "alt_season_end" (clock E (S c1)) (self w)
          else self w)
         (if full_fires then
            firing "alt_season_full" (clock E (S c0)) (alt_season_full_message R alt_index)
                   "ALTS" (PyInt 25) "Full alt-season" "🚀"
          else if end_fires then
            firing "alt_season_end" (clock E (S c1)) (alt_season_end_message R alt_index)
                   "BTC" (PyInt 20) "Back to BTC dominance" "📉"
          else [])
         dc
         (if full_fires || end_fires then 1 else 0)
    /\ (c0 + dc = if full_fires then S (S c0)
                  else if end_fires then S (S c1)
                  else if alt_season_end_condition metrics then S c1 else c1)%nat.
Proof.
  intros alt_index c0 full_fires c1 end_fires.
  unfold check_alt_season_triggers. rewrite guarded_run.
  change (Float.ge (get (alt_season_index metrics) (Float.of_Z 50)) (Float.of_Z 75))
    with (alt_season_full_condition metrics).
  change (alt_season_full_condition metrics
          && eligible (self w) "alt_season_full" (clock E (clock_reads w)))
    with full_fires.
  destruct full_fires eqn:Hfull.
  - destruct (firing_spec "alt_season_full" (alt_season_full_message R alt_index) "ALTS"
                (PyInt 25) "Full alt-season" "🚀"
                (Some (alt_season_full_message R alt_index)) (tick w)) as (w' & Hrun & Hstep).
    exists w', 2%nat. split; [exact Hrun|]. split; [|lia].
    exact (stepped_tick _ _ _ _ _ _ Hstep).
  - set (w1 := if alt_season_full_condition metrics then tick w else w).
    assert (Hw1 : stepped w w1 (self w) [] (c1 - c0) 0).
    { subst w1 c1. destruct (alt_season_full_condition metrics).
      - replace (S c0 - c0)%nat with 1%nat by lia.
        exact (stepped_tick _ _ _ _ _ _ (stepped_refl (tick w))).
      - replace (c0 - c0)%nat with 0%nat by lia. apply stepped_refl. }
    assert (Hc1 : clock_reads w1 = c1).
    { subst w1 c1. now destruct (alt_season_full_condition metrics). }
    assert (Hs1 : self w1 = self w).
    { subst w1. now destruct (alt_season_full_condition metrics). }
    assert (Hj1 : journal_calls w1 = journal_calls w).
    { subst w1. now destruct (alt_season_full_condition metrics). }
    destruct (guarded_firing_run (alt_season_end_condition metrics) "alt_season_end"
                (alt_season_end_message R alt_index) "BTC" (PyInt 20)
                "Back to BTC dominance" "📉" w1) as (w' & Hrun & Hstep).
    rewrite Hc1, Hs1 in Hrun, Hstep. rewrite Hj1 in Hrun.
    fold end_fires in Hrun, Hstep.
    exists w'. eexists. split; [exact Hrun|].
    pose proof (stepped_trans _ _ _ _ _ _ _ _ _ _ _ Hw1 Hstep) as Hall.
    simpl in Hall. split.
    + replace (0 + (if end_fires then 1 else 0))%nat
        with (if end_fires then 1 else 0)%nat in Hall by reflexivity.
      exact Hall.
    + assert (c0 <= c1)%nat by (subst c1; destruct (alt_season_full_condition metrics); lia).
      destruct end_fires; [lia|].
      destruct (alt_season_end_condition metrics); lia.
Qed.

(** One of the two stages of the funding evaluator: a guarded firing that
    appends its message to the list and goes on. *)
Lemma funding_stage_run {A} (cond : bool) (trigger_name message asset : string)
    (change_pct : pynum) (reason emotion : string) (messages : list string)
    (rest : list string -> M A) (w : World) :
  let fires := cond && eligible (self w) trigger_name (clock E (clock_reads w)) in
  let t := clock E (S (clock_reads w)) in
  exists w1,
    stepped w w1
      (if fires then recorded trigger_name t (self w) else self w)
      (if fires then firing trigger_name t message asset change_pct reason emotion else [])
      (if fires then 2 else if cond then 1 else 0)
      (if fires then 1 else 0)
    /\ (c <- and_then cond (_should_trigger E trigger_name) ;;
        messages' <- (if c then
                        _record_trigger E trigger_name ;;
                        send_telegram_message E message ;;
                        append_journal_entry E asset change_pct reason emotion ;;
                        ret (messages ++ [message])
                      else ret messages) ;;
        rest messages') w =
       if fires then
         if journal_fails E (journal_calls w) then (w1, Raised OSError)
         else rest (messages ++ [message]) w1
       else rest messages w1.
Proof.
  intros fires t.
  destruct cond; simpl in fires.
  - unfold bind at 1. simpl and_then. rewrite should_trigger_run. fold (tick w).
    subst fires. destruct (eligible (self w) trigger_name (clock E (clock_reads w))).
    + destruct (firing_spec trigger_name message asset change_pct reason emotion
                  (messages ++ [message]) (tick w)) as (w1 & Hrun & Hstep).
      exists w1. split; [exact (stepped_tick _ _ _ _ _ _ Hstep)|].
      unfold bind at 1. rewrite Hrun. simpl.
      now destruct (journal_fails E (journal_calls w)).
    + exists (tick w). split; [|reflexivity].
      exact (stepped_tick _ _ _ _ _ _ (stepped_refl (tick w))).
  - exists w. split; [apply stepped_refl | reflexivity].
Qed.

Lemma eligible_recorded_other (s : TriggerEngine) (k k' : string) (t now : float) :
  k <> k' -> eligible (recorded k t s) k' now = eligible s k' now.
Proof. intros Hne. unfold eligible, recorded. simpl. now rewrite lookup_insert_ne. Qed.

Lemma check_funding_triggers_run (metrics : Metrics) (w : World) :
  let btc_funding := get (btc_funding_rate metrics) (Float.of_Z 0) in
  let hype_funding := get (hype_funding_rate metrics) (Float.of_Z 0) in
  let btc_fires := funding_btc_condition metrics
                   && eligible (self w) "funding_btc" (clock E (clock_reads w)) in
  let btc_message := funding_message R "BTC" btc_funding in
  let hype_message := funding_message R "HYPE" hype_funding in
  exists w1,
    stepped w w1
      (if btc_fires then recorded "funding_btc" (clock E (S (clock_reads w))) (self w)
       else self w)
      (if btc_fires then
         firing "funding_btc" (clock E (S (clock_reads w))) btc_message "BTC" (PyInt (-20))
                (funding_reason R "BTC" btc_funding) "⚠️"
       else [])
      (if btc_fires then 2 else if funding_btc_condition metrics then 1 else 0)
      (if btc_fires then 1 else 0)
    /\ if btc_fires && journal_fails E (journal_calls w) then
         check_funding_triggers R E metrics w = (w1, Raised OSError)
       else
         let hype_fires := funding_hype_condition metrics
                           && eligible (self w) "funding_hype" (clock E (clock_reads w1)) in
         exists w2,
           stepped w1 w2
             (if hype_fires then
                recorded "funding_hype" (clock E (S (clock_reads w1))) (self w1)
              else self w1)
             (if hype_fires then
                firing "funding_hype" (clock E (S (clock_reads w1))) hype_message "HYPE"
                       (PyInt (-20)) (funding_reason R "HYPE" hype_funding) "⚠️"
              else [])
             (if hype_fires then 2 else if funding_hype_condition metrics then 1 else 0)
             (if hype_fires then 1 else 0)
           /\ check_funding_triggers R E metrics w =
              (w2, if hype_fires && journal_fails E (journal_calls w1) then Raised OSError
                   else Returned (funding_result btc_fires hype_fires
                                                 btc_message hype_message)).
Proof.
  unfold check_funding_triggers. cbv zeta.
  set (btc_funding := get (btc_funding_rate metrics) (Float.of_Z 0)).
  set (hype_funding := get (hype_funding_rate metrics) (Float.of_Z 0)).
  set (btc_message := funding_message R "BTC" btc_funding).
  set (hype_message := funding_message R "HYPE" hype_funding).
  match goal with
  | |- context [bind (and_then ?c (_should_trigger E "funding_btc")) (fun c1 => bind _ ?rest)] =>
      destruct (funding_stage_run c "funding_btc" btc_message "BTC" (PyInt (-20))
                  (funding_reason R "BTC" btc_funding) "⚠️" [] rest w) as (w1 & Hstep1 & Hrun1)
  end.
  exists w1. rewrite Hrun1. clear Hrun1.
  change (Float.ge (Float.abs btc_funding) Float.lit_0_10)
    with (funding_btc_condition metrics) in *.
  split; [exact Hstep1|].
  assert (Hself1 : forall now, eligible (self w1) "funding_hype" now
                               = eligible (self w) "funding_hype" now).
  { intros now. destruct Hstep1 as (-> & _).
    destruct (funding_btc_condition metrics
              && eligible (self w) "funding_btc" (clock E (clock_reads w))); [|reflexivity].
    now apply eligible_recorded_other. }
  assert (Hstage2 : forall messages,
    exists w2,
      stepped w1 w2
        (if funding_hype_condition metrics
            && eligible (self w) "funding_hype" (clock E (clock_reads w1)) then
           recorded "funding_hype" (clock E (S (clock_reads w1))) (self w1)
         else self w1)
        (if funding_hype_condition metrics
            && eligible (self w) "funding_hype" (clock E (clock_reads w1)) then
           firing "funding_hype" (clock E (S (clock_reads w1))) hype_message "HYPE"
                  (PyInt (-20)) (funding_reason R "HYPE" hype_funding) "⚠️"
         else [])
        (if funding_hype_condition metrics
            && eligible (self w) "funding_hype" (clock E (clock_reads w1))
         then 2 else if funding_hype_condition metrics then 1 else 0)
        (if funding_hype_condition metrics
            && eligible (self w) "funding_hype" (clock E (clock_reads w1))
         then 1 else 0)
      /\ (c <- and_then (Float.ge (Float.abs hype_funding) Float.lit_0_10)
                  (_should_trigger E "funding_hype") ;;
          messages' <- (if c then
                          _record_trigger E "funding_hype" ;;
                          send_telegram_message E hype_message ;;
                          append_journal_entry E "HYPE" (PyInt (-20))
                            (funding_reason R "HYPE" hype_funding) "⚠️" ;;
                          ret (messages ++ [hype_message])
                        else ret messages) ;;
          ret (match messages' with
               | [] => None
               | _ => Some (String.concat "; " messages')
               end)) w1 =
         (w2, if (funding_hype_condition metrics
                  && eligible (self w) "funding_hype" (clock E (clock_reads w1)))
                 && journal_fails E (journal_calls w1) then Raised OSError
              else Returned (joined (if funding_hype_condition metrics
                                         && eligible (self w) "funding_hype"
                                                     (clock E (clock_reads w1))
                                      then messages ++ [hype_message]
                                      else messages)))).
  { intros messages.
    destruct (funding_stage_run (Float.ge (Float.abs hype_funding) Float.lit_0_10)
                "funding_hype" hype_message "HYPE" (PyInt (-20))
                (funding_reason R "HYPE" hype_funding) "⚠️" messages
                (fun messages' => ret (match messages' with
                                       | [] => None
                                       | _ => Some (String.concat "; " messages')
                                       end)) w1) as (w2 & Hstep2 & Hrun2).
    rewrite Hself1 in Hstep2, Hrun2.
    exists w2. rewrite Hrun2. clear Hrun2.
    change (Float.ge (Float.abs hype_funding) Float.lit_0_10)
      with (funding_hype_condition metrics) in *.
    split; [exact Hstep2|].
    destruct (funding_hype_condition metrics
              && eligible (self w) "funding_hype" (clock E (clock_reads w1)));
      simpl; [|reflexivity].
    now destruct (journal_fails E (journal_calls w1)). }
  destruct (funding_btc_condition metrics
            && eligible (self w) "funding_btc" (clock E (clock_reads w))); simpl andb.
  - destruct (journal_fails E (journal_calls w)); [reflexivity|].
    destruct (Hstage2 ([] ++ [btc_message])) as (w2 & Hstep2 & Hrun2).
    exists w2. split; [exact Hstep2|].
    etransitivity; [exact Hrun2|]. f_equal.
    destruct (funding_hype_condition metrics
              && eligible (self w) "funding_hype" (clock E (clock_reads w1))); reflexivity.
  - destruct (Hstage2 []) as (w2 & Hstep2 & Hrun2).
    exists w2. split; [exact Hstep2|].
    etransitivity; [exact Hrun2|]. f_equal.
    destruct (funding_hype_condition metrics
              && eligible (self w) "funding_hype" (clock E (clock_reads w1))); reflexivity.
Qed.

(** ** Histories *)

Lemma replay_app (h1 h2 : list event) (m : gmap string float) :
  replay (h1 ++ h2) m = replay h2 (replay h1 m).
Proof.
  revert m. induction h1 as [|e h1 IH]; intros m; [reflexivity|].
  destruct e; simpl; apply IH.
Qed.

Lemma replayed_app (h1 h2 : list event) (s : TriggerEngine) :
  replayed (h1 ++ h2) s = replayed h2 (replayed h1 s).
Proof. unfold replayed. simpl. now rewrite replay_app. Qed.

Lemma replayed_nil (s : TriggerEngine) : replayed [] s = s.
Proof. now destruct s. Qed.

Lemma replay_not_recorded (h : list event) (m : gmap string float) (k : string) :
  ~ In k (recorded_names h) -> replay h m !! k = m !! k.
Proof.
  revert m. induction h as [|e h IH]; intros m Hk; [reflexivity|].
  destruct e as [k' t| |]; simpl in *; [|now apply IH..].
  rewrite IH by tauto. apply lookup_insert_ne. intros ->. tauto.
Qed.

Lemma recorded_names_app (h1 h2 : list event) :
  recorded_names (h1 ++ h2) = recorded_names h1 ++ recorded_names h2.
Proof.
  induction h1 as [|e h1 IH]; [reflexivity|].
  destruct e; simpl; now rewrite IH.
Qed.

Lemma recorded_names_In (h : list event) (k : string) :
  In k (recorded_names h) <-> exists t, In (EvRecord k t) h.
Proof.
  induction h as [|e h IH]; simpl.
  - split; [tauto|]. now intros (t & []).
  - destruct e as [k' t'| |]; simpl; rewrite IH; split.
    + intros [->|(t & Ht)]; [exists t'; now left | exists t; now right].
    + intros (t & [[= -> ->]|Ht]); [now left | right; now exists t].
    + intros (t & Ht). exists t. now right.
    + intros (t & [Hd|Ht]); [discriminate | now exists t].
    + intros (t & Ht). exists t. now right.
    + intros (t & [Hd|Ht]); [discriminate | now exists t].
Qed.

(** A history of firings is empty or starts with a whole firing. *)
Lemma firing_blocks_inv (h : list event) :
  firing_blocks h = true ->
  h = [] \/ exists k t message asset change_pct reason emotion rest,
              h = firing k t message asset change_pct reason emotion ++ rest
              /\ firing_blocks rest = true.
Proof.
  destruct h as [|[k t| |] [|[| message|] [|[| |asset change_pct reason emotion] rest]]];
    simpl; try discriminate; auto.
  intros H. right. now exists k, t, message, asset, change_pct, reason, emotion, rest.
Qed.

Lemma firing_blocks_app (h1 h2 : list event) :
  firing_blocks h1 = true -> firing_blocks h2 = true -> firing_blocks (h1 ++ h2) = true.
Proof.
  intros H1 H2. remember (length h1) as n eqn:Hn.
  revert h1 Hn H1. induction n as [n IH] using lt_wf_ind. intros h1 Hn H1.
  destruct (firing_blocks_inv h1 H1) as [->|(k & t & msg & a & c & r & e & rest & -> & Hrest)];
    [exact H2|].
  simpl. apply (IH (length rest)); [|reflexivity|exact Hrest].
  subst n. simpl. lia.
Qed.

Lemma checked_records_nil (own : string -> Prop) (s : TriggerEngine) (c c' : nat) :
  checked_records E own s c c' [].
Proof. intros [|? pre] k t post H; discriminate H. Qed.

Lemma checked_records_firing (own : string -> Prop) (s : TriggerEngine) (c c' : nat)
    (k message asset : string) (change_pct : pynum) (reason emotion : string) :
  own k -> eligible s k (clock E c) = true -> (S (S c) <= c')%nat ->
  checked_records E own s c c'
    (firing k (clock E (S c)) message asset change_pct reason emotion).
Proof.
  intros Hown Hel Hc pre k' t' post H.
  destruct pre as [|e1 [|e2 [|e3 [|e4 pre]]]]; simpl in H; try discriminate H;
    try (destruct pre; discriminate H).
  injection H as <- <- <-. split; [exact Hown|].
  exists c, (S c). rewrite replayed_nil. repeat split; try lia. exact Hel.
Qed.

Lemma checked_records_app (own : string -> Prop) (s : TriggerEngine) (c c1 c2 : nat)
    (h1 h2 : list event) :
  (c <= c1)%nat -> (c1 <= c2)%nat ->
  checked_records E own s c c1 h1 ->
  checked_records E own (replayed h1 s) c1 c2 h2 ->
  checked_records E own s c c2 (h1 ++ h2).
Proof.
  intros Hc Hc' H1 H2 pre k t post Heq.
  apply app_eq_app in Heq as (l & [(Hh1 & Hpost)|(Hpre & Hh2)]).
  - destruct l as [|e l].
    + simpl in Hpost. rewrite app_nil_r in Hh1. subst pre.
      destruct (H2 [] k t post (eq_sym Hpost)) as (Hown & j & i & ? & ? & ? & ? & Hel).
      split; [exact Hown|]. exists j, i. rewrite replayed_nil in Hel.
      repeat split; try lia; assumption.
    + injection Hpost as <- Hpost.
      destruct (H1 pre k t l Hh1) as (Hown & j & i & ? & ? & ? & ? & Hel).
      split; [exact Hown|]. exists j, i. repeat split; try lia; assumption.
  - destruct (H2 l k t post Hh2) as (Hown & j & i & ? & ? & ? & ? & Hel).
    split; [exact Hown|]. exists j, i. subst pre. rewrite replayed_app.
    repeat split; try lia; assumption.
Qed.

Lemma checked_records_weaken (own own' : string -> Prop) (s : TriggerEngine) (c c' : nat)
    (h : list event) :
  (forall k, own k -> own' k) ->
  checked_records E own s c c' h -> checked_records E own' s c c' h.
Proof.
  intros Hsub H pre k t post Heq. destruct (H pre k t post Heq) as (Hown & Hrest).
  split; [now apply Hsub | exact Hrest].
Qed.

(** ** Summaries compose *)

Ltac summary_with h :=
  exists h; simpl fst; simpl snd;
  split; [|split; [|split; [|split; [|split; [|split]]]]].

Lemma summary_quiet {A} (own : string -> Prop) (w w' : World) (a : A) (dc : nat) :
  stepped w w' (self w) [] dc 0 -> summary E own w (w', Returned a).
Proof.
  intros (Hs & Ht & Hc & Hj). summary_with (@nil event).
  - exact Ht.
  - reflexivity.
  - now rewrite replayed_nil.
  - lia.
  - exact Hj.
  - apply checked_records_nil.
  - discriminate.
Qed.

Lemma summary_firing {A} (own : string -> Prop) (w w' : World) (a : A)
    (k message asset : string) (change_pct : pynum) (reason emotion : string) :
  own k -> eligible (self w) k (clock E (clock_reads w)) = true ->
  stepped w w' (recorded k (clock E (S (clock_reads w))) (self w))
    (firing k (clock E (S (clock_reads w))) message asset change_pct reason emotion) 2 1 ->
  summary E own w
    (w', if journal_fails E (journal_calls w) then Raised OSError else Returned a).
Proof.
  intros Hown Hel (Hs & Ht & Hc & Hj).
  summary_with (firing k (clock E (S (clock_reads w))) message asset change_pct reason emotion).
  - exact Ht.
  - reflexivity.
  - exact Hs.
  - lia.
  - exact Hj.
  - apply checked_records_firing; [assumption..|lia].
  - intros e He. rewrite Hj.
    replace (journal_calls w + 1)%nat with (S (journal_calls w)) by lia. simpl.
    destruct (journal_fails E (journal_calls w)); [|discriminate He].
    injection He as <-. repeat split. lia.
Qed.

Lemma summary_trans {A B} (own : string -> Prop) (w w1 : World) (a : A)
    (r : World * outcome B) :
  summary E own w (w1, Returned a) -> summary E own w1 r -> summary E own w r.
Proof.
  intros (h1 & Ht1 & Hb1 & Hs1 & Hc1 & Hj1 & Hk1 & _)
         (h2 & Ht2 & Hb2 & Hs2 & Hc2 & Hj2 & Hk2 & Hr2).
  simpl in *. summary_with (h1 ++ h2).
  - now rewrite Ht2, Ht1, app_assoc.
  - now apply firing_blocks_app.
  - now rewrite Hs2, Hs1, replayed_app.
  - lia.
  - rewrite Hj2, Hj1, recorded_names_app, length_app. lia.
  - apply (checked_records_app own _ _ (clock_reads w1)); try assumption.
    now rewrite <- Hs1.
  - intros e He. destruct (Hr2 e He) as (? & ? & ?). repeat split; try assumption. lia.
Qed.

Lemma summary_bind {A B} (own : string -> Prop) (m : M A) (k : A -> M B) (w : World) :
  summary E own w (m w) ->
  (forall a, snd (m w) = Returned a -> summary E own (fst (m w)) (k a (fst (m w)))) ->
  summary E own w (bind m k w).
Proof.
  unfold bind. destruct (m w) as [w1 [a|e]]; simpl; intros H1 H2.
  - exact (summary_trans own w w1 a _ H1 (H2 a eq_refl)).
  - destruct H1 as (h & Ht & Hb & Hs & Hc & Hj & Hk & Hr). simpl in *.
    summary_with h; try assumption.
    intros e' [= <-]. now apply Hr.
Qed.

Lemma summary_weaken {A} (own own' : string -> Prop) (w : World) (r : World * outcome A) :
  (forall k, own k -> own' k) -> summary E own w r -> summary E own' w r.
Proof.
  intros Hsub (h & Ht & Hb & Hs & Hc & Hj & Hk & Hr).
  summary_with h; try assumption.
  now apply (checked_records_weaken own).
Qed.

(** [except Exception] keeps what the body did and turns a raise into a
    normal result. *)
Lemma summary_swallow {A B} (own : string -> Prop) (w w' : World) (out : outcome A) (b : B) :
  summary E own w (w', out) -> summary E own w (w', Returned b).
Proof.
  intros (h & Ht & Hb & Hs & Hc & Hj & Hk & _). simpl in *.
  summary_with h; try assumption. discriminate.
Qed.

(** ** Summaries of the evaluators *)

(** A guarded firing with any continuation on the quiet path. *)
Lemma guarded_firing_else_summary {A} (own : string -> Prop) (cond : bool)
    (k message asset : string) (change_pct : pynum) (reason emotion : string)
    (a : A) (rest : M A) (w : World) :
  own k ->
  (forall w1, stepped w w1 (self w) [] (if cond then 1 else 0) 0 ->
              summary E own w1 (rest w1)) ->
  summary E own w
    ((c <- and_then cond (_should_trigger E k) ;;
      if c then
        _record_trigger E k ;;
        send_telegram_message E message ;;
        append_journal_entry E asset change_pct reason emotion ;;
        ret a
      else rest) w).
Proof.
  intros Hown Hrest. rewrite guarded_run.
  destruct (cond && eligible (self w) k (clock E (clock_reads w))) eqn:Hfires.
  - apply andb_true_iff in Hfires as (_ & Hel).
    destruct (firing_spec k message asset change_pct reason emotion a (tick w))
      as (w' & -> & Hstep).
    apply (summary_firing own w w' a k message asset change_pct reason emotion Hown Hel).
    exact (stepped_tick _ _ _ _ _ _ Hstep).
  - assert (Hq : stepped w (if cond then tick w else w) (self w) []
                   (if cond then 1 else 0) 0).
    { destruct cond; [|apply stepped_refl].
      exact (stepped_tick _ _ _ _ _ _ (stepped_refl (tick w))). }
    apply (summary_trans own w (if cond then tick w else w) tt).
    + exact (summary_quiet own _ _ tt _ Hq).
    + now apply Hrest.
Qed.

Lemma summary_ret {A} (own : string -> Prop) (a : A) (w : World) :
  summary E own w (ret a w).
Proof. exact (summary_quiet own w w a 0 (stepped_refl w)). Qed.

Lemma check_rotation_triggers_summary (metrics : Metrics) (w : World) :
  summary E rotation_keys w (check_rotation_triggers R E metrics w).
Proof.
  apply guarded_firing_else_summary; [reflexivity|]. intros w1 _. apply summary_ret.
Qed.

Lemma check_stablecoin_triggers_summary (metrics : Metrics) (w : World) :
  summary E stablecoin_keys w (check_stablecoin_triggers R E metrics w).
Proof.
  apply guarded_firing_else_summary; [reflexivity|]. intros w1 _. apply summary_ret.
Qed.

Lemma check_alt_season_triggers_summary (metrics : Metrics) (w : World) :
  summary E alt_season_keys w (check_alt_season_triggers R E metrics w).
Proof.
  apply guarded_firing_else_summary; [now left|]. intros w1 _.
  apply guarded_firing_else_summary; [now right|]. intros w2 _. apply summary_ret.
Qed.

(** A funding stage, as [funding_stage_run] describes it. *)
Lemma stage_summary {A} (own : string -> Prop) (w w1 : World) (cond : bool)
    (k message asset : string) (change_pct : pynum) (reason emotion : string) (a : A) :
  own k ->
  stepped w w1
    (if cond && eligible (self w) k (clock E (clock_reads w))
     then recorded k (clock E (S (clock_reads w))) (self w) else self w)
    (if cond && eligible (self w) k (clock E (clock_reads w))
     then firing k (clock E (S (clock_reads w))) message asset change_pct reason emotion
     else [])
    (if cond && eligible (self w) k (clock E (clock_reads w))
     then 2 else if cond then 1 else 0)
    (if cond && eligible (self w) k (clock E (clock_reads w)) then 1 else 0) ->
  summary E own w
    (w1, if (cond && eligible (self w) k (clock E (clock_reads w)))
            && journal_fails E (journal_calls w)
         then Raised OSError else Returned a).
Proof.
  intros Hown Hstep.
  destruct (cond && eligible (self w) k (clock E (clock_reads w))) eqn:Hfires; simpl.
  - apply andb_true_iff in Hfires as (_ & Hel).
    exact (summary_firing own w w1 a k message asset change_pct reason emotion
             Hown Hel Hstep).
  - exact (summary_quiet own w w1 a _ Hstep).
Qed.

Lemma check_funding_triggers_summary (metrics : Metrics) (w : World) :
  summary E funding_keys w (check_funding_triggers R E metrics w).
Proof.
  destruct (check_funding_triggers_run metrics w) as (w1 & Hstep1 & Hrun).
  pose proof (stage_summary funding_keys w w1 _ _ _ _ _ _ _ tt (or_introl eq_refl) Hstep1)
    as Hsum1.
  destruct (funding_btc_condition metrics
            && eligible (self w) "funding_btc" (clock E (clock_reads w))) eqn:Hbtc;
    simpl andb in Hrun, Hsum1.
  - destruct (journal_fails E (journal_calls w)) eqn:Hfail.
    + rewrite Hrun.
      destruct Hsum1 as (h & Ht & Hb & Hs & Hc & Hj & Hk & Hr). simpl in *.
      summary_with h; try assumption. intros e [= <-]. now apply (Hr OSError).
    + destruct Hrun as (w2 & Hstep2 & ->).
      apply (summary_trans funding_keys w w1 tt); [exact Hsum1|].
      assert (Hel : eligible (self w) "funding_hype" (clock E (clock_reads w1))
                    = eligible (self w1) "funding_hype" (clock E (clock_reads w1))).
      { destruct Hstep1 as (-> & _). symmetry. now apply eligible_recorded_other. }
      rewrite Hel in *.
      exact (stage_summary funding_keys w1 w2 _ _ _ _ _ _ _ _ (or_intror eq_refl) Hstep2).
  - destruct Hrun as (w2 & Hstep2 & ->).
    apply (summary_trans funding_keys w w1 tt); [exact Hsum1|].
    assert (Hel : eligible (self w) "funding_hype" (clock E (clock_reads w1))
                  = eligible (self w1) "funding_hype" (clock E (clock_reads w1))).
    { destruct Hstep1 as (-> & _). reflexivity. }
    rewrite Hel in *.
    exact (stage_summary funding_keys w1 w2 _ _ _ _ _ _ _ _ (or_intror eq_refl) Hstep2).
Qed.

(** ** The macro evaluator *)

Lemma bind_ret_l {A B} (a : A) (k : A -> M B) : bind (ret a) k = k a.
Proof. reflexivity. Qed.

(** One iteration of the loop, with its [try] and [except]. An event that is
    no candidate leaves the world as it is; a candidate costs one clock
    reading and, when its name is eligible, fires. The iteration never
    raises: a failure of the journal call is swallowed after the record and
    the notification were made, and the loop goes on. *)
Lemma macro_iteration_run (now : Z) (event : macro_event) (w : World) :
  match macro_candidate R now event with
  | None =>
      try_except (macro_try_body R E now event) (fun _ => ret None) w = (w, Returned None)
  | Some (name, date) =>
      let k := macro_trigger_name name in
      let t := clock E (S (clock_reads w)) in
      exists w',
        try_except (macro_try_body R E now event) (fun _ => ret None) w =
        (w', if eligible (self w) k (clock E (clock_reads w))
                && negb (journal_fails E (journal_calls w))
             then Returned (Some (macro_message name date))
             else Returned None)
        /\ stepped w w'
             (if eligible (self w) k (clock E (clock_reads w))
              then recorded k t (self w) else self w)
             (if eligible (self w) k (clock E (clock_reads w))
              then firing k t (macro_message name date) "CASH" (PyInt 0)
                          (macro_reason name) "📅"
              else [])
             (if eligible (self w) k (clock E (clock_reads w)) then 2 else 1)
             (if eligible (self w) k (clock E (clock_reads w)) then 1 else 0)
  end.
Proof.
  unfold macro_candidate, event_in_window, macro_try_body.
  destruct (ev_date event) as [date|]; simpl subscript; [|reflexivity].
  rewrite bind_ret_l. cbv beta.
  destruct (strptime_Ymd R date) as [event_date|]; [|reflexivity].
  rewrite bind_ret_l. cbv beta.
  destruct (Float.le _ (Float.of_Z 12)); [|reflexivity].
  destruct (ev_event event) as [name|]; simpl subscript; [|reflexivity].
  simpl and_then. rewrite bind_ret_l. cbv beta.
  unfold try_except. unfold bind at 1.
  rewrite should_trigger_run. fold (tick w).
  destruct (eligible (self w) (macro_trigger_name name) (clock E (clock_reads w))).
  - destruct (firing_spec (macro_trigger_name name) (macro_message name date) "CASH"
                (PyInt 0) (macro_reason name) "📅" (Some (macro_message name date)) (tick w))
      as (w' & Hrun & Hstep).
    exists w'. split; [|exact (stepped_tick _ _ _ _ _ _ Hstep)].
    change ((_record_trigger E (macro_trigger_name name);;
             send_telegram_message E (macro_message name date);;
             append_journal_entry E "CASH" (PyInt 0) (macro_reason name) "📅";;
             ret (Some (macro_message name date))) (tick w))
      with ((name0 <- ret name;;
             _record_trigger E (macro_trigger_name name0);;
             name1 <- ret name;;
             date0 <- ret date;;
             send_telegram_message E (macro_message name1 date0);;
             name2 <- ret name;;
             append_journal_entry E "CASH" (PyInt 0) (macro_reason name2) "📅";;
             ret (Some (macro_message name1 date0))) (tick w)) in Hrun.
    rewrite Hrun. simpl.
    now destruct (journal_fails E (journal_calls w)).
  - exists (tick w). split; [reflexivity|].
    exact (stepped_tick _ _ _ _ _ _ (stepped_refl (tick w))).
Qed.

Lemma macro_candidate_Some (now : Z) (event : macro_event) (name date : string) :
  macro_candidate R now event = Some (name, date) ->
  ev_event event = Some name /\ ev_date event = Some date
  /\ event_in_window R now event = true.
Proof.
  unfold macro_candidate. destruct (event_in_window R now event); [|discriminate].
  destruct (ev_event event), (ev_date event); try discriminate.
  now intros [= -> ->].
Qed.

Lemma macro_iteration_summary (now : Z) (event : macro_event) (w : World) :
  summary E (macro_keys [event]) w
    (try_except (macro_try_body R E now event) (fun _ => ret None) w).
Proof.
  pose proof (macro_iteration_run now event w) as Hrun.
  destruct (macro_candidate R now event) as [[name date]|] eqn:Hcand.
  - destruct Hrun as (w' & -> & Hstep).
    apply macro_candidate_Some in Hcand as (Hname & _ & _).
    assert (Hown : macro_keys [event] (macro_trigger_name name)).
    { exists event, name. repeat split; [now left | exact Hname]. }
    destruct (eligible (self w) (macro_trigger_name name) (clock E (clock_reads w)))
      eqn:Hel.
    + pose proof (summary_firing (macro_keys [event]) w w' (Some (macro_message name date))
                    _ _ _ _ _ _ Hown Hel Hstep) as Hsum.
      simpl andb. destruct (journal_fails E (journal_calls w)); simpl negb; cbv iota.
      * exact (summary_swallow _ _ _ _ None Hsum).
      * exact Hsum.
    + exact (summary_quiet _ _ _ _ _ Hstep).
  - rewrite Hrun. apply summary_ret.
Qed.

Lemma macro_keys_cons (event : macro_event) (rest : list macro_event) (k : string) :
  macro_keys [event] k \/ macro_keys rest k -> macro_keys (event :: rest) k.
Proof.
  intros [(ev & name & Hin & Hn & ->)|(ev & name & Hin & Hn & ->)]; exists ev, name.
  - destruct Hin as [<-|[]]. repeat split; [now left | exact Hn].
  - repeat split; [now right | exact Hn].
Qed.

Lemma macro_loop_summary (now : Z) (events : list macro_event) (w : World) :
  summary E (macro_keys events) w (macro_loop R E now events w).
Proof.
  revert w. induction events as [|event rest IH]; intros w; [apply summary_ret|].
  simpl macro_loop. apply summary_bind.
  - apply (summary_weaken (macro_keys [event])); [|apply macro_iteration_summary].
    intros k Hk. apply macro_keys_cons. now left.
  - intros [message|] _; [apply summary_ret|].
    apply (summary_weaken (macro_keys rest)); [|apply IH].
    intros k Hk. apply macro_keys_cons. now right.
Qed.

Lemma check_macro_triggers_summary (metrics : Metrics) (w : World) :
  summary E (macro_keys (get (macro_events metrics) [])) w
    (check_macro_triggers R E metrics w).
Proof.
  unfold check_macro_triggers. apply summary_bind.
  - rewrite datetime_now_run. apply (summary_quiet _ w _ _ 0).
    unfold_world. rewrite app_nil_r. repeat split; lia.
  - intros now _. apply macro_loop_summary.
Qed.

Lemma macro_loop_cons (now : Z) (event : macro_event) (rest : list macro_event) (w : World) :
  macro_loop R E now (event :: rest) w =
  match try_except (macro_try_body R E now event) (fun _ => ret None) w with
  | (w1, Returned (Some message)) => (w1, Returned (Some message))
  | (w1, Returned None) => macro_loop R E now rest w1
  | (w1, Raised e) => (w1, Raised e)
  end.
Proof.
  simpl macro_loop. unfold bind.
  now destruct (try_except _ _ w) as [w1 [[message|]|e]].
Qed.

(** The macro loop never raises, whatever the events and the environment. *)
Lemma macro_loop_returns (now : Z) (events : list macro_event) (w : World) :
  exists r, snd (macro_loop R E now events w) = Returned r.
Proof.
  revert w. induction events as [|event rest IH]; intros w; [now exists None|].
  simpl macro_loop. unfold bind.
  pose proof (macro_iteration_run now event w) as Hrun.
  destruct (macro_candidate R now event) as [[name date]|].
  - destruct Hrun as (w' & -> & _).
    destruct (_ && _); [now eexists | apply IH].
  - rewrite Hrun. apply IH.
Qed.

(** An event that is no candidate is a no-op of the loop. *)
Lemma macro_loop_skip (now : Z) (event : macro_event) (rest : list macro_event) (w : World) :
  macro_candidate R now event = None ->
  macro_loop R E now (event :: rest) w = macro_loop R E now rest w.
Proof.
  intros Hnone. simpl macro_loop. unfold bind at 1.
  pose proof (macro_iteration_run now event w) as Hrun.
  rewrite Hnone in Hrun. now rewrite Hrun.
Qed.

Lemma macro_candidate_unparsed (now : Z) (event : macro_event) :
  date_parses R event = false -> macro_candidate R now event = None.
Proof.
  unfold date_parses, macro_candidate, event_in_window.
  destruct (ev_date event) as [date|]; [|reflexivity].
  destruct (strptime_Ymd R date); [discriminate|reflexivity].
Qed.

Lemma macro_loop_filter_parsed (now : Z) (events : list macro_event) (w : World) :
  macro_loop R E now (List.filter (date_parses R) events) w = macro_loop R E now events w.
Proof.
  revert w. induction events as [|event rest IH]; intros w; [reflexivity|].
  simpl List.filter. destruct (date_parses R event) eqn:Hp.
  - simpl macro_loop. unfold bind.
    destruct (try_except _ _ w) as [w' [[m|]|e]]; try reflexivity. apply IH.
  - rewrite (macro_loop_skip now event rest w (macro_candidate_unparsed now event Hp)).
    apply IH.
Qed.

(** When the journal call of the firing does not fail, the loop returns the
    message of the first qualifying event and fires it alone. *)
Lemma macro_loop_first_qualifying (now : Z) (events : list macro_event) (w : World) :
  journal_fails E (journal_calls w) = false ->
  match first_qualifying R E (self w) now (clock_reads w) events with
  | Some (name, date, c) =>
      exists w',
        macro_loop R E now events w = (w', Returned (Some (macro_message name date)))
        /\ stepped w w'
             (recorded (macro_trigger_name name) (clock E (S c)) (self w))
             (firing (macro_trigger_name name) (clock E (S c)) (macro_message name date)
                     "CASH" (PyInt 0) (macro_reason name) "📅")
             (S (S c) - clock_reads w) 1
        /\ (clock_reads w <= c)%nat
  | None =>
      exists w' dc,
        macro_loop R E now events w = (w', Returned None)
        /\ stepped w w' (self w) [] dc 0
  end.
Proof.
  revert w. induction events as [|event rest IH]; intros w Hok.
  - exists w, 0%nat. split; [reflexivity | apply stepped_refl].
  - simpl first_qualifying. rewrite macro_loop_cons.
    pose proof (macro_iteration_run now event w) as Hrun.
    destruct (macro_candidate R now event) as [[name date]|].
    + destruct Hrun as (w1 & -> & Hstep). rewrite Hok. simpl negb. rewrite andb_true_r.
      destruct (eligible (self w) (macro_trigger_name name) (clock E (clock_reads w))).
      * exists w1. split; [reflexivity|]. split; [|lia].
        replace (S (S (clock_reads w)) - clock_reads w)%nat with 2%nat by lia.
        exact Hstep.
      * destruct Hstep as (Hs1 & Ht1 & Hc1 & Hj1).
        assert (Hok1 : journal_fails E (journal_calls w1) = false).
        { rewrite Hj1. now replace (journal_calls w + 0)%nat with (journal_calls w) by lia. }
        specialize (IH w1 Hok1). rewrite Hs1, Hc1 in IH.
        replace (clock_reads w + 1)%nat with (S (clock_reads w)) in IH by lia.
        destruct (first_qualifying R E (self w) now (S (clock_reads w)) rest)
          as [[[name' date'] c]|].
        -- destruct IH as (w' & Hrun' & (Hs & Ht & Hc & Hj) & Hle).
           exists w'. split; [exact Hrun'|]. split; [|lia].
           unfold stepped. rewrite Ht, Ht1, Hc, Hc1, Hj, Hj1, app_nil_r.
           repeat split; try lia. exact Hs.
        -- destruct IH as (w' & dc & Hrun' & (Hs & Ht & Hc & Hj)).
           exists w', (1 + dc)%nat. split; [exact Hrun'|].
           unfold stepped. rewrite Ht, Ht1, Hc, Hc1, Hj, Hj1, app_nil_r.
           repeat split; try lia. now rewrite Hs.
    + rewrite Hrun. apply IH, Hok.
Qed.

(** ** The whole cycle *)

Lemma check_all_triggers_phases (metrics : Metrics) (w : World) :
  check_all_triggers R E metrics w =
  match evaluators R E metrics w with
  | (w5, Returned (rotation, alt_season, funding, stablecoin, macro)) =>
      match allocation_update R E metrics w5 with
      | (w', Returned current_allocation) =>
          (w', Returned {| res_rotation := rotation; res_alt_season := alt_season;
                           res_funding := funding; res_stablecoin := stablecoin;
                           res_macro := macro; res_allocation := current_allocation |})
      | (w', Raised e) => (w', Raised e)
      end
  | (w5, Raised e) => (w5, Raised e)
  end.
Proof.
  unfold check_all_triggers, evaluators, allocation_update, bind.
  destruct (check_rotation_triggers R E metrics w) as [w1 [r1|e]]; [|reflexivity].
  destruct (check_alt_season_triggers R E metrics w1) as [w2 [r2|e]]; [|reflexivity].
  destruct (check_funding_triggers R E metrics w2) as [w3 [r3|e]]; [|reflexivity].
  destruct (check_stablecoin_triggers R E metrics w3) as [w4 [r4|e]]; [|reflexivity].
  destruct (check_macro_triggers R E metrics w4) as [w5 [r5|e]]; [|reflexivity].
  simpl.
  destruct (last_allocation (self w5)) as [last|]; [|reflexivity].
  destruct (allocation_ne last (calculate_allocation metrics)); [|reflexivity].
  destruct (send_telegram_message E _ w5) as [w6 [d|e]]; [|reflexivity].
  destruct (append_journal_entry E _ _ _ _ w6) as [w7 [[]|e]]; reflexivity.
Qed.

Lemma evaluators_summary (metrics : Metrics) (w : World) :
  summary E (all_keys metrics) w (evaluators R E metrics w).
Proof.
  unfold evaluators.
  apply summary_bind.
  { apply (summary_weaken rotation_keys); [|apply check_rotation_triggers_summary].
    unfold all_keys. tauto. }
  intros r1 _. apply summary_bind.
  { apply (summary_weaken alt_season_keys); [|apply check_alt_season_triggers_summary].
    unfold all_keys. tauto. }
  intros r2 _. apply summary_bind.
  { apply (summary_weaken funding_keys); [|apply check_funding_triggers_summary].
    unfold all_keys. tauto. }
  intros r3 _. apply summary_bind.
  { apply (summary_weaken stablecoin_keys); [|apply check_stablecoin_triggers_summary].
    unfold all_keys. tauto. }
  intros r4 _. apply summary_bind.
  { apply (summary_weaken (macro_keys (get (macro_events metrics) [])));
      [|apply check_macro_triggers_summary].
    unfold all_keys. tauto. }
  intros r5 _. apply summary_ret.
Qed.


Lemma bind_gets {A B} (f : World -> A) (k : A -> M B) (w : World) :
  bind (gets f) k w = k (f w) w.
Proof. reflexivity. Qed.

Lemma allocation_update_run (metrics : Metrics) (w : World) :
  let current := calculate_allocation metrics in
  match allocation_changed (self w) current with
  | Some last =>
      exists w',
        allocation_update R E metrics w =
        (w', if journal_fails E (journal_calls w) then Raised OSError else Returned current)
        /\ stepped w w'
             (if journal_fails E (journal_calls w) then self w else stored current (self w))
             (allocation_events R last current) 0 1
  | None =>
      exists w',
        allocation_update R E metrics w = (w', Returned current)
        /\ stepped w w' (stored current (self w)) [] 0 0
  end.
Proof.
  intros current. unfold allocation_changed, allocation_update.
  fold current. rewrite bind_gets.
  assert (Hquiet : exists w', (ret tt;; modify (set_self (stored current));; ret current) w
                              = (w', Returned current)
                              /\ stepped w w' (stored current (self w)) [] 0 0).
  { eexists. split; [reflexivity|]. unfold_world. rewrite app_nil_r. repeat split; lia. }
  destruct (last_allocation (self w)) as [last|]; [|exact Hquiet].
  destruct (allocation_ne last current); [|exact Hquiet].
  unfold bind at 1. unfold bind at 1.
  destruct (send_telegram_message_spec (allocation_message R current) w)
    as (w1 & d & -> & (Hs1 & Ht1 & Hc1 & Hj1)).
  destruct (append_journal_entry_spec "ALLOCATION"
              (PyFloat (Float.mul (Float.sub (fst (fst current)) (fst (fst last)))
                                  (Float.of_Z 100)))
              "Auto allocation update" "📊" w1) as (w2 & -> & (Hs2 & Ht2 & Hc2 & Hj2)).
  replace (journal_calls w1) with (journal_calls w) by lia.
  destruct (journal_fails E (journal_calls w)).
  - exists w2. split; [reflexivity|].
    unfold stepped, allocation_events. rewrite Hs2, Hs1, Ht2, Ht1, <- app_assoc.
    repeat split; lia.
  - eexists. split; [reflexivity|].
    unfold_world. unfold allocation_events. rewrite Hs2, Hs1, Ht2, Ht1, <- app_assoc.
    repeat split; lia.
Qed.

(** ** Cooldown tracker *)

Lemma float_sub_zero (x : float) : Float.sub x (Float.of_Z 0) = x.
Proof. destruct x as [[]|[]| |s m e]; reflexivity. Qed.

Lemma eligible_unrecorded (s : TriggerEngine) (trigger_name : string) (now : float) :
  last_trigger_time s !! trigger_name = None ->
  eligible s trigger_name now = Float.ge now (Float.of_Z (cooldown_hours s * 3600)).
Proof. unfold eligible. intros ->. simpl. now rewrite float_sub_zero. Qed.

Lemma eligible_recorded (s : TriggerEngine) (trigger_name : string) (now last : float) :
  last_trigger_time s !! trigger_name = Some last ->
  eligible s trigger_name now =
  Float.ge (Float.sub now last) (Float.of_Z (cooldown_hours s * 3600)).
Proof. unfold eligible. now intros ->. Qed.

(** C3, amended. With the 12-hour window of a constructed engine,
    [_should_trigger] answers whether the clock reading minus the last
    recorded instant of that name is at least 43200 seconds, and a name with
    no record is read as recorded at instant 0: it is eligible exactly when
    the clock reading itself is at least 43200. Hence, for every clock reading
    of at least 43200 seconds, the answer is true if and only if no fire is
    recorded for the name or the elapsed time is at least the window.
    [_should_trigger] leaves the engine as it is. [_record_trigger] always
    returns, overwrites the instant of that name with its clock reading and
    leaves every other name as it is. *)
Theorem should_trigger_cooldown (trigger_name : string) (w : World) :
  cooldown_hours (self w) = 12 ->
  let now := clock E (clock_reads w) in
  let answer := outcome_of (_should_trigger E trigger_name) w in
  let w' := world_after (_record_trigger E trigger_name) w in
  answer = Returned (match last_trigger_time (self w) !! trigger_name with
                     | Some last => Float.ge (Float.sub now last) window
                     | None => Float.ge now window
                     end)
  /\ (Float.ge now window = true ->
      (answer = Returned true <->
       last_trigger_time (self w) !! trigger_name = None
       \/ exists last, last_trigger_time (self w) !! trigger_name = Some last
                       /\ Float.ge (Float.sub now last) window = true))
  /\ self (world_after (_should_trigger E trigger_name) w) = self w
  /\ outcome_of (_record_trigger E trigger_name) w = Returned tt
  /\ last_trigger_time (self w') !! trigger_name = Some now
  /\ (forall other, other <> trigger_name ->
      last_trigger_time (self w') !! other = last_trigger_time (self w) !! other)
  /\ cooldown_hours (self w') = 12.
Proof.
  intros H12 now answer w'.
  assert (Hans : answer = Returned (match last_trigger_time (self w) !! trigger_name with
                     | Some last => Float.ge (Float.sub now last) window
                     | None => Float.ge now window
                     end)).
  { subst answer. unfold outcome_of. rewrite should_trigger_run. simpl.
    destruct (last_trigger_time (self w) !! trigger_name) as [last|] eqn:Hl.
    - rewrite (eligible_recorded _ _ _ _ Hl), H12. reflexivity.
    - rewrite (eligible_unrecorded _ _ _ Hl), H12. reflexivity. }
  split; [exact Hans|]. split.
  { intros Hnow. rewrite Hans.
    destruct (last_trigger_time (self w) !! trigger_name) as [last|] eqn:Hl.
    - split.
      + intros [= Hge]. right. exists last. auto.
      + intros [Hnone|(last' & [= <-] & Hge)]; [discriminate|]. now rewrite Hge.
    - split; [auto|]. intros _. now rewrite Hnow. }
  split; [reflexivity|]. split; [reflexivity|].
  subst w'. unfold world_after. rewrite record_trigger_run. simpl.
  split; [apply lookup_insert_eq|]. split; [|exact H12].
  intros other Hne. now apply lookup_insert_ne.
Qed.

(** ** Evaluators: order of effects, frames *)

Lemma evaluator_summary (c : category) (metrics : Metrics) (w : World) :
  summary E (keys_of c metrics) w (evaluator R E c metrics w).
Proof.
  destruct c; simpl.
  - apply check_rotation_triggers_summary.
  - apply check_alt_season_triggers_summary.
  - apply check_funding_triggers_summary.
  - apply check_stablecoin_triggers_summary.
  - apply check_macro_triggers_summary.
Qed.






(** ** Alt-season and funding evaluators *)

(** No float is both at least 75 and at most 25. *)
Lemma float_ge_75_not_le_25 (x : float) :
  Float.ge x (Float.of_Z 75) = true -> Float.le x (Float.of_Z 25) = false.
Proof.
  unfold Float.ge, Float.le, SFleb.
  change (Float.of_Z 75) with (S754_finite false 5277655813324800 (-46)).
  change (Float.of_Z 25) with (S754_finite false 7036874417766400 (-48)).
  destruct x as [s|[]| |[] m e]; unfold SFcompare; try congruence.
  destruct (Z.compare_spec (-46) e) as [He|He|He];
    destruct (Z.compare_spec e (-48)) as [He'|He'|He']; try lia; try discriminate;
    intros _; reflexivity.
Qed.

(** C8. One call of the alt-season evaluator adds to the history nothing, or
    the single firing of [alt_season_full], or the single firing of
    [alt_season_end]: never both, and at most one notification. The two
    conditions on the snapshot exclude each other as well. *)
Theorem alt_season_at_most_one (metrics : Metrics) (w : World) :
  let alt_index := get (alt_season_index metrics) (Float.of_Z 50) in
  let w' := world_after (check_alt_season_triggers R E metrics) w in
  exists h,
    trace w' = trace w ++ h
    /\ (h = []
        \/ (exists t, h = firing "alt_season_full" t (alt_season_full_message R alt_index)
                                 "ALTS" (PyInt 25) "Full alt-season" "🚀")
        \/ (exists t, h = firing "alt_season_end" t (alt_season_end_message R alt_index)
                                 "BTC" (PyInt 20) "Back to BTC dominance" "📉"))
    /\ ~ (In "alt_season_full" (recorded_names h) /\ In "alt_season_end" (recorded_names h))
    /\ (length (notifications h) <= 1)%nat
    /\ alt_season_full_condition metrics && alt_season_end_condition metrics = false.
Proof.
  intros alt_index w'. subst w'. unfold world_after.
  destruct (check_alt_season_triggers_run metrics w) as (w' & dc & -> & Hstep & _).
  destruct Hstep as (_ & Ht & _). simpl fst.
  eexists. split; [exact Ht|].
  assert (Hexcl : alt_season_full_condition metrics && alt_season_end_condition metrics
                  = false).
  { unfold alt_season_full_condition, alt_season_end_condition.
    destruct (Float.ge _ (Float.of_Z 75)) eqn:H75; [|reflexivity].
    now rewrite (float_ge_75_not_le_25 _ H75). }
  destruct (alt_season_full_condition metrics && eligible (self w) "alt_season_full" _).
  - split; [right; left; now eexists|]. split; [|split; [simpl; lia | exact Hexcl]].
    simpl. intros (_ & [H|[]]). discriminate H.
  - destruct (alt_season_end_condition metrics && eligible (self w) "alt_season_end" _).
    + split; [right; right; now eexists|]. split; [|split; [simpl; lia | exact Hexcl]].
      simpl. intros ([H|[]] & _). discriminate H.
    + split; [now left|]. split; [|split; [simpl; lia | exact Hexcl]].
      simpl. tauto.
Qed.



(** ** Reading and writing the cooldown map *)

Lemma poke_commute (k k' : string) (t t' : float) (s : TriggerEngine) :
  k <> k' -> recorded k' t' (recorded k t s) = recorded k t (recorded k' t' s).
Proof.
  intros Hne. unfold recorded. simpl. f_equal. now apply insert_insert_ne.
Qed.

Lemma unaffected_ret {A} (k : string) (a : A) : unaffected k (ret a).
Proof. intros t w. reflexivity. Qed.

Lemma unaffected_raise {A} (k : string) (e : exn) : unaffected k (@raise A e).
Proof. intros t w. reflexivity. Qed.

Lemma unaffected_bind {A B} (k : string) (m : M A) (f : A -> M B) :
  unaffected k m -> (forall a, unaffected k (f a)) -> unaffected k (bind m f).
Proof.
  intros Hm Hf t w. unfold bind. rewrite Hm.
  destruct (m w) as [w1 [a|e]]; simpl; [apply Hf | reflexivity].
Qed.

Lemma unaffected_try_except {A} (k : string) (body : M A) (handler : exn -> M A) :
  unaffected k body -> (forall e, unaffected k (handler e)) ->
  unaffected k (try_except body handler).
Proof.
  intros Hm Hh t w. unfold try_except. rewrite Hm.
  destruct (body w) as [w1 [a|e]]; simpl; [reflexivity | apply Hh].
Qed.

Lemma unaffected_and_then (k : string) (a : bool) (b : M bool) :
  unaffected k b -> unaffected k (and_then a b).
Proof. intros Hb. destruct a; [exact Hb | apply unaffected_ret]. Qed.

Lemma unaffected_subscript {A} (k key : string) (field : option A) :
  unaffected k (subscript key field).
Proof. destruct field; [apply unaffected_ret | apply unaffected_raise]. Qed.

Lemma unaffected_should_trigger (k k' : string) :
  k <> k' -> unaffected k (_should_trigger E k').
Proof.
  intros Hne t w. rewrite !should_trigger_run. simpl.
  change (self (poke k t w)) with (recorded k t (self w)).
  now rewrite eligible_recorded_other.
Qed.

Lemma unaffected_record_trigger (k k' : string) :
  k <> k' -> unaffected k (_record_trigger E k').
Proof.
  intros Hne t w. rewrite !record_trigger_run. simpl.
  unfold poke, set_trace, set_self, set_clock_reads. simpl.
  now rewrite (poke_commute k k' t _ (self w) Hne).
Qed.

Lemma unaffected_send_telegram_message (k text : string) :
  unaffected k (send_telegram_message E text).
Proof.
  intros t w.
  unfold send_telegram_message, bind, log, modify, print, try_except, gets, ret, raise.
  simpl. destruct (negb (truthy (TG_TOKEN E)) || negb (truthy (TG_CHAT E))); [reflexivity|].
  simpl. now destruct (requests_post E (posts w)).
Qed.

Lemma unaffected_append_journal_entry (k asset : string) (change_pct : pynum)
    (reason emotion : string) :
  unaffected k (append_journal_entry E asset change_pct reason emotion).
Proof.
  intros t w.
  unfold append_journal_entry, ensure_journal_exists, datetime_now, bind, log, modify,
    gets, ret, raise.
  simpl. destruct (journal_fails E (journal_calls w)); [reflexivity|].
  unfold_world. now destruct (journal_file w).
Qed.

Lemma unaffected_datetime_now (k : string) : unaffected k (datetime_now E).
Proof. intros t w. reflexivity. Qed.

Lemma bind_raise_l {A B} (e : exn) (k : A -> M B) : bind (raise e) k = raise e.
Proof. reflexivity. Qed.

Ltac unaffected_steps :=
  repeat first
    [ progress (rewrite ?bind_ret_l, ?bind_raise_l; cbv beta)
    | apply unaffected_ret
    | apply unaffected_raise
    | apply unaffected_subscript
    | apply unaffected_send_telegram_message
    | apply unaffected_append_journal_entry
    | apply unaffected_datetime_now
    | apply unaffected_should_trigger; congruence
    | apply unaffected_record_trigger; congruence
    | apply unaffected_and_then
    | apply unaffected_try_except; [|intros ?]
    | apply unaffected_bind; [|intros ?]
    | match goal with
      | |- unaffected _ (if ?c then _ else _) => destruct c
      | |- unaffected _ (match ?o with Some _ => _ | None => _ end) => destruct o
      end ].

Lemma unaffected_rotation (k : string) (metrics : Metrics) :
  ~ rotation_keys k -> unaffected k (check_rotation_triggers R E metrics).
Proof. unfold rotation_keys, check_rotation_triggers. intros Hk. unaffected_steps. Qed.

Lemma unaffected_alt_season (k : string) (metrics : Metrics) :
  ~ alt_season_keys k -> unaffected k (check_alt_season_triggers R E metrics).
Proof.
  unfold alt_season_keys, check_alt_season_triggers. intros Hk.
  assert (k <> "alt_season_full") by tauto. assert (k <> "alt_season_end") by tauto.
  unaffected_steps.
Qed.

Lemma unaffected_funding (k : string) (metrics : Metrics) :
  ~ funding_keys k -> unaffected k (check_funding_triggers R E metrics).
Proof.
  unfold funding_keys, check_funding_triggers. intros Hk.
  assert (k <> "funding_btc") by tauto. assert (k <> "funding_hype") by tauto.
  unaffected_steps.
Qed.

Lemma unaffected_stablecoin (k : string) (metrics : Metrics) :
  ~ stablecoin_keys k -> unaffected k (check_stablecoin_triggers R E metrics).
Proof. unfold stablecoin_keys, check_stablecoin_triggers. intros Hk. unaffected_steps. Qed.

Lemma unaffected_macro_try_body (k : string) (now : Z) (event : macro_event) :
  ~ macro_keys [event] k -> unaffected k (macro_try_body R E now event).
Proof.
  intros Hk. unfold macro_try_body.
  assert (Hname : forall name, ev_event event = Some name -> k <> macro_trigger_name name).
  { intros name Hn ->. apply Hk. exists event, name. repeat split; [now left|exact Hn]. }
  destruct (ev_event event) as [name|]; [specialize (Hname name eq_refl)|];
    simpl subscript; unaffected_steps.
Qed.

Lemma unaffected_macro_loop (k : string) (now : Z) (events : list macro_event) :
  ~ macro_keys events k -> unaffected k (macro_loop R E now events).
Proof.
  induction events as [|event rest IH]; intros Hk; [apply unaffected_ret|].
  simpl macro_loop. apply unaffected_bind.
  - apply unaffected_try_except; [|intros e; apply unaffected_ret].
    apply unaffected_macro_try_body. intros H. apply Hk, macro_keys_cons. now left.
  - intros [message|]; [apply unaffected_ret|].
    apply IH. intros H. apply Hk, macro_keys_cons. now right.
Qed.

Lemma unaffected_macro (k : string) (metrics : Metrics) :
  ~ macro_keys (get (macro_events metrics) []) k ->
  unaffected k (check_macro_triggers R E metrics).
Proof.
  intros Hk. unfold check_macro_triggers. apply unaffected_bind.
  - apply unaffected_datetime_now.
  - intros now. now apply unaffected_macro_loop.
Qed.

Lemma unaffected_evaluator (c : category) (k : string) (metrics : Metrics) :
  ~ keys_of c metrics k -> unaffected k (evaluator R E c metrics).
Proof.
  destruct c; simpl; intros Hk.
  - now apply unaffected_rotation.
  - now apply unaffected_alt_season.
  - now apply unaffected_funding.
  - now apply unaffected_stablecoin.
  - now apply unaffected_macro.
Qed.

(** The cooldown names of two different categories never coincide: the five
    fixed names differ from each other, and none starts with ["macro_"]. *)
Lemma keys_disjoint (c c' : category) (metrics : Metrics) (k : string) :
  c <> c' -> keys_of c metrics k -> keys_of c' metrics k -> False.
Proof.
  intros Hne Hk Hk'.
  assert (Hmacro : forall events, macro_keys events k ->
            ~ (rotation_keys k \/ alt_season_keys k \/ funding_keys k \/ stablecoin_keys k)).
  { intros events (ev & name & _ & _ & ->).
    unfold rotation_keys, alt_season_keys, funding_keys, stablecoin_keys,
      macro_trigger_name. simpl.
    intros [H|[[H|H]|[[H|H]|H]]]; discriminate H. }
  destruct c, c'; try (now destruct Hne); simpl in Hk, Hk';
    try (apply (Hmacro _ Hk'); tauto); try (apply (Hmacro _ Hk); tauto);
    unfold rotation_keys, alt_season_keys, funding_keys, stablecoin_keys in *;
    repeat match goal with H : _ \/ _ |- _ => destruct H end; subst; discriminate.
Qed.

(** C9. Take two different categories [c] and [c'] and a cooldown name [k] of
    [c']. Running the evaluator of [c] writes only names of [c], changes the
    recorded instant of no name that did not fire, and so leaves the instant
    and the eligibility of [k] as they were, at every clock reading; the
    window constant is unchanged. The evaluator of [c] does not read [k]
    either: with any other instant recorded for [k] it has the same outcome
    and the same effects. *)
Theorem cooldown_frame (c c' : category) (metrics : Metrics) (k : string) (w : World) :
  c <> c' -> keys_of c' metrics k ->
  let w' := world_after (evaluator R E c metrics) w in
  exists h,
    trace w' = trace w ++ h
    /\ (forall k0, In k0 (recorded_names h) -> keys_of c metrics k0)
    /\ (forall k0, ~ In k0 (recorded_names h) ->
        last_trigger_time (self w') !! k0 = last_trigger_time (self w) !! k0)
    /\ last_trigger_time (self w') !! k = last_trigger_time (self w) !! k
    /\ (forall now, eligible (self w') k now = eligible (self w) k now)
    /\ cooldown_hours (self w') = cooldown_hours (self w)
    /\ (forall t, evaluator R E c metrics (poke k t w)
                  = (poke k t w', outcome_of (evaluator R E c metrics) w)).
Proof.
  intros Hne Hk w'. subst w'. unfold world_after, outcome_of.
  destruct (evaluator_summary c metrics w) as (h & Ht & Hb & Hs & Hc & Hj & Hchk & Hr).
  assert (Hown : forall k0, In k0 (recorded_names h) -> keys_of c metrics k0).
  { intros k0 Hin. apply recorded_names_In in Hin as (t & Hin).
    apply in_split in Hin as (pre & post & ->).
    now destruct (Hchk pre k0 t post eq_refl). }
  assert (Hframe : forall k0, ~ In k0 (recorded_names h) ->
            last_trigger_time (self (fst (evaluator R E c metrics w))) !! k0
            = last_trigger_time (self w) !! k0).
  { intros k0 Hnot. rewrite Hs. simpl. now apply replay_not_recorded. }
  assert (Hnot : ~ In k (recorded_names h)).
  { intros Hin. exact (keys_disjoint c c' metrics k Hne (Hown k Hin) Hk). }
  exists h. split; [exact Ht|]. split; [exact Hown|]. split; [exact Hframe|].
  split; [now apply Hframe|]. split; [|split].
  - intros now. unfold eligible. rewrite (Hframe k Hnot), Hs. reflexivity.
  - now rewrite Hs.
  - intros t. apply unaffected_evaluator.
    intros Hkc. exact (keys_disjoint c c' metrics k Hne Hkc Hk).
Qed.


(** ** The allocation update *)


Lemma calculate_allocation_is_phase (metrics : Metrics) :
  is_phase (calculate_allocation metrics).
Proof.
  unfold is_phase, calculate_allocation.
  destruct (_ && _); [tauto|]. destruct (_ && _); tauto.
Qed.



(** A whole cycle that returns, whatever the journal did inside the macro
    evaluator. *)
Lemma cycle_returned (metrics : Metrics) (w w' : World) (res : Results) :
  check_all_triggers R E metrics w = (w', Returned res) ->
  let current := calculate_allocation metrics in
  exists w5 r1 r2 r3 r4 r5 h,
    evaluators R E metrics w = (w5, Returned (r1, r2, r3, r4, r5))
    /\ res = {| res_rotation := r1; res_alt_season := r2; res_funding := r3;
                res_stablecoin := r4; res_macro := r5; res_allocation := current |}
    /\ trace w5 = trace w ++ h
    /\ firing_blocks h = true
    /\ checked_records E (all_keys metrics) (self w) (clock_reads w) (clock_reads w5) h
    /\ self w' = stored current (replayed h (self w))
    /\ trace w' = trace w5 ++ match allocation_changed (self w) current with
                              | Some last => allocation_events R last current
                              | None => []
                              end
    /\ clock_reads w' = clock_reads w5
    /\ (clock_reads w <= clock_reads w5)%nat.
Proof.
  intros Hrun current. rewrite check_all_triggers_phases in Hrun.
  pose proof (evaluators_summary metrics w) as Hsum.
  destruct (evaluators R E metrics w) as [w5 [[[[[r1 r2] r3] r4] r5]|e]];
    [|discriminate Hrun].
  destruct Hsum as (h & Ht & Hb & Hs & Hc & Hj & Hk & _). simpl in Ht, Hs, Hc, Hj, Hk.
  assert (Hch : allocation_changed (self w5) current = allocation_changed (self w) current).
  { unfold allocation_changed. now rewrite Hs. }
  pose proof (allocation_update_run metrics w5) as Hupd.
  cbv zeta in Hupd. fold current in Hupd. rewrite Hch in Hupd.
  exists w5, r1, r2, r3, r4, r5, h.
  destruct (allocation_changed (self w) current) as [last|].
  - destruct Hupd as (w'' & Hrun' & (Hs' & Ht' & Hc' & Hj')). rewrite Hrun' in Hrun.
    destruct (journal_fails E (journal_calls w5)); [discriminate Hrun|].
    injection Hrun as <- <-.
    repeat (split; [first [assumption | reflexivity | lia | now rewrite Hs', Hs]|]). lia.
  - destruct Hupd as (w'' & Hrun' & (Hs' & Ht' & Hc' & Hj')). rewrite Hrun' in Hrun.
    injection Hrun as <- <-.
    repeat (split; [first [assumption | reflexivity | lia | now rewrite Hs', Hs]|]). lia.
Qed.


(** ** Failing sinks *)

Lemma check_macro_triggers_returns (metrics : Metrics) (w : World) :
  exists r, outcome_of (check_macro_triggers R E metrics) w = Returned r.
Proof.
  unfold outcome_of, check_macro_triggers, bind. rewrite datetime_now_run.
  apply macro_loop_returns.
Qed.


(** ** The macro evaluator: first qualifying event *)

(** The evaluator is the loop, run after one reading of the wall clock. *)
Lemma check_macro_triggers_loop (metrics : Metrics) (w : World) :
  check_macro_triggers R E metrics w =
  macro_loop R E (wall_clock E (now_reads w)) (get (macro_events metrics) [])
             (set_now_reads (S (now_reads w)) w).
Proof. reflexivity. Qed.

(** C6, amended. The macro evaluator never raises. An event whose date is
    absent or fails to parse is skipped without any effect: the evaluator
    behaves on the snapshot as on the snapshot without these events. Every
    cooldown name it records is ["macro_"] followed by the name of an event of
    the snapshot. When the journal call of the firing does not fail, it
    returns the alert of the first qualifying event in iteration order (date
    within 12 hours of now, name eligible at its check) and makes this single
    firing, or returns absent and fires nothing when no event qualifies. *)
Theorem macro_first_qualifying_event (metrics : Metrics) (w : World) :
  let events := get (macro_events metrics) [] in
  let now := wall_clock E (now_reads w) in
  let w' := world_after (check_macro_triggers R E metrics) w in
  (exists r, outcome_of (check_macro_triggers R E metrics) w = Returned r)
  /\ check_macro_triggers R E (with_macro_events (List.filter (date_parses R) events) metrics) w
     = check_macro_triggers R E metrics w
  /\ (exists h, trace w' = trace w ++ h
         /\ forall k, In k (recorded_names h) ->
              exists event name, In event events /\ ev_event event = Some name
                                 /\ k = "macro_" +:+ name)
  /\ (journal_fails E (journal_calls w) = false ->
      match first_qualifying R E (self w) now (clock_reads w) events with
      | Some (name, date, c) =>
          outcome_of (check_macro_triggers R E metrics) w
            = Returned (Some (macro_message name date))
          /\ trace w' = trace w ++ firing ("macro_" +:+ name) (clock E (S c))
                                     (macro_message name date) "CASH" (PyInt 0)
                                     (macro_reason name) "📅"
          /\ last_trigger_time (self w') !! ("macro_" +:+ name) = Some (clock E (S c))
      | None =>
          outcome_of (check_macro_triggers R E metrics) w = Returned None
          /\ trace w' = trace w
          /\ self w' = self w
      end).
Proof.
  intros events now w'. split; [apply check_macro_triggers_returns|].
  split; [|split].
  - rewrite !check_macro_triggers_loop. simpl. apply macro_loop_filter_parsed.
  - subst w'. unfold world_after.
    destruct (check_macro_triggers_summary metrics w) as (h & Ht & _ & _ & _ & _ & Hk & _).
    exists h. split; [exact Ht|]. intros k Hin.
    apply recorded_names_In in Hin as (t & Hin).
    apply in_split in Hin as (pre & post & ->).
    now destruct (Hk pre k t post eq_refl).
  - intros Hok. subst w'. unfold world_after, outcome_of.
    rewrite check_macro_triggers_loop.
    pose proof (macro_loop_first_qualifying now events (set_now_reads (S (now_reads w)) w) Hok)
      as Hloop.
    change (self (set_now_reads (S (now_reads w)) w)) with (self w) in Hloop.
    change (clock_reads (set_now_reads (S (now_reads w)) w)) with (clock_reads w) in Hloop.
    fold events now.
    destruct (first_qualifying R E (self w) now (clock_reads w) events)
      as [[[name date] c]|].
    + destruct Hloop as (w1 & -> & (Hs & Ht & _) & _). simpl.
      split; [reflexivity|]. split; [exact Ht|].
      rewrite Hs. simpl. apply lookup_insert_eq.
    + destruct Hloop as (w1 & dc & -> & (Hs & Ht & _)). simpl.
      split; [reflexivity|]. split; [now rewrite Ht, app_nil_r | exact Hs].
Qed.


(** ** Two cycles *)

Lemma first_record (h : list event) (k : string) :
  In k (recorded_names h) ->
  exists pre t post, h = pre ++ EvRecord k t :: post /\ ~ In k (recorded_names pre).
Proof.
  induction h as [|e h IH]; [intros []|].
  destruct e as [k' t'| |]; simpl.
  - destruct (string_dec k' k) as [->|Hne].
    + intros _. exists [], t', h. split; [reflexivity | intros []].
    + intros [Heq|Hin]; [contradiction|].
      destruct (IH Hin) as (pre & t & post & -> & Hpre).
      exists (EvRecord k' t' :: pre), t, post. split; [reflexivity|].
      simpl. intros [Heq|Hin']; [contradiction | now apply Hpre].
  - intros Hin. destruct (IH Hin) as (pre & t & post & -> & Hpre).
    now exists (EvTelegram text :: pre), t, post.
  - intros Hin. destruct (IH Hin) as (pre & t & post & -> & Hpre).
    now exists (EvJournal asset change_pct reason emotion :: pre), t, post.
Qed.

Lemma last_record (h : list event) (k : string) :
  In k (recorded_names h) ->
  exists pre t post, h = pre ++ EvRecord k t :: post /\ ~ In k (recorded_names post).
Proof.
  induction h as [|e h IH]; [intros []|].
  destruct (in_dec string_dec k (recorded_names h)) as [Hlater|Hnot].
  - intros _. destruct (IH Hlater) as (pre & t & post & -> & Hpost).
    now exists (e :: pre), t, post.
  - destruct e as [k' t'| |]; simpl; try contradiction.
    intros [->|Hin]; [|contradiction].
    now exists [], t', h.
Qed.

Lemma replay_last (pre post : list event) (k : string) (t : float) (m : gmap string float) :
  ~ In k (recorded_names post) ->
  replay (pre ++ EvRecord k t :: post) m !! k = Some t.
Proof.
  intros Hpost. rewrite replay_app. simpl.
  rewrite (replay_not_recorded _ _ _ Hpost). apply lookup_insert_eq.
Qed.

Lemma fired_app (c : category) (metrics : Metrics) (pre h post : list event) :
  fired c metrics h -> fired c metrics (pre ++ h ++ post).
Proof.
  assert (Hin : forall k, In k (recorded_names h) ->
                          In k (recorded_names (pre ++ h ++ post))).
  { intros k Hk. rewrite !recorded_names_app. apply in_or_app. right.
    apply in_or_app. now left. }
  destruct c; simpl.
  - apply Hin.
  - intros [(Hc & Hk)|(Hc & Hk)]; [left | right]; split; auto.
  - intros [(Hc & Hk)|(Hc & Hk)]; [left | right]; split; auto.
  - apply Hin.
  - intros (k & Hown & Hk). exists k. split; auto.
Qed.

(** A macro loop that returns an alert has fired. *)
Lemma macro_loop_fired (now : Z) (events : list macro_event) (w w' : World) (r : string)
    (h : list event) :
  macro_loop R E now events w = (w', Returned (Some r)) ->
  trace w' = trace w ++ h ->
  recorded_names h <> [].
Proof.
  revert w h. induction events as [|event rest IH]; intros w h Hrun Ht; [discriminate Hrun|].
  rewrite macro_loop_cons in Hrun.
  pose proof (macro_iteration_run now event w) as Hit.
  destruct (macro_candidate R now event) as [[name date]|].
  - destruct Hit as (w1 & Hit & (_ & Ht1 & _)). rewrite Hit in Hrun.
    destruct (eligible (self w) (macro_trigger_name name) (clock E (clock_reads w))).
    + destruct (negb (journal_fails E (journal_calls w))); simpl andb in Hrun; cbv iota in Hrun.
      * injection Hrun as <- _. rewrite Ht1 in Ht. apply app_inv_head in Ht. now subst h.
      * pose proof (macro_loop_summary now rest w1) as (h2 & Ht2 & _).
        rewrite Hrun in Ht2. simpl in Ht2. rewrite Ht2, Ht1, <- app_assoc in Ht.
        apply app_inv_head in Ht. now subst h.
    + simpl andb in Hrun. cbv iota in Hrun. rewrite app_nil_r in Ht1.
      apply (IH w1 h Hrun). now rewrite Ht1.
  - rewrite Hit in Hrun. now apply (IH w h).
Qed.

(** An evaluator that returns an alert has recorded one of its names. *)
Lemma evaluator_fired (c : category) (metrics : Metrics) (w w' : World)
    (r : option string) :
  evaluator R E c metrics w = (w', Returned r) ->
  exists h, trace w' = trace w ++ h /\ (r <> None -> fired c metrics h).
Proof.
  destruct c; simpl; intros Hrun.
  - destruct (check_rotation_triggers_run metrics w) as (w1 & Hrun1 & (_ & Ht & _)).
    rewrite Hrun in Hrun1. injection Hrun1 as -> Hout.
    eexists. split; [exact Ht|]. intros Hr.
    destruct (rotation_condition metrics && eligible (self w) "rotation" _).
    + simpl. now left.
    + now injection Hout as ->.
  - destruct (check_alt_season_triggers_run metrics w) as (w1 & dc & Hrun1 & (_ & Ht & _) & _).
    rewrite Hrun in Hrun1. injection Hrun1 as -> Hout.
    eexists. split; [exact Ht|]. intros Hr.
    destruct (alt_season_full_condition metrics && eligible (self w) "alt_season_full" _)
      eqn:Hfull.
    + apply andb_true_iff in Hfull as (Hc & _). left. split; [exact Hc | simpl; now left].
    + destruct (alt_season_end_condition metrics && eligible (self w) "alt_season_end" _)
        eqn:Hend.
      * apply andb_true_iff in Hend as (Hc & _). right. split; [exact Hc | simpl; now left].
      * now injection Hout as ->.
  - destruct (check_funding_triggers_run metrics w) as (w1 & (_ & Ht1 & _) & Hrun1).
    destruct (funding_btc_condition metrics && eligible (self w) "funding_btc" _) eqn:Hbtc.
    + apply andb_true_iff in Hbtc as (Hc & _).
      destruct (journal_fails E (journal_calls w)); simpl andb in Hrun1; cbv iota in Hrun1;
        [rewrite Hrun in Hrun1; discriminate Hrun1|].
      destruct Hrun1 as (w2 & (_ & Ht2 & _) & Hrun2).
      rewrite Hrun in Hrun2. injection Hrun2 as -> _.
      eexists. split; [rewrite Ht2, Ht1, <- app_assoc; reflexivity|].
      intros _. left. split; [exact Hc|]. simpl. now left.
    + simpl andb in Hrun1. cbv iota in Hrun1.
      destruct Hrun1 as (w2 & (_ & Ht2 & _) & Hrun2).
      rewrite Hrun in Hrun2. injection Hrun2 as -> Hout.
      eexists. split; [rewrite Ht2, Ht1, <- app_assoc; reflexivity|].
      intros Hr.
      destruct (funding_hype_condition metrics && eligible (self w) "funding_hype" _)
        eqn:Hhype.
      * apply andb_true_iff in Hhype as (Hc & _). right. split; [exact Hc|].
        simpl. now left.
      * simpl andb in Hout. cbv iota in Hout. now injection Hout as ->.
  - destruct (check_stablecoin_triggers_run metrics w) as (w1 & Hrun1 & (_ & Ht & _)).
    rewrite Hrun in Hrun1. injection Hrun1 as -> Hout.
    eexists. split; [exact Ht|]. intros Hr.
    destruct (stablecoin_condition metrics && eligible (self w) "stablecoin_issuance" _).
    + simpl. now left.
    + now injection Hout as ->.
  - pose proof (check_macro_triggers_summary metrics w) as (h & Ht & _ & _ & _ & _ & Hk & _).
    rewrite Hrun in Ht, Hk. simpl in Ht, Hk.
    exists h. split; [exact Ht|]. intros Hr.
    destruct r as [r|]; [|now destruct Hr].
    rewrite check_macro_triggers_loop in Hrun.
    assert (Hne : recorded_names h <> []).
    { apply (macro_loop_fired _ _ _ _ _ _ Hrun). simpl. exact Ht. }
    destruct (recorded_names h) as [|k names] eqn:Hnames; [now destruct Hne|].
    exists k. split; [|now left].
    assert (Hin : In k (recorded_names h)) by (rewrite Hnames; now left).
    apply recorded_names_In in Hin as (t & Hin).
    apply in_split in Hin as (pre & post & ->).
    now destruct (Hk pre k t post eq_refl).
Qed.

(** The alerts that the five evaluators return, read off the history. *)
Lemma evaluators_fired (metrics : Metrics) (w w5 : World)
    (r1 r2 r3 r4 r5 : option string) (h : list event) :
  evaluators R E metrics w = (w5, Returned (r1, r2, r3, r4, r5)) ->
  trace w5 = trace w ++ h ->
  (r1 <> None -> fired Rotation metrics h)
  /\ (r2 <> None -> fired AltSeason metrics h)
  /\ (r3 <> None -> fired Funding metrics h)
  /\ (r4 <> None -> fired Stablecoin metrics h)
  /\ (r5 <> None -> fired Macro metrics h).
Proof.
  unfold evaluators, bind. intros Hrun Ht.
  destruct (check_rotation_triggers R E metrics w) as [w1 [a1|e]] eqn:H1;
    [|discriminate Hrun].
  destruct (check_alt_season_triggers R E metrics w1) as [w2 [a2|e]] eqn:H2;
    [|discriminate Hrun].
  destruct (check_funding_triggers R E metrics w2) as [w3 [a3|e]] eqn:H3;
    [|discriminate Hrun].
  destruct (check_stablecoin_triggers R E metrics w3) as [w4 [a4|e]] eqn:H4;
    [|discriminate Hrun].
  destruct (check_macro_triggers R E metrics w4) as [w5' [a5|e]] eqn:H5;
    [|discriminate Hrun].
  injection Hrun as -> -> -> -> -> ->.
  destruct (evaluator_fired Rotation metrics w w1 r1 H1) as (h1 & Ht1 & Hf1).
  destruct (evaluator_fired AltSeason metrics w1 w2 r2 H2) as (h2 & Ht2 & Hf2).
  destruct (evaluator_fired Funding metrics w2 w3 r3 H3) as (h3 & Ht3 & Hf3).
  destruct (evaluator_fired Stablecoin metrics w3 w4 r4 H4) as (h4 & Ht4 & Hf4).
  destruct (evaluator_fired Macro metrics w4 w5 r5 H5) as (h5 & Ht5 & Hf5).
  assert (Hh : h = h1 ++ h2 ++ h3 ++ h4 ++ h5).
  { rewrite Ht5, Ht4, Ht3, Ht2, Ht1, <- !app_assoc in Ht. now apply app_inv_head in Ht. }
  subst h. repeat split; intros Hr.
  - apply (fired_app Rotation metrics [] h1 _), Hf1, Hr.
  - apply (fired_app AltSeason metrics h1 h2 _), Hf2, Hr.
  - replace (h1 ++ h2 ++ h3 ++ h4 ++ h5) with ((h1 ++ h2) ++ h3 ++ h4 ++ h5)
      by now rewrite <- app_assoc.
    apply (fired_app Funding metrics (h1 ++ h2) h3 _), Hf3, Hr.
  - replace (h1 ++ h2 ++ h3 ++ h4 ++ h5) with ((h1 ++ h2 ++ h3) ++ h4 ++ h5)
      by now rewrite <- !app_assoc.
    apply (fired_app Stablecoin metrics (h1 ++ h2 ++ h3) h4 _), Hf4, Hr.
  - replace (h1 ++ h2 ++ h3 ++ h4 ++ h5) with ((h1 ++ h2 ++ h3 ++ h4) ++ h5 ++ [])
      by now rewrite app_nil_r, <- !app_assoc.
    apply (fired_app Macro metrics (h1 ++ h2 ++ h3 ++ h4) h5 []), Hf5, Hr.
Qed.


Lemma allocation_changed_same (s : TriggerEngine) (current : Allocation) :
  is_phase current -> allocation_changed (stored current s) current = None.
Proof.
  intros Hp. unfold allocation_changed, stored. simpl.
  now destruct Hp as [-> | [-> | ->]].
Qed.

(** A name recorded during a cycle is cooled for the readings of the next
    cycle that lie within the window of the readings of this one: it is not
    recorded again. *)
Lemma no_second_firing (own1 own2 : string -> Prop) (s0 s1 : TriggerEngine)
    (c0 c1 c2 : nat) (h1 h2 : list event) (k : string) :
  cooldown_hours s0 = 12 ->
  checked_records E own1 s0 c0 c1 h1 ->
  last_trigger_time s1 = replay h1 (last_trigger_time s0) ->
  cooldown_hours s1 = 12 ->
  checked_records E own2 s1 c1 c2 h2 ->
  (forall i j, (c0 <= i < c1)%nat -> (c1 <= j < c2)%nat ->
               Float.ge (Float.sub (clock E j) (clock E i)) window = false) ->
  In k (recorded_names h1) -> ~ In k (recorded_names h2).
Proof.
  intros H12 Hk1 Hs1 H12' Hk2 Hbefore Hin1 Hin2.
  destruct (last_record h1 k Hin1) as (pre1 & t1 & post1 & Hh1 & Hpost1).
  destruct (Hk1 pre1 k t1 post1 Hh1) as (_ & j1 & i1 & Hj1 & Hji1 & Hi1 & Ht1 & _).
  destruct (first_record h2 k Hin2) as (pre2 & t2 & post2 & Hh2 & Hpre2).
  destruct (Hk2 pre2 k t2 post2 Hh2) as (_ & j2 & i2 & Hj2 & Hji2 & Hi2 & _ & Hel).
  unfold eligible, replayed in Hel. simpl in Hel.
  rewrite (replay_not_recorded _ _ _ Hpre2), Hs1, Hh1, (replay_last _ _ _ _ _ Hpost1),
    H12' in Hel.
  simpl default in Hel. subst t1.
  change (Float.of_Z (12 * 3600)) with window in Hel.
  rewrite Hbefore in Hel by lia. discriminate Hel.
Qed.

(** C4, amended. Take two consecutive cycles on the same snapshot that both
    return, the second made while every clock reading is less than 12 hours
    after every reading of the first. No cooldown name recorded in the first
    cycle is recorded again in the second. If the rotation, alt-season or
    stablecoin category fired in the first cycle, its result in the second is
    absent. The funding result of the second cycle is absent when every
    funding condition that holds on the snapshot fired in the first cycle,
    and the macro result is absent when every named event of the snapshot has
    the name of an event that fired in the first cycle. The second cycle
    returns the same allocation under the allocation key, and its history
    holds firings only: no allocation update. Any recorded name is eligible
    again at every clock reading at least 12 hours after its instant. *)
Theorem cooldown_suppresses_refire (metrics : Metrics) (w0 : World) (res1 res2 : Results) :
  let run1 := check_all_triggers R E metrics w0 in
  let w1 := fst run1 in
  let run2 := check_all_triggers R E metrics w1 in
  let w2 := fst run2 in
  cooldown_hours (self w0) = 12 ->
  snd run1 = Returned res1 ->
  snd run2 = Returned res2 ->
  (forall i j, (clock_reads w0 <= i < clock_reads w1)%nat ->
               (clock_reads w1 <= j < clock_reads w2)%nat ->
               Float.ge (Float.sub (clock E j) (clock E i)) window = false) ->
  exists h1 h2,
    trace w1 = trace w0 ++ h1
               ++ match allocation_changed (self w0) (calculate_allocation metrics) with
                  | Some last => allocation_events R last (calculate_allocation metrics)
                  | None => []
                  end
    /\ firing_blocks h1 = true
    /\ trace w2 = trace w1 ++ h2
    /\ firing_blocks h2 = true
    /\ (forall k, In k (recorded_names h1) -> ~ In k (recorded_names h2))
    /\ (res_rotation res1 <> None -> res_rotation res2 = None)
    /\ (res_alt_season res1 <> None -> res_alt_season res2 = None)
    /\ (res_stablecoin res1 <> None -> res_stablecoin res2 = None)
    /\ ((funding_btc_condition metrics = true -> In "funding_btc" (recorded_names h1)) ->
        (funding_hype_condition metrics = true -> In "funding_hype" (recorded_names h1)) ->
        res_funding res2 = None)
    /\ ((forall event name, In event (get (macro_events metrics) []) ->
           ev_event event = Some name -> In ("macro_" +:+ name) (recorded_names h1)) ->
        res_macro res2 = None)
    /\ res_allocation res1 = calculate_allocation metrics
    /\ res_allocation res2 = res_allocation res1
    /\ last_allocation (self w2) = Some (calculate_allocation metrics)
    /\ (forall k t now, last_trigger_time (self w2) !! k = Some t ->
          Float.ge (Float.sub now t) window = true -> eligible (self w2) k now = true).
Proof.
  intros run1 w1 run2 w2 H12 Hret1 Hret2 Hbefore.
  set (current := calculate_allocation metrics) in *.
  assert (Hrun1 : check_all_triggers R E metrics w0 = (w1, Returned res1)).
  { subst w1. rewrite <- Hret1. apply surjective_pairing. }
  assert (Hrun2 : check_all_triggers R E metrics w1 = (w2, Returned res2)).
  { subst w2. rewrite <- Hret2. apply surjective_pairing. }
  destruct (cycle_returned metrics w0 w1 res1 Hrun1)
    as (w5 & a1 & a2 & a3 & a4 & a5 & h1 & Hev1 & Hres1 & Ht5 & Hb1 & Hk1 & Hs1
        & Ht1 & Hc1 & Hc5).
  destruct (cycle_returned metrics w1 w2 res2 Hrun2)
    as (w6 & b1 & b2 & b3 & b4 & b5 & h2 & Hev2 & Hres2 & Ht6 & Hb2 & Hk2 & Hs2
        & Ht2 & Hc2 & Hc6).
  fold current in Hres1, Hs1, Ht1, Hres2, Hs2, Ht2.
  assert (Hunchanged : allocation_changed (self w1) current = None).
  { rewrite Hs1. apply allocation_changed_same, calculate_allocation_is_phase. }
  rewrite Hunchanged, app_nil_r in Ht2.
  assert (Hno : forall k, In k (recorded_names h1) -> ~ In k (recorded_names h2)).
  { intros k. apply (no_second_firing (all_keys metrics) (all_keys metrics)
                       (self w0) (self w1) (clock_reads w0) (clock_reads w1) (clock_reads w2)).
    - exact H12.
    - rewrite Hc1. exact Hk1.
    - now rewrite Hs1.
    - now rewrite Hs1.
    - rewrite Hc2. exact Hk2.
    - exact Hbefore. }
  destruct (evaluators_fired metrics w0 w5 a1 a2 a3 a4 a5 h1 Hev1 Ht5)
    as (Hf1 & Hf2 & Hf3 & Hf4 & Hf5).
  destruct (evaluators_fired metrics w1 w6 b1 b2 b3 b4 b5 h2 Hev2 Ht6)
    as (Hg1 & Hg2 & Hg3 & Hg4 & Hg5).
  assert (Hsome : forall o : option string, (o <> None -> False) -> o = None).
  { intros [x|] H; [exfalso; now apply H | reflexivity]. }
  subst res1 res2. exists h1, h2.
  split; [now rewrite Ht1, Ht5, <- app_assoc|].
  split; [exact Hb1|].
  split; [now rewrite Ht2, Ht6|].
  split; [exact Hb2|].
  split; [exact Hno|].
  simpl res_rotation. simpl res_alt_season. simpl res_stablecoin. simpl res_funding.
  simpl res_macro. simpl res_allocation.
  split; [|split; [|split; [|split; [|split; [|split; [|split; [|split]]]]]]].
  - intros Ha. apply Hsome. intros Hb.
    exact (Hno "rotation" (Hf1 Ha) (Hg1 Hb)).
  - intros Ha. apply Hsome. intros Hb.
    assert (Hexcl : alt_season_full_condition metrics && alt_season_end_condition metrics
                    = false).
    { unfold alt_season_full_condition, alt_season_end_condition.
      destruct (Float.ge _ (Float.of_Z 75)) eqn:H75; [|reflexivity].
      now rewrite (float_ge_75_not_le_25 _ H75). }
    destruct (Hf2 Ha) as [(Hc & Hin)|(Hc & Hin)], (Hg2 Hb) as [(Hc' & Hin')|(Hc' & Hin')].
    + exact (Hno _ Hin Hin').
    + rewrite Hc, Hc' in Hexcl. discriminate Hexcl.
    + rewrite Hc, Hc' in Hexcl. discriminate Hexcl.
    + exact (Hno _ Hin Hin').
  - intros Ha. apply Hsome. intros Hb.
    exact (Hno "stablecoin_issuance" (Hf4 Ha) (Hg4 Hb)).
  - intros Hbtc Hhype. apply Hsome. intros Hb.
    destruct (Hg3 Hb) as [(Hc & Hin)|(Hc & Hin)].
    + exact (Hno _ (Hbtc Hc) Hin).
    + exact (Hno _ (Hhype Hc) Hin).
  - intros Hall. apply Hsome. intros Hb.
    destruct (Hg5 Hb) as (k & (event & name & Hev & Hname & ->) & Hin).
    exact (Hno _ (Hall event name Hev Hname) Hin).
  - reflexivity.
  - reflexivity.
  - now rewrite Hs2.
  - intros k t now Hk Hge. unfold eligible. rewrite Hk. simpl default.
    replace (cooldown_hours (self w2)) with 12; [exact Hge|].
    rewrite Hs2. simpl. rewrite Hs1. simpl. now rewrite H12.
Qed.

End Properties.

(** At clock reading 50000 a name without record is eligible. *)
Lemma should_trigger_cooldown_witness :
  outcome_of (_should_trigger (test_env 50000 0 []) "rotation") initial_world
  = Returned true.
Proof.
  destruct (should_trigger_cooldown (test_env 50000 0 []) "rotation" initial_world eq_refl)
    as (_ & Hiff & _).
  apply Hiff; [vm_compute; reflexivity | left; reflexivity].
Defined.

(** C3 as stated fails at clock reading 100 on a new engine: no fire is
    recorded for the name, and the answer is false. *)
Lemma should_trigger_unrecorded_counterexample :
  ~ (outcome_of (_should_trigger (test_env 100 0 []) "rotation") initial_world
       = Returned true
     <-> (last_trigger_time (self initial_world) !! "rotation" = None
          \/ exists last, last_trigger_time (self initial_world) !! "rotation" = Some last
                /\ Float.ge (Float.sub (clock (test_env 100 0 []) 0) last) window = true)).
Proof.
  intros [_ H]. assert (Hfalse : Returned false = Returned true).
  { apply H. left. reflexivity. }
  discriminate Hfalse.
Qed.



(** The rotation evaluator leaves the instant of [funding_btc] alone. *)
Lemma cooldown_frame_witness :
  last_trigger_time
    (self (world_after (evaluator CPython.runtime (test_env 50000 0 []) Rotation
                                  rotation_metrics) initial_world)) !! "funding_btc"
  = last_trigger_time (self initial_world) !! "funding_btc".
Proof.
  destruct (cooldown_frame CPython.runtime (test_env 50000 0 []) Rotation Funding
              rotation_metrics "funding_btc" initial_world)
    as (h & _ & _ & _ & Hk & _).
  - discriminate.
  - left. reflexivity.
  - exact Hk.
Defined.




(** With a working journal the first of the two dated events is returned. *)
Lemma macro_first_qualifying_event_witness :
  outcome_of (check_macro_triggers CPython.runtime (test_env 50000 morning_of_event [])
                                   macro_metrics) initial_world
  = Returned (Some (macro_message "Fed Meeting" "2025-07-12")).
Proof.
  destruct (macro_first_qualifying_event CPython.runtime (test_env 50000 morning_of_event [])
              macro_metrics initial_world) as (_ & _ & _ & Hfirst).
  destruct (Hfirst eq_refl) as (Hout & _).
  exact Hout.
Defined.

(** C6 as stated fails when the journal call of the first firing fails: the
    first qualifying event is "Fed Meeting", its record and its notification
    are made, the failure of its journal call is swallowed, the loop goes on
    and fires "CPI" as well; two alerts are sent in one cycle and the alert
    returned is that of "CPI". *)
Lemma macro_two_alerts_counterexample :
  let E := test_env 50000 morning_of_event [0%nat] in
  let run := check_macro_triggers CPython.runtime E macro_metrics initial_world in
  first_qualifying CPython.runtime E (self initial_world) morning_of_event 0
                   (get (macro_events macro_metrics) [])
    = Some ("Fed Meeting", "2025-07-12", 0%nat)
  /\ snd run = Returned (Some (macro_message "CPI" "2025-07-12"))
  /\ notifications (trace (fst run))
     = [macro_message "Fed Meeting" "2025-07-12"; macro_message "CPI" "2025-07-12"].
Proof. vm_compute. repeat split. Qed.

(** Two cycles on the snapshot with [btc_dominance = 55] and
    [alt_season_index = 80], a few seconds apart: rotation fires in the first
    and is absent in the second. *)
Lemma cooldown_suppresses_refire_witness :
  let E := test_env 50000 0 [] in
  let run1 := check_all_triggers CPython.runtime E rotation_metrics initial_world in
  let run2 := check_all_triggers CPython.runtime E rotation_metrics (fst run1) in
  option_map res_rotation (returned (snd run1))
    = Some (Some (rotation_message CPython.runtime (Float.of_Z 55) (Float.of_Z 80)))
  /\ option_map res_rotation (returned (snd run2)) = Some None.
Proof.
  intros E run1 run2.
  assert (Hc1 : clock_reads (fst run1) = 4%nat) by (vm_compute; reflexivity).
  assert (Hc2 : clock_reads (fst run2) = 6%nat) by (vm_compute; reflexivity).
  destruct (snd run1) as [res1|e1] eqn:H1;
    [|apply (f_equal returned) in H1; vm_compute in H1; discriminate H1].
  destruct (snd run2) as [res2|e2] eqn:H2;
    [|apply (f_equal returned) in H2; vm_compute in H2; discriminate H2].
  assert (Hres1 : returned (snd run1) = Some res1) by now rewrite H1.
  vm_compute in Hres1. injection Hres1 as Hres1.
  destruct (cooldown_suppresses_refire CPython.runtime E rotation_metrics initial_world
              res1 res2 eq_refl H1 H2)
    as (h1 & h2 & _ & _ & _ & _ & _ & Hrot & _).
  - intros i j Hi Hj. fold run1 in Hi, Hj. fold run2 in Hj. rewrite Hc1 in Hi, Hj.
    rewrite Hc2 in Hj. simpl in Hi.
    assert (Hi' : (i = 0 \/ i = 1 \/ i = 2 \/ i = 3)%nat) by lia.
    assert (Hj' : (j = 4 \/ j = 5)%nat) by lia.
    destruct Hi' as [-> | [-> | [-> | ->]]], Hj' as [-> | ->]; vm_compute; reflexivity.
  - simpl. rewrite Hrot; [|rewrite <- Hres1; discriminate].
    split; [|reflexivity]. rewrite <- Hres1. vm_compute. reflexivity.
Defined.

(** C4 as stated fails for the macro category on a snapshot with two events
    dated today: the first cycle fires "Fed Meeting"; the second cycle, on the
    same snapshot and four clock readings (seconds) later, finds that name
    cooled and fires "CPI", so its macro result is present. *)
Lemma macro_refires_counterexample :
  let E := test_env 50000 morning_of_event [] in
  let run1 := check_all_triggers CPython.runtime E macro_metrics initial_world in
  let run2 := check_all_triggers CPython.runtime E macro_metrics (fst run1) in
  option_map res_macro (returned (snd run1))
    = Some (Some (macro_message "Fed Meeting" "2025-07-12"))
  /\ option_map res_macro (returned (snd run2))
     = Some (Some (macro_message "CPI" "2025-07-12"))
  /\ clock_reads (fst run2) = 5%nat
  /\ clock E 4 = Float.of_Z 50004.
Proof. vm_compute. repeat split. Qed.

(** The same for the funding category: [funding_hype] was recorded 43199 s
    before its check in the first cycle, so only [funding_btc] fires there;
    two seconds later, in the second cycle, [funding_hype] is eligible and
    fires, and the funding result is present. *)
Example funding_refires_within_window :
  let E := test_env 50000 0 [] in
  let run1 := check_all_triggers CPython.runtime E funding_metrics hype_recorded_world in
  let run2 := check_all_triggers CPython.runtime E funding_metrics (fst run1) in
  option_map res_funding (returned (snd run1))
    = Some (Some (funding_message CPython.runtime "BTC" Float.lit_0_25))
  /\ option_map res_funding (returned (snd run2))
     = Some (Some (funding_message CPython.runtime "HYPE" Float.lit_0_25))
  /\ clock_reads (fst run2) = 6%nat.
Proof. vm_compute. repeat split. Qed.

(** ** The scenarios of the specification, run on a new engine *)

(** Scenario A: allocation (0.70, 0.25, 0.05), no trigger fires, no clock is
    read and nothing is sent. *)
Example scenario_A :
  let run := check_all_triggers CPython.runtime (test_env 50000 0 []) scenario_A_metrics
                                initial_world in
  returned (snd run)
    = Some {| res_rotation := None; res_alt_season := None; res_funding := None;
              res_stablecoin := None; res_macro := None;
              res_allocation := BTC_DOMINANCE_PHASE |}
  /\ trace (fst run) = []
  /\ clock_reads (fst run) = 0%nat.
Proof. vm_compute. repeat split. Qed.

(** Scenario B: allocation (0.45, 0.50, 0.05); rotation and full alt-season
    fire. *)
Example scenario_B :
  let run := check_all_triggers CPython.runtime (test_env 50000 0 []) rotation_metrics
                                initial_world in
  option_map res_allocation (returned (snd run)) = Some ALT_SEASON_PHASE
  /\ recorded_names (trace (fst run)) = ["rotation"; "alt_season_full"]
  /\ notifications (trace (fst run))
     = [rotation_message CPython.runtime (Float.of_Z 55) (Float.of_Z 80);
        alt_season_full_message CPython.runtime (Float.of_Z 80)].
Proof. vm_compute. repeat split. Qed.

(** Scenario D: the macro trigger fires under the name [macro_Fed Meeting]. *)
Example scenario_D :
  let run := check_macro_triggers CPython.runtime (test_env 50000 morning_of_event [])
                                  macro_metrics initial_world in
  recorded_names (trace (fst run)) = ["macro_Fed Meeting"]
  /\ snd run = Returned (Some (macro_message "Fed Meeting" "2025-07-12")).
Proof. vm_compute. repeat split. Qed.

(** An allocation change between two cycles: from (0.70, 0.25, 0.05) to
    (0.45, 0.50, 0.05) the journal delta is the binary64 value of
    [(0.45 - 0.7) * 100]. *)
Example allocation_change_delta :
  let E := test_env 50000 0 [] in
  let w1 := fst (check_all_triggers CPython.runtime E scenario_A_metrics initial_world) in
  let w2 := fst (check_all_triggers CPython.runtime E rotation_metrics w1) in
  last_allocation (self w1) = Some BTC_DOMINANCE_PHASE
  /\ last_allocation (self w2) = Some ALT_SEASON_PHASE
  /\ List.last (trace w2) (EvTelegram "")
     = EvJournal "ALLOCATION"
         (PyFloat (Float.mul (Float.sub Float.lit_0_45 Float.lit_0_70) (Float.of_Z 100)))
         "Auto allocation update" "📊"
  /\ CPython.format_f 15 (Float.mul (Float.sub Float.lit_0_45 Float.lit_0_70) (Float.of_Z 100))
     = "-24.999999999999993".
Proof. vm_compute. repeat split. Qed.

(** * Further properties of the engine and of its sinks *)

(** ** Relations kept by every step *)

Section Keeps.

Context (Rel : World -> World -> Prop).
Hypothesis Rel_refl : forall w, Rel w w.
Hypothesis Rel_trans : forall w1 w2 w3, Rel w1 w2 -> Rel w2 w3 -> Rel w1 w3.








End Keeps.




Section Sinks.

Context (R : Runtime) (E : Env).

Local Open Scope py_scope.




(** *** The notification sink *)



(** A step that touches neither the history nor the sink. *)
Lemma notified_silent (w w' : World) :
  trace w' = trace w -> posts w' = posts w -> chat w' = chat w -> stdout w' = stdout w ->
  notified E w w'.
Proof.
  intros Ht Hp Hc Ho. exists []. simpl. rewrite Ht, Hp, Hc, Ho, !app_nil_r.
  destruct (configured E); repeat split; lia.
Qed.

Lemma notified_time_time : keeps (notified E) (time_time E).
Proof. intros w. now apply notified_silent. Qed.







(** *** The journal *)



Lemma journaled_silent (w w' : World) :
  trace w' = trace w -> journal_calls w' = journal_calls w ->
  journal_file w' = journal_file w -> journaled E w w'.
Proof.
  intros Ht Hj Hf. exists [], []. simpl. rewrite Ht, Hj, Hf, app_nil_r.
  repeat split; lia.
Qed.

Lemma journaled_time_time : keeps (journaled E) (time_time E).
Proof. intros w. now apply journaled_silent. Qed.







End Sinks.


Section Session.

Context (R : Runtime) (E : Env).

Local Open Scope py_scope.





End Session.


Lemma replay_lookup (h : list event) (m : gmap string float) (k : string) (t : float) :
  replay h m !! k = Some t ->
  m !! k = Some t \/ exists pre post, h = pre ++ EvRecord k t :: post.
Proof.
  revert m. induction h as [|e h IH]; intros m Hl; [now left|].
  destruct e as [k' t'|text|asset change_pct reason emotion]; simpl in Hl.
  - destruct (IH _ Hl) as [Hm|(pre & post & ->)].
    + destruct (decide (k' = k)) as [->|Hne].
      * rewrite lookup_insert_eq in Hm. injection Hm as ->. right. now exists [], h.
      * rewrite lookup_insert_ne in Hm by exact Hne. now left.
    + right. now exists (EvRecord k' t' :: pre), post.
  - destruct (IH _ Hl) as [Hm|(pre & post & ->)]; [now left|].
    right. now exists (EvTelegram text :: pre), post.
  - destruct (IH _ Hl) as [Hm|(pre & post & ->)]; [now left|].
    right. now exists (EvJournal asset change_pct reason emotion :: pre), post.
Qed.

Section Cycles.

Context (R : Runtime) (E : Env).

Local Open Scope py_scope.




(** What the evaluators do to the engine, whatever their outcome. *)
Lemma evaluators_engine (metrics : Metrics) (w : World) :
  let w5 := fst (evaluators R E metrics w) in
  cooldown_hours (self w5) = cooldown_hours (self w)
  /\ last_allocation (self w5) = last_allocation (self w)
  /\ (clock_reads w <= clock_reads w5)%nat
  /\ forall k t, last_trigger_time (self w5) !! k = Some t ->
       last_trigger_time (self w) !! k = Some t
       \/ (all_keys metrics k
           /\ exists i, (clock_reads w <= i < clock_reads w5)%nat /\ t = clock E i).
Proof.
  intros w5. subst w5.
  destruct (evaluators_summary R E metrics w) as (h & Ht & Hb & Hs & Hc & Hj & Hk & _).
  rewrite Hs. simpl. repeat split; [exact Hc|].
  intros k t Hl. destruct (replay_lookup _ _ _ _ Hl) as [Hm|(pre & post & Hh)]; [now left|].
  right. destruct (Hk pre k t post Hh) as (Hown & j & i & Hcj & Hji & Hic & Ht' & _).
  split; [exact Hown|]. exists i. split; [lia | exact Ht'].
Qed.

(** What one cycle does to the engine, whatever its outcome. *)
Lemma cycle_engine (metrics : Metrics) (w : World) :
  let w' := world_after (check_all_triggers R E metrics) w in
  cooldown_hours (self w') = cooldown_hours (self w)
  /\ (last_allocation (self w') = last_allocation (self w)
      \/ last_allocation (self w') = Some (calculate_allocation metrics))
  /\ (clock_reads w <= clock_reads w')%nat
  /\ forall k t, last_trigger_time (self w') !! k = Some t ->
       last_trigger_time (self w) !! k = Some t
       \/ (all_keys metrics k
           /\ exists i, (clock_reads w <= i < clock_reads w')%nat /\ t = clock E i).
Proof.
  intros w'. subst w'. unfold world_after.
  rewrite (check_all_triggers_phases R E metrics w).
  pose proof (evaluators_engine metrics w) as Hev. cbv zeta in Hev.
  destruct (evaluators R E metrics w) as [w5 [[[[[r1 r2] r3] r4] r5]|e]]; simpl in Hev.
  - destruct Hev as (Hcd & Hla & Hc & Hk).
    pose proof (allocation_update_run R E metrics w5) as Hupd. cbv zeta in Hupd.
    assert (Hgoal : forall w' (out : outcome Allocation),
              (self w' = self w5 \/ self w' = stored (calculate_allocation metrics) (self w5)) ->
              clock_reads w' = clock_reads w5 ->
              cooldown_hours (self w') = cooldown_hours (self w)
              /\ (last_allocation (self w') = last_allocation (self w)
                  \/ last_allocation (self w') = Some (calculate_allocation metrics))
              /\ (clock_reads w <= clock_reads w')%nat
              /\ forall k t, last_trigger_time (self w') !! k = Some t ->
                   last_trigger_time (self w) !! k = Some t
                   \/ (all_keys metrics k
                       /\ exists i, (clock_reads w <= i < clock_reads w')%nat
                                    /\ t = clock E i)).
    { intros w' _ [Hs|Hs] Hc'; rewrite Hs, Hc'; simpl;
        (split; [exact Hcd|]); (split; [first [now left | now right]|]);
        (split; [exact Hc | exact Hk]). }
    destruct (allocation_changed (self w5) (calculate_allocation metrics)) as [last|].
    + destruct Hupd as (w' & -> & (Hs & _ & Hc' & _)).
      destruct (journal_fails E (journal_calls w5)); simpl;
        (apply (Hgoal w' (Returned (calculate_allocation metrics))); [|lia]);
        [now left | now right].
    + destruct Hupd as (w' & -> & (Hs & _ & Hc' & _)). simpl.
      apply (Hgoal w' (Returned (calculate_allocation metrics))); [now right | lia].
  - simpl. destruct Hev as (Hcd & Hla & Hc & Hk). repeat split; auto.
Qed.

(** What a session does to the engine. *)
Lemma session_engine (snapshots : list Metrics) (w : World) :
  let w' := session R E snapshots w in
  cooldown_hours (self w') = cooldown_hours (self w)
  /\ (clock_reads w <= clock_reads w')%nat
  /\ (forall a, last_allocation (self w') = Some a ->
        last_allocation (self w) = Some a \/ is_phase a)
  /\ (forall k t, last_trigger_time (self w') !! k = Some t ->
        last_trigger_time (self w) !! k = Some t
        \/ (session_keys snapshots k
            /\ exists i, (clock_reads w <= i < clock_reads w')%nat /\ t = clock E i)).
Proof.
  revert w. induction snapshots as [|metrics rest IH]; intros w; simpl.
  - repeat split; auto.
  - destruct (cycle_engine metrics w) as (Hcd1 & Hla1 & Hc1 & Hk1).
    destruct (IH (world_after (check_all_triggers R E metrics) w)) as (Hcd & Hc & Hla & Hk).
    set (w1 := world_after (check_all_triggers R E metrics) w) in *.
    split; [now rewrite Hcd|]. split; [lia|]. split.
    + intros a Ha. destruct (Hla a Ha) as [Ha1|Hp]; [|now right].
      destruct Hla1 as [Heq|Heq]; rewrite Heq in Ha1; [now left|].
      right. injection Ha1 as <-. apply calculate_allocation_is_phase.
    + intros k t Hl. destruct (Hk k t Hl) as [Hl1|(Hkeys & i & Hi & Ht)].
      * destruct (Hk1 k t Hl1) as [Hl0|(Hkeys & i & Hi & Ht)]; [now left|].
        right. split; [exists metrics; split; [now left | exact Hkeys]|].
        exists i. split; [lia | exact Ht].
      * right. split.
        -- destruct Hkeys as (metrics' & Hin & Hkeys). exists metrics'.
           split; [now right | exact Hkeys].
        -- exists i. split; [lia | exact Ht].
Qed.

(** X4. Invariants of the engine over a session that starts with a newly
    constructed engine: the cooldown length stays at 12 hours; the stored
    allocation, once there is one, is one of the three tuples of the
    calculator; and every entry of the cooldown map is for a cooldown name of
    one of the snapshots and holds a clock reading made during the
    session. *)
Theorem session_engine_invariants (snapshots : list Metrics) (w : World) :
  self w = TriggerEngine_init ->
  let w' := session R E snapshots w in
  cooldown_hours (self w') = 12
  /\ (forall a, last_allocation (self w') = Some a -> is_phase a)
  /\ (forall k t, last_trigger_time (self w') !! k = Some t ->
        session_keys snapshots k
        /\ exists i, (clock_reads w <= i < clock_reads w')%nat /\ t = clock E i).
Proof.
  intros Hinit w'. destruct (session_engine snapshots w) as (Hcd & _ & Hla & Hk).
  fold w' in Hcd, Hla, Hk. rewrite Hinit in Hcd, Hla, Hk. simpl in Hcd, Hla, Hk.
  split; [exact Hcd|]. split.
  - intros a Ha. destruct (Hla a Ha) as [Hd|Hp]; [discriminate Hd | exact Hp].
  - intros k t Hl. destruct (Hk k t Hl) as [Hd|Hr]; [|exact Hr].
    rewrite lookup_empty in Hd. discriminate Hd.
Qed.

(** The evaluators on a snapshot that meets none of their thresholds. *)
Lemma macro_loop_quiet (now : Z) (events : list macro_event) (w : World) :
  forallb (fun event => match macro_candidate R now event with
                        | Some _ => false
                        | None => true
                        end) events = true ->
  macro_loop R E now events w = (w, Returned None).
Proof.
  induction events as [|event rest IH]; [reflexivity|].
  simpl forallb. intros [Hev Hrest]%andb_prop.
  destruct (macro_candidate R now event) eqn:Hc; [discriminate Hev|].
  rewrite (macro_loop_skip R E now event rest w Hc). now apply IH.
Qed.

Lemma check_macro_triggers_quiet (metrics : Metrics) (w : World) :
  no_macro_candidate R (wall_clock E (now_reads w)) metrics = true ->
  check_macro_triggers R E metrics w = (set_now_reads (S (now_reads w)) w, Returned None).
Proof.
  intros Hq. unfold check_macro_triggers, bind. rewrite datetime_now_run.
  now apply macro_loop_quiet.
Qed.

(** X5. A cycle on a snapshot that meets no threshold, with no allocation
    change to report, has no effect beyond reading the wall clock once and
    storing the allocation: it reads no cooldown clock, writes no cooldown
    entry, sends and prints nothing and does not touch the journal, and it
    returns no alert under any of the five keys. *)
Theorem quiet_cycle (metrics : Metrics) (w : World) :
  quiet R (wall_clock E (now_reads w)) metrics = true ->
  allocation_changed (self w) (calculate_allocation metrics) = None ->
  check_all_triggers R E metrics w =
  (set_self (stored (calculate_allocation metrics)) (set_now_reads (S (now_reads w)) w),
   Returned {| res_rotation := None; res_alt_season := None; res_funding := None;
               res_stablecoin := None; res_macro := None;
               res_allocation := calculate_allocation metrics |}).
Proof.
  unfold quiet, rotation_condition, alt_season_full_condition, alt_season_end_condition,
    funding_btc_condition, funding_hype_condition, stablecoin_condition.
  intros Hq Hch.
  repeat match type of Hq with
         | (_ && _) = true => apply andb_prop in Hq; destruct Hq as [Hq ?]
         end.
  repeat match goal with
         | H : negb _ = true |- _ => apply negb_true_iff in H
         end.
  unfold check_all_triggers, check_rotation_triggers, check_alt_season_triggers,
    check_funding_triggers, check_stablecoin_triggers.
  repeat match goal with
         | H : ?c = false |- _ => rewrite H
         end.
  simpl and_then. rewrite !bind_ret_l. cbv beta.
  unfold bind at 1. rewrite check_macro_triggers_quiet by assumption.
  rewrite bind_gets. simpl self.
  unfold allocation_changed in Hch.
  destruct (last_allocation (self w)) as [last|].
  - destruct (allocation_ne last (calculate_allocation metrics)); [discriminate Hch|].
    reflexivity.
  - reflexivity.
Qed.

End Cycles.

Lemma session_engine_invariants_witness :
  let E := test_env 50000 0 [] in
  let w' := session CPython.runtime E [rotation_metrics; funding_metrics] initial_world in
  self initial_world = TriggerEngine_init
  /\ cooldown_hours (self w') = 12
  /\ (forall a, last_allocation (self w') = Some a -> is_phase a)
  /\ (forall k t, last_trigger_time (self w') !! k = Some t ->
        session_keys [rotation_metrics; funding_metrics] k
        /\ exists i, (clock_reads initial_world <= i < clock_reads w')%nat /\ t = clock E i).
Proof.
  intros E w'. split; [reflexivity|].
  apply (session_engine_invariants CPython.runtime E [rotation_metrics; funding_metrics]
           initial_world).
  reflexivity.
Defined.

Lemma quiet_cycle_witness :
  let E := test_env 50000 0 [] in
  quiet CPython.runtime (wall_clock E (now_reads initial_world)) scenario_A_metrics = true
  /\ allocation_changed (self initial_world) (calculate_allocation scenario_A_metrics) = None
  /\ check_all_triggers CPython.runtime E scenario_A_metrics initial_world =
     (set_self (stored (calculate_allocation scenario_A_metrics))
        (set_now_reads (S (now_reads initial_world)) initial_world),
      Returned {| res_rotation := None; res_alt_season := None; res_funding := None;
                  res_stablecoin := None; res_macro := None;
                  res_allocation := calculate_allocation scenario_A_metrics |}).
Proof.
  intros E. split; [vm_compute; reflexivity|]. split; [reflexivity|].
  apply (quiet_cycle CPython.runtime E scenario_A_metrics initial_world);
    [vm_compute; reflexivity | reflexivity].
Defined.

(** ** Alerts and allocation *)

Lemma float_lt_le (x y : float) : Float.lt x y = true -> Float.le x y = true.
Proof.
  unfold Float.lt, Float.le, SFltb, SFleb. now destruct (SFcompare x y) as [[]|].
Qed.

Lemma float_gt_not_lt (x y : float) : Float.gt x y = true -> Float.lt x y = false.
Proof.
  unfold Float.gt. intros H. change (SFltb y x) with (Float.lt y x) in H.
  pose proof (float_lt_not_ge _ _ H) as Hge.
  destruct (Float.lt x y) eqn:Hlt; [|reflexivity].
  apply float_lt_le in Hlt. unfold Float.ge in Hge. unfold Float.le in Hlt. congruence.
Qed.

(** When the rotation condition holds, the calculator is in its alt-season
    band. *)
Lemma rotation_condition_allocation (metrics : Metrics) :
  rotation_condition metrics = true -> calculate_allocation metrics = ALT_SEASON_PHASE.
Proof.
  unfold rotation_condition, calculate_allocation.
  intros [Hbtc Halt]%andb_prop.
  rewrite (float_gt_not_lt _ _ Halt), andb_false_r, Hbtc.
  unfold Float.gt in Halt. unfold Float.ge.
  change (SFltb (Float.of_Z 50) (get (alt_season_index metrics) (Float.of_Z 50)))
    with (Float.lt (Float.of_Z 50) (get (alt_season_index metrics) (Float.of_Z 50))) in Halt.
  apply float_lt_le in Halt. unfold Float.le in Halt. now rewrite Halt.
Qed.

Section Alerts.

Context (R : Runtime) (E : Env).

Local Open Scope py_scope.

Lemma evaluators_rotation (metrics : Metrics) (w w5 : World)
    (r1 r2 r3 r4 r5 : option string) :
  evaluators R E metrics w = (w5, Returned (r1, r2, r3, r4, r5)) ->
  exists w1, check_rotation_triggers R E metrics w = (w1, Returned r1).
Proof.
  unfold evaluators, bind.
  destruct (check_rotation_triggers R E metrics w) as [w1 [a1|e]]; [|discriminate].
  destruct (check_alt_season_triggers R E metrics w1) as [w2 [a2|e]]; [|discriminate].
  destruct (check_funding_triggers R E metrics w2) as [w3 [a3|e]]; [|discriminate].
  destruct (check_stablecoin_triggers R E metrics w3) as [w4 [a4|e]]; [|discriminate].
  destruct (check_macro_triggers R E metrics w4) as [w5' [a5|e]]; [|discriminate].
  unfold ret. intros [= <- <- <- <- <- <-]. now exists w1.
Qed.

(** X6. The rotation alert and the allocation agree: whenever a cycle returns
    a rotation alert, the rotation condition held on the snapshot
    ([btc_dominance < 60] and [alt_season_index > 50]) and the allocation
    returned by the same cycle is the alt-season tuple (0.45, 0.50, 0.05). *)
Theorem rotation_alert_allocation (metrics : Metrics) (w w' : World) (res : Results) :
  check_all_triggers R E metrics w = (w', Returned res) ->
  res_rotation res <> None ->
  rotation_condition metrics = true /\ res_allocation res = ALT_SEASON_PHASE.
Proof.
  intros Hrun Hrot.
  destruct (cycle_returned R E metrics w w' res Hrun)
    as (w5 & r1 & r2 & r3 & r4 & r5 & h & Hev & -> & _).
  simpl in Hrot. simpl res_allocation.
  destruct (evaluators_rotation metrics w w5 r1 r2 r3 r4 r5 Hev) as (w1 & Hr).
  destruct (check_rotation_triggers_run R E metrics w) as (w1' & Hr' & _).
  rewrite Hr in Hr'.
  destruct (rotation_condition metrics) eqn:Hc.
  - split; [reflexivity|]. now apply rotation_condition_allocation.
  - simpl in Hr'. injection Hr' as _ ->. now destruct Hrot.
Qed.

End Alerts.

Lemma rotation_alert_allocation_witness :
  let E := test_env 50000 0 [] in
  let run := check_all_triggers CPython.runtime E rotation_metrics initial_world in
  option_map res_rotation (returned (snd run))
    = Some (Some (rotation_message CPython.runtime (Float.of_Z 55) (Float.of_Z 80)))
  /\ rotation_condition rotation_metrics = true
  /\ option_map res_allocation (returned (snd run)) = Some ALT_SEASON_PHASE.
Proof.
  intros E run.
  destruct (snd run) as [res|e] eqn:Hout;
    [|apply (f_equal returned) in Hout; vm_compute in Hout; discriminate Hout].
  assert (Hres : returned (snd run) = Some res) by now rewrite Hout.
  vm_compute in Hres. injection Hres as Hres.
  assert (Hrun : check_all_triggers CPython.runtime E rotation_metrics initial_world
                 = (fst run, Returned res)).
  { rewrite <- Hout. subst run. now destruct (check_all_triggers _ _ _ _). }
  destruct (rotation_alert_allocation CPython.runtime E rotation_metrics initial_world
              (fst run) res Hrun) as (Hc & Ha).
  - rewrite <- Hres. discriminate.
  - simpl. split; [rewrite <- Hres; vm_compute; reflexivity|].
    split; [exact Hc | now rewrite Ha].
Defined.

(** * The readers of the journal *)

Section Readers.

Context (R : Runtime) (E : Env) (L : Text).

Local Open Scope py_scope.

Lemma slice_from_suffix {A} (start : Z) (l : list A) :
  exists front, l = front ++ slice_from start l.
Proof.
  unfold slice_from. eexists. symmetry. apply firstn_skipn.
Qed.

(** X7. [read_journal(limit=n)] returns a suffix of the entries of the file:
    all of them for [n = 0] (as for no limit), the last [n] of them for a
    positive [n] (all when there are fewer), and, for a negative [n], the
    entries without the first [-n] of them. *)
Theorem read_journal_limit (file : option (list (list cell))) (n : Z) :
  let entries := read_journal L file None in
  let recent := read_journal L file (Some n) in
  (exists older, entries = older ++ recent)
  /\ length recent = if n =? 0 then length entries
                     else if 0 <? n then Nat.min (Z.to_nat n) (length entries)
                     else (length entries - Z.to_nat (- n))%nat.
Proof.
  unfold read_journal. destruct file as [rows|]; simpl.
  - set (entries := DictReader (map (map (render L)) rows)).
    destruct (Z.eqb_spec n 0) as [->|Hn].
    + split; [now exists []|reflexivity].
    + split; [apply slice_from_suffix|].
      unfold slice_from. rewrite length_skipn.
      destruct (Z.ltb_spec 0 n), (Z.ltb_spec (- n) 0); lia.
  - split; [now exists []|]. destruct (n =? 0), (0 <? n); simpl; lia.
Qed.

Lemma dict_row_journal (now : Z) (asset : string) (change_pct : pynum)
    (reason emotion : string) :
  dict_row (map (render L) journal_header)
           (map (render L) [CTime now; CStr asset; CNum change_pct; CStr reason; CStr emotion])
  = journal_entry L now asset change_pct reason emotion.
Proof. reflexivity. Qed.

(** The file after a call of [append_journal_entry] whose file operations
    pass. *)
Lemma append_journal_entry_file (asset : string) (change_pct : pynum)
    (reason emotion : string) (w : World) :
  journal_fails E (journal_calls w) = false ->
  journal_file (world_after (append_journal_entry E asset change_pct reason emotion) w)
  = Some (default [journal_header] (journal_file w)
          ++ [[CTime (wall_clock E (now_reads w)); CStr asset; CNum change_pct;
               CStr reason; CStr emotion]]).
Proof.
  intros Hok.
  unfold world_after, append_journal_entry, ensure_journal_exists, datetime_now, bind, log,
    modify, gets, ret, raise.
  simpl. rewrite Hok. simpl.
  destruct (journal_file w) eqn:Hf; simpl; rewrite ?Hf; reflexivity.
Qed.



(** X9. A journal file that exists but has no row at all is not given a
    header, so the row of the first call that is appended to it is read as
    the header: after that call the journal still reads as empty, and its
    statistics are those of an empty journal. *)
Theorem append_to_empty_file (asset : string) (change_pct : pynum) (reason emotion : string)
    (w : World) :
  journal_fails E (journal_calls w) = false ->
  journal_file w = Some [] ->
  let w' := world_after (append_journal_entry E asset change_pct reason emotion) w in
  journal_file w'
  = Some [[CTime (wall_clock E (now_reads w)); CStr asset; CNum change_pct;
           CStr reason; CStr emotion]]
  /\ read_journal L (journal_file w') None = []
  /\ get_journal_stats L (journal_file w') = Py.Ok no_stats.
Proof.
  intros Hok Hf w'. subst w'.
  rewrite (append_journal_entry_file _ _ _ _ _ Hok), Hf. simpl. repeat split.
Qed.




Lemma last_skipn {A} (l : list A) :
  head (skipn (length l - 1) l) = List.last (map Some l) None.
Proof.
  induction l as [|a l IH]; [reflexivity|].
  destruct l as [|b l]; [reflexivity|].
  replace (length (a :: b :: l) - 1)%nat with (S (length (b :: l) - 1)) by (simpl; lia).
  rewrite skipn_cons, IH. reflexivity.
Qed.

(** X11. When [get_journal_stats] returns, its count is the number of entries
    that [read_journal()] returns, it is zero exactly when there is no last
    entry, and its last entry is the one that [read_journal(limit=1)]
    returns. *)
Theorem get_journal_stats_entries (file : option (list (list cell))) (stats : Stats) :
  get_journal_stats L file = Py.Ok stats ->
  total_entries stats = length (read_journal L file None)
  /\ last_entry stats = head (read_journal L file (Some 1))
  /\ (total_entries stats = 0%nat <-> last_entry stats = None).
Proof.
  unfold get_journal_stats.
  assert (Hlim : read_journal L file (Some 1) = slice_from (-1) (read_journal L file None)).
  { unfold read_journal. now destruct file. }
  rewrite Hlim. set (entries := read_journal L file None).
  assert (Hlast : head (slice_from (-1) entries) = List.last (map Some entries) None).
  { unfold slice_from. rewrite <- last_skipn. f_equal. f_equal.
    destruct (Z.ltb_spec (-1) 0); lia. }
  destruct entries as [|e entries'] eqn:He.
  - intros [= <-]. simpl. repeat split; reflexivity.
  - destruct (changes_of L (e :: entries')) as [changes|err]; [|discriminate].
    intros [= <-]. simpl total_entries. simpl last_entry. rewrite Hlast.
    split; [reflexivity|]. split; [reflexivity|].
    split; [discriminate|].
    intros Hnone. exfalso. clear - Hnone.
    revert e Hnone. induction entries' as [|e' rest IH]; intros e Hnone; [discriminate|].
    exact (IH e' Hnone).
Qed.

Lemma changes_of_returns (entries : list entry) :
  (exists changes, changes_of L entries = Py.Ok changes) <-> Forall (countable L) entries.
Proof.
  induction entries as [|e rest IH]; simpl.
  - split; [constructor | now exists []].
  - split.
    + intros (changes & Hc).
      destruct (entry_get "change_pct" e) as [[s|]|] eqn:Hget; try discriminate.
      assert (Hrest : exists xs, changes_of L rest = Py.Ok xs).
      { destruct (looks_numeric L s); [|now exists changes].
        destruct (float_of_str L s); [|discriminate].
        destruct (changes_of L rest) as [xs|]; [now exists xs | discriminate]. }
      constructor; [|now apply IH].
      exists s. split; [exact Hget|]. intros Hnum Hnone.
      rewrite Hnum, Hnone in Hc. discriminate.
    + intros Hall. inversion Hall as [|e' rest' (s & Hget & Hs) Hrest]; subst.
      apply IH in Hrest. destruct Hrest as (xs & Hxs). rewrite Hget, Hxs.
      destruct (looks_numeric L s); [|now exists xs].
      destruct (float_of_str L s) as [x|]; [now exists (x :: xs)|].
      now destruct Hs.
Qed.

Lemma changes_of_raises (entries : list entry) (err : Py.exception) :
  changes_of L entries = Py.Raise err ->
  err = Py.KeyError "change_pct" \/ err = Py.AttributeError \/ err = Py.ValueError.
Proof.
  induction entries as [|e rest IH]; simpl; [discriminate|].
  destruct (entry_get "change_pct" e) as [[s|]|]; [| intros [= <-]; tauto..].
  - destruct (looks_numeric L s); [|exact IH].
    destruct (float_of_str L s); [|intros [= <-]; tauto].
    destruct (changes_of L rest); [discriminate|]. intros [= <-]. now apply IH.
Qed.

(** X12. [get_journal_stats] returns exactly when every entry of the journal
    has a [change_pct] string that [float] accepts whenever the digit filter
    lets it through; the filter does not protect the conversion. Otherwise
    it raises, at the first entry in file order that fails: [KeyError] for a
    missing column, [AttributeError] for a missing value, [ValueError] for a
    string of digits, points and minus signs that is not a number. *)
Theorem get_journal_stats_returns (file : option (list (list cell))) :
  ((exists stats, get_journal_stats L file = Py.Ok stats)
   <-> Forall (countable L) (read_journal L file None))
  /\ forall err, get_journal_stats L file = Py.Raise err ->
       err = Py.KeyError "change_pct" \/ err = Py.AttributeError \/ err = Py.ValueError.
Proof.
  unfold get_journal_stats. set (entries := read_journal L file None).
  pose proof (changes_of_returns entries) as Hret.
  pose proof (changes_of_raises entries) as Hraise.
  destruct entries as [|e rest].
  - split; [|discriminate]. split; [constructor | now eexists].
  - destruct (changes_of L (e :: rest)) as [changes|err0].
    + split; [|discriminate]. split; [intros _; apply Hret; now exists changes | now eexists].
    + split.
      * split; [intros (stats & Hs); discriminate Hs|].
        intros Hall. apply Hret in Hall. destruct Hall as (changes & Hc). discriminate Hc.
      * intros err [= <-]. now apply Hraise.
Qed.

End Readers.

(** ** Integers through [str] and [float] *)







Lemma all_digits_app (s t : string) :
  PyText.all_digits (s +:+ t) = PyText.all_digits s && PyText.all_digits t.
Proof. induction s as [|c s IH]; simpl; [reflexivity|]. now rewrite IH, andb_assoc. Qed.
















(** * The metric client *)

Section ClientProperties.

Import CryptoMetrics.

Context (L : Text) (W : Web).

Local Open Scope net_scope.

(** ** Retries *)

(** One attempt of [_make_request]. *)
Lemma attempt_run (url : string) (post : bool) (attempt : Z) (rest : list Z) (n : Net) :
  let k := length (requests n) in
  let logged := requests n ++ [(if post then "POST" else "GET", url)] in
  match document W k with
  | Some v =>
      attempt_loop W url post (attempt :: rest) n
      = ({| requests := logged; sleeps := sleeps n; output := output n;
            time_reads := time_reads n |}, Py.Ok v)
  | None =>
      exists e,
        attempt_loop W url post (attempt :: rest) n
        = attempt_loop W url post rest
            {| requests := logged;
               sleeps := sleeps n ++ (if attempt <? 2 then [2 ^ attempt] else []);
               output := output n
                         ++ [("Request failed (attempt " +:+ str_int (attempt + 1) +:+ ")", e)];
               time_reads := time_reads n |}
  end.
Proof.
  intros k logged. unfold document. subst k logged.
  cbn [attempt_loop].
  unfold bind, try_except, exchange_with, response_json, print, sleep, ret, raise,
    any_exception.
  destruct (http W (length (requests n))) as [text|r].
  - exists (Py.RequestException text). cbn [fst snd].
    destruct (attempt <? 2); cbn; rewrite ?app_nil_r; reflexivity.
  - destruct (json_of r) as [text|v].
    + exists (Py.RequestException text).
      destruct (attempt <? 2); cbn; rewrite ?app_nil_r; reflexivity.
    + reflexivity.
Qed.

(** The run of [_make_request] from the [k]-th exchange on. *)
Lemma make_request_run (url : string) (json_data : option json) (n : Net) :
  let k := length (requests n) in
  exists n',
    _make_request W url json_data n = (n', Py.Ok (first_document W k))
    /\ requests n' = requests n
                     ++ repeat (method_of json_data, url) (Nat.min (S (failures W k)) 3)
    /\ sleeps n' = sleeps n ++ firstn (failures W k) [1; 2]
    /\ length (output n') = (length (output n) + failures W k)%nat
    /\ time_reads n' = time_reads n.
Proof.
  intros k. unfold _make_request, first_document, failures, method_of.
  set (post := match json_data with Some v => truthy v | None => false end).
  replace (match json_data with Some v => if truthy v then "POST" else "GET" | None => "GET" end)
    with (if post then "POST" else "GET") by (subst post; now destruct json_data).
  pose proof (attempt_run url post 0 [1; 2] n) as H0. cbv zeta in H0. fold k in H0.
  destruct (document W k) as [v0|].
  { eexists. split; [exact H0|]. simpl. rewrite ?app_nil_r. repeat split; lia. }
  destruct H0 as (e0 & ->).
  set (n1 := {| requests := _ |}).
  pose proof (attempt_run url post 1 [2] n1) as H1. cbv zeta in H1.
  replace (length (requests n1)) with (S k) in H1
    by (subst n1 k; simpl; rewrite length_app; simpl; lia).
  destruct (document W (S k)) as [v1|].
  { eexists. split; [exact H1|]. subst n1. simpl.
    rewrite <- ?app_assoc, ?length_app, ?app_nil_r. simpl. repeat split; lia. }
  destruct H1 as (e1 & ->).
  set (n2 := {| requests := _ |}).
  pose proof (attempt_run url post 2 [] n2) as H2. cbv zeta in H2.
  replace (length (requests n2)) with (S (S k)) in H2
    by (subst n2 n1 k; simpl; rewrite !length_app; simpl; lia).
  destruct (document W (S (S k))) as [v2|].
  { eexists. split; [exact H2|]. subst n2 n1. simpl.
    rewrite <- ?app_assoc, ?length_app, ?app_nil_r. simpl. repeat split; lia. }
  destruct H2 as (e2 & ->).
  eexists. split; [reflexivity|]. subst n2 n1. simpl.
  rewrite <- ?app_assoc, ?length_app, ?app_nil_r. simpl. repeat split; lia.
Qed.

(** X13. [_make_request] never raises and makes at most three exchanges: it
    returns the document of the first exchange that passes and [None] after
    three failures. It prints one line per failed attempt, sleeps 1 second
    after the first failure and 2 seconds after the second, and does not
    sleep after the third. The exchanges are POSTs exactly when [json_data]
    is given and true. *)
Theorem make_request_retries (url : string) (json_data : option json) (n : Net) :
  let k := length (requests n) in
  exists n',
    _make_request W url json_data n = (n', Py.Ok (first_document W k))
    /\ requests n' = requests n
                     ++ repeat (method_of json_data, url) (Nat.min (S (failures W k)) 3)
    /\ sleeps n' = sleeps n ++ firstn (failures W k) [1; 2]
    /\ length (output n') = (length (output n) + failures W k)%nat
    /\ time_reads n' = time_reads n.
Proof. exact (make_request_run url json_data n). Qed.

(** ** Running the computations of the client *)

Lemma bind_run {A B} (m : N A) (k : A -> N B) (n n' : Net) (a : A) :
  m n = (n', Py.Ok a) -> bind m k n = k a n'.
Proof. intros H. unfold bind. now rewrite H. Qed.

Lemma bind_lift_ok {A B} (a : A) (k : A -> N B) (n : Net) :
  bind (lift (Py.Ok a)) k n = k a n.
Proof. reflexivity. Qed.

Lemma bind_lift_raise {A B} (e : Py.exception) (k : A -> N B) (n : Net) :
  bind (lift (Py.Raise e)) k n = (n, Py.Raise e).
Proof. reflexivity. Qed.


(** *** Computations that never raise *)

Lemma total_ret {A} (a : A) : total (ret a).
Proof. intros n. now exists n, a. Qed.

Lemma total_bind {A B} (m : N A) (k : A -> N B) :
  total m -> (forall a, total (k a)) -> total (bind m k).
Proof.
  intros Hm Hk n. destruct (Hm n) as (n1 & a & Hrun).
  rewrite (bind_run _ _ _ _ _ Hrun). apply Hk.
Qed.

Lemma total_print (text : string) (e : Py.exception) : total (print text e).
Proof. intros n. now eexists _, _. Qed.

(** A [try] whose handler catches every exception and returns. *)
Lemma total_try_any {A} (body : N A) (handler : Py.exception -> N A) :
  (forall e, total (handler e)) -> total (try_except any_exception body handler).
Proof.
  intros Hh n. unfold try_except, any_exception.
  destruct (body n) as [n1 [a|e]]; [now exists n1, a | apply Hh].
Qed.

Lemma total_make_request (url : string) (json_data : option json) :
  total (_make_request W url json_data).
Proof.
  intros n. destruct (make_request_run url json_data n) as (n' & Hrun & _).
  eexists _, _. exact Hrun.
Qed.

Lemma make_request_returns (url : string) (json_data : option json) (n : Net) :
  exists n', _make_request W url json_data n
             = (n', Py.Ok (first_document W (length (requests n)))).
Proof.
  destruct (make_request_run url json_data n) as (n' & Hrun & _). now exists n'.
Qed.

(** *** What a computation returns *)

Lemma returns_with_ret {A} (P : A -> Prop) (a : A) : P a -> returns_with P (ret a).
Proof. intros Ha n n' a' [= _ <-]. exact Ha. Qed.

Lemma returns_with_raise {A} (P : A -> Prop) (e : Py.exception) : returns_with P (raise e).
Proof. intros n n' a [=]. Qed.

Lemma returns_with_bind {A B} (Q : A -> Prop) (P : B -> Prop) (m : N A) (k : A -> N B) :
  returns_with Q m -> (forall a, Q a -> returns_with P (k a)) -> returns_with P (bind m k).
Proof.
  intros Hm Hk n n' b. unfold bind.
  destruct (m n) as [n1 [a|e]] eqn:Hrun; [|discriminate].
  apply (Hk a (Hm _ _ _ Hrun)).
Qed.

Lemma returns_with_any {A} (m : N A) : returns_with (fun _ => True) m.
Proof. intros n n' a _. exact I. Qed.

Lemma returns_with_lift {A} (P : A -> Prop) (r : Py.result A) :
  (forall a, r = Py.Ok a -> P a) -> returns_with P (lift r).
Proof. intros Hr n n' a [= _ ->]. now apply Hr. Qed.

Lemma returns_with_try {A} (P : A -> Prop) (catches : Py.exception -> bool) (body : N A)
    (handler : Py.exception -> N A) :
  returns_with P body -> (forall e, returns_with P (handler e)) ->
  returns_with P (try_except catches body handler).
Proof.
  intros Hb Hh n n' a. unfold try_except.
  destruct (body n) as [n1 [a1|e]] eqn:Hrun.
  - intros [= <- <-]. exact (Hb _ _ _ Hrun).
  - destruct (catches e); [apply Hh | discriminate].
Qed.

Lemma substring_length (k : nat) (s : string) :
  (String.length (String.substring 0 k s) <= k)%nat.
Proof.
  revert s. induction k as [|k IH]; intros [|c s]; simpl; try lia.
  specialize (IH s). lia.
Qed.

Lemma slice_to_length (k : nat) (v v' : json) :
  slice_to k v = Py.Ok v' -> (events_length v' <= k)%nat.
Proof.
  destruct v; simpl; try discriminate; intros [= <-]; simpl.
  - apply substring_length.
  - apply firstn_le_length.
Qed.

Lemma total_finnhub_events : total (finnhub_events W).
Proof.
  unfold finnhub_events. apply total_bind.
  - destruct (key_set (FINNHUB_KEY W)); [|apply total_ret].
    apply total_try_any. intros e. apply total_bind; [apply total_print|].
    intros _. apply total_ret.
  - intros [events|]; apply total_ret.
Qed.

Lemma total_get_macro_events : total (get_macro_events W).
Proof.
  unfold get_macro_events. apply total_bind.
  - destruct (key_set (TRADINGECON_KEY W)); [|apply total_ret].
    apply total_try_any. intros e. apply total_bind; [apply total_print|].
    intros _. apply total_ret.
  - intros [events|]; [apply total_ret | apply total_finnhub_events].
Qed.

Lemma finnhub_events_length :
  returns_with (fun v => (events_length v <= 5)%nat) (finnhub_events W).
Proof.
  unfold finnhub_events. apply (returns_with_bind at_most_five).
  - destruct (key_set (FINNHUB_KEY W)); [|now apply returns_with_ret].
    apply returns_with_try.
    + apply (returns_with_bind (fun _ => True)); [apply returns_with_any|].
      intros data _. apply (returns_with_bind (fun _ => True)); [apply returns_with_any|].
      intros [|] _; [|now apply returns_with_ret].
      apply (returns_with_bind (fun _ => True)); [apply returns_with_any|].
      intros calendar _.
      apply (returns_with_bind (fun _ => True)); [apply returns_with_any|].
      intros events0 _.
      apply (returns_with_bind (fun _ => True)); [apply returns_with_any|].
      intros kept _. apply returns_with_ret. simpl. apply firstn_le_length.
    + intros e. apply (returns_with_bind (fun _ => True)); [apply returns_with_any|].
      intros _ _. now apply returns_with_ret.
  - intros [events0|] Hf; apply returns_with_ret; [exact Hf | simpl; lia].
Qed.

Lemma get_macro_events_length :
  returns_with (fun v => (events_length v <= 5)%nat) (get_macro_events W).
Proof.
  unfold get_macro_events. apply (returns_with_bind at_most_five).
  - destruct (key_set (TRADINGECON_KEY W)); [|now apply returns_with_ret].
    apply returns_with_try.
    + apply (returns_with_bind (fun _ => True)); [apply returns_with_any|].
      intros data _. destruct (truthy data); [|now apply returns_with_ret].
      apply (returns_with_bind (fun v => (events_length v <= 5)%nat)).
      * apply returns_with_lift. intros v. apply slice_to_length.
      * intros v Hv. now apply returns_with_ret.
    + intros e. apply (returns_with_bind (fun _ => True)); [apply returns_with_any|].
      intros _ _. now apply returns_with_ret.
  - intros [events0|] Hf; [now apply returns_with_ret | apply finnhub_events_length].
Qed.

(** X14. Four of the six getters never raise, whatever the servers answer:
    [get_alt_season_index], [get_btc_funding_and_oi], [get_stablecoin_delta]
    and [get_macro_events] always return a value. What [get_macro_events]
    returns has at most five items. *)
Theorem guarded_getters_return (n : Net) :
  (exists n' v, get_alt_season_index L W n = (n', Py.Ok v))
  /\ (exists n' v, get_btc_funding_and_oi L W n = (n', Py.Ok v))
  /\ (exists n' v, get_stablecoin_delta W n = (n', Py.Ok v))
  /\ (exists n' v, get_macro_events W n = (n', Py.Ok v) /\ (events_length v <= 5)%nat).
Proof.
  assert (Hprint : forall {A} text (a : A) e, total (print text e ;; ret a)).
  { intros A text a e. apply total_bind; [apply total_print | intros _; apply total_ret]. }
  repeat split.
  - apply total_try_any. intros e. apply Hprint.
  - apply total_try_any. intros e. apply total_ret.
  - apply total_try_any. intros e. apply Hprint.
  - destruct (total_get_macro_events n) as (n' & v & Hrun).
    exists n', v. split; [exact Hrun|]. exact (get_macro_events_length _ _ _ Hrun).
Qed.

(** ** The stablecoin estimate on an object *)

Lemma add_stablecoin_key (total : pynum) (key : string) :
  add_stablecoin total (JStr key)
  = if names_a_supply key then Py.Raise Py.TypeError else Py.Ok total.
Proof.
  unfold add_stablecoin, names_a_supply. simpl.
  destruct (is_substring "circulating" key); simpl.
  - now destruct (is_substring "price" key).
  - now destruct (is_substring "mcap" key).
Qed.

Lemma total_of_keys (total : pynum) (keys : list string) :
  total_of total (map JStr keys)
  = if existsb names_a_supply keys then Py.Raise Py.TypeError else Py.Ok total.
Proof.
  induction keys as [|key keys IH]; [reflexivity|].
  cbn [map total_of existsb]. rewrite add_stablecoin_key.
  destruct (names_a_supply key); [reflexivity | exact IH].
Qed.

(** X15. When the document that [get_stablecoin_delta] receives is a JSON
    object and not an array, the loop visits its keys as strings: the result
    is never computed from the supplies in the document. It is 0.0 when no
    key contains "circulating" or "mcap", and the fallback 2_500_000_000
    otherwise. *)
Theorem stablecoin_delta_of_object (n : Net) (d : list (string * json)) :
  first_document W (length (requests n)) = JDict d ->
  d <> [] ->
  exists n',
    get_stablecoin_delta W n
    = (n', Py.Ok (if existsb names_a_supply (map fst d) then mock_delta
                  else PyFloat (S754_zero false))).
Proof.
  intros Hdoc Hd. unfold get_stablecoin_delta, try_except, any_exception.
  destruct (make_request_returns "https://stablecoins.llama.fi/stablecoins" None n)
    as (n1 & Hreq).
  rewrite (bind_run _ _ _ _ _ Hreq), Hdoc.
  assert (Ht : truthy (JDict d) = true) by (now destruct d).
  rewrite Ht. cbn [negb iterate]. rewrite bind_lift_ok.
  rewrite <- (map_map fst JStr), total_of_keys.
  destruct (existsb names_a_supply (map fst d)).
  - rewrite bind_lift_raise. eexists. reflexivity.
  - rewrite bind_lift_ok. eexists. reflexivity.
Qed.

(** ** No server reached *)
















(** ** The cost of a refresh *)

Lemma inert_ret {A} (a : A) : inert (ret a).
Proof. intros n. now split. Qed.

Lemma inert_raise {A} (e : Py.exception) : inert (@raise A e).
Proof. intros n. now split. Qed.

Lemma inert_lift {A} (r : Py.result A) : inert (lift r).
Proof. intros n. now split. Qed.

Lemma inert_print (text : string) (e : Py.exception) : inert (print text e).
Proof. intros n. now split. Qed.

Lemma inert_time_time : inert (time_time W).
Proof. intros n. now split. Qed.

Lemma inert_bind {A B} (m : N A) (k : A -> N B) :
  inert m -> (forall a, inert (k a)) -> inert (bind m k).
Proof.
  intros Hm Hk n. unfold bind. specialize (Hm n).
  destruct (m n) as [n1 [a|e]]; simpl in *; [|exact Hm].
  destruct (Hk a n1) as (Hr & Hs), Hm as (Hr1 & Hs1). split; congruence.
Qed.

Lemma inert_try {A} (catches : Py.exception -> bool) (body : N A)
    (handler : Py.exception -> N A) :
  inert body -> (forall e, inert (handler e)) -> inert (try_except catches body handler).
Proof.
  intros Hm Hh n. unfold try_except. specialize (Hm n).
  destruct (body n) as [n1 [a|e]]; simpl in *; [exact Hm|].
  destruct (catches e); [|exact Hm].
  destruct (Hh e n1) as (Hr & Hs), Hm as (Hr1 & Hs1). split; congruence.
Qed.

Ltac inert_steps :=
  repeat first
    [ apply inert_ret
    | apply inert_raise
    | apply inert_lift
    | apply inert_print
    | apply inert_time_time
    | apply inert_try; [|intros ?]
    | apply inert_bind; [|intros ?]
    | match goal with
      | |- inert (if ?c then _ else _) => destruct c
      | |- inert (match ?o with Some _ => _ | None => _ end) => destruct o
      | |- inert (match ?l with [] => _ | _ :: _ => _ end) => destruct l
      end ].

Lemma costs_inert {A} (m : N A) : inert m -> costs 0 0 m.
Proof.
  intros Hm n. destruct (Hm n) as (Hr & Hs). exists [], [].
  rewrite Hr, Hs, !app_nil_r. repeat split; [simpl; lia | unfold total_sleep; simpl; lia | constructor].
Qed.

Lemma total_sleep_app (l1 l2 : list Z) :
  total_sleep (l1 ++ l2) = total_sleep l1 + total_sleep l2.
Proof. unfold total_sleep. induction l1 as [|x l1 IH]; simpl; lia. Qed.

Lemma costs_weaken {A} (r r' : nat) (s s' : Z) (m : N A) :
  (r <= r')%nat -> s <= s' -> costs r s m -> costs r' s' m.
Proof.
  intros Hr Hs Hm n. destruct (Hm n) as (nr & ns & H1 & H2 & H3 & H4 & H5).
  exists nr, ns. repeat split; try assumption; lia.
Qed.

Lemma costs_bind {A B} (r1 r2 : nat) (s1 s2 : Z) (m : N A) (k : A -> N B) :
  costs r1 s1 m -> (forall a, costs r2 s2 (k a)) -> 0 <= s2 ->
  costs (r1 + r2) (s1 + s2) (bind m k).
Proof.
  intros Hm Hk Hs2 n. unfold bind. specialize (Hm n).
  destruct (m n) as [n1 [a|e]]; simpl in *.
  - destruct Hm as (nr1 & ns1 & H1 & H2 & H3 & H4 & H5).
    destruct (Hk a n1) as (nr2 & ns2 & G1 & G2 & G3 & G4 & G5).
    exists (nr1 ++ nr2), (ns1 ++ ns2).
    rewrite G1, G2, H1, H2, <- !app_assoc, length_app, total_sleep_app.
    repeat split; [lia | lia | now apply Forall_app].
  - destruct Hm as (nr1 & ns1 & H1 & H2 & H3 & H4 & H5).
    exists nr1, ns1. repeat split; try assumption; lia.
Qed.

Lemma costs_try {A} (r1 r2 : nat) (s1 s2 : Z) (catches : Py.exception -> bool) (body : N A)
    (handler : Py.exception -> N A) :
  costs r1 s1 body -> (forall e, costs r2 s2 (handler e)) -> 0 <= s2 ->
  costs (r1 + r2) (s1 + s2) (try_except catches body handler).
Proof.
  intros Hm Hh Hs2 n. unfold try_except. specialize (Hm n).
  destruct (body n) as [n1 [a|e]]; simpl in *.
  - destruct Hm as (nr1 & ns1 & H1 & H2 & H3 & H4 & H5).
    exists nr1, ns1. repeat split; try assumption; lia.
  - destruct Hm as (nr1 & ns1 & H1 & H2 & H3 & H4 & H5).
    destruct (catches e).
    + destruct (Hh e n1) as (nr2 & ns2 & G1 & G2 & G3 & G4 & G5).
      exists (nr1 ++ nr2), (ns1 ++ ns2).
      rewrite G1, G2, H1, H2, <- !app_assoc, length_app, total_sleep_app.
      repeat split; [lia | lia | now apply Forall_app].
    + exists nr1, ns1. repeat split; try assumption; lia.
Qed.

(** A call followed by steps that make no exchange, inside a [try] whose
    handler makes none either. *)
Lemma costs_then_inert {A B} (r : nat) (s : Z) (m : N A) (k : A -> N B) :
  costs r s m -> (forall a, inert (k a)) -> costs r s (bind m k).
Proof.
  intros Hm Hk. apply (costs_weaken (r + 0) _ (s + 0)); [lia | lia |].
  apply costs_bind; [exact Hm | | lia]. intros a. apply costs_inert, Hk.
Qed.

Lemma costs_try_inert {A} (r : nat) (s : Z) (catches : Py.exception -> bool) (body : N A)
    (handler : Py.exception -> N A) :
  costs r s body -> (forall e, inert (handler e)) ->
  costs r s (try_except catches body handler).
Proof.
  intros Hm Hh. apply (costs_weaken (r + 0) _ (s + 0)); [lia | lia |].
  apply costs_try; [exact Hm | | lia]. intros e. apply costs_inert, Hh.
Qed.

Lemma costs_make_request (url : string) (json_data : option json) :
  costs 3 3 (_make_request W url json_data).
Proof.
  intros n. destruct (make_request_run url json_data n) as (n' & Hrun & Hr & Hs & _).
  rewrite Hrun. simpl fst. eexists _, _. split; [exact Hr|]. split; [exact Hs|].
  rewrite repeat_length. split; [lia|].
  destruct (failures W (length (requests n))) as [|[|[|f]]]; simpl;
    (split; [lia|]); repeat constructor; lia.
Qed.

Lemma costs_get_csv_data (url : string) : costs 1 0 (_get_csv_data W url).
Proof.
  intros n. unfold _get_csv_data, try_except, any_exception, bind, exchange_with.
  destruct (http W (length (requests n))) as [text|r]; simpl.
  - exists [("GET", url)], []. rewrite app_nil_r. repeat split; simpl; try lia. constructor.
  - destruct (rows_of r); simpl;
      (exists [("GET", url)], []; rewrite app_nil_r; repeat split; simpl; try lia;
       constructor).
Qed.

Lemma costs_dominance : costs 3 3 (get_btc_dominance_and_alt_cap W).
Proof.
  unfold get_btc_dominance_and_alt_cap. apply costs_then_inert; [apply costs_make_request|].
  intros data. inert_steps.
Qed.

Lemma costs_alt_season : costs 1 0 (get_alt_season_index L W).
Proof.
  unfold get_alt_season_index. apply costs_try_inert; [|intros e; inert_steps].
  apply costs_then_inert; [apply costs_get_csv_data|].
  intros csv_data. inert_steps.
Qed.

Lemma costs_funding : costs 6 6 (get_btc_funding_and_oi L W).
Proof.
  unfold get_btc_funding_and_oi. apply costs_try_inert; [|intros e; inert_steps].
  apply (costs_bind 3 3 3 3); [apply costs_make_request | | lia].
  intros funding_data. apply costs_then_inert; [apply costs_make_request|].
  intros oi_data. inert_steps.
Qed.

Lemma costs_hyperliquid (symbol : string) : costs 3 3 (get_hyperliquid_funding L W symbol).
Proof.
  unfold get_hyperliquid_funding. apply costs_then_inert; [apply costs_make_request|].
  intros data. inert_steps.
Qed.

Lemma costs_stablecoin : costs 3 3 (get_stablecoin_delta W).
Proof.
  unfold get_stablecoin_delta. apply costs_try_inert; [|intros e; inert_steps].
  apply costs_then_inert; [apply costs_make_request|].
  intros data. inert_steps.
Qed.

Lemma costs_finnhub : costs 3 3 (finnhub_events W).
Proof.
  unfold finnhub_events. apply costs_then_inert; [|intros found; inert_steps].
  destruct (key_set (FINNHUB_KEY W));
    [|apply (costs_weaken 0 _ 0); [lia | lia | apply costs_inert, inert_ret]].
  apply costs_try_inert; [|intros e; inert_steps].
  apply costs_then_inert; [apply costs_make_request|].
  intros data. inert_steps.
Qed.

Lemma costs_macro_events : costs 6 6 (get_macro_events W).
Proof.
  unfold get_macro_events. apply (costs_bind 3 3 3 3); [| | lia].
  - destruct (key_set (TRADINGECON_KEY W));
      [|apply (costs_weaken 0 _ 0); [lia | lia | apply costs_inert, inert_ret]].
    apply costs_try_inert; [|intros e; inert_steps].
    apply costs_then_inert; [apply costs_make_request|].
    intros data. inert_steps.
  - intros [events0|]; [|apply costs_finnhub].
    apply (costs_weaken 0 _ 0); [lia | lia | apply costs_inert, inert_ret].
Qed.

(** X17. One call of [get_all_metrics] makes at most 22 HTTP exchanges and
    sleeps at most 21 seconds in all between them, whatever the servers
    answer and whether it returns or raises; it never sleeps for a negative
    time. *)
Theorem get_all_metrics_budget (n : Net) :
  let n' := fst (get_all_metrics L W n) in
  exists new_requests new_sleeps,
    requests n' = requests n ++ new_requests
    /\ sleeps n' = sleeps n ++ new_sleeps
    /\ (length new_requests <= 22)%nat
    /\ total_sleep new_sleeps <= 21
    /\ Forall (fun seconds => 0 < seconds) new_sleeps.
Proof.
  assert (H : costs 22 21 (get_all_metrics L W)); [|exact (H n)].
  unfold get_all_metrics.
  apply (costs_bind 3 19 3 18); [apply costs_dominance | | lia]. intros dominance.
  apply (costs_bind 1 18 0 18); [apply costs_alt_season | | lia]. intros alt_index.
  apply (costs_bind 6 12 6 12); [apply costs_funding | | lia]. intros funding.
  apply (costs_bind 3 9 3 9); [apply costs_hyperliquid | | lia]. intros hype_funding.
  apply (costs_bind 3 6 3 6); [apply costs_stablecoin | | lia]. intros stable_delta.
  apply costs_then_inert; [apply costs_macro_events|].
  intros macro_events. inert_steps.
Qed.

(** ** Exceptions that get through *)

Lemma item_at_head {A} (x : A) (l : list A) : item_at 0 (x :: l) = Some x.
Proof.
  unfold item_at. cbn [length]. change (0 <? 0) with false. cbv zeta iota.
  replace (0 <? Z.of_nat (S (length l))) with true by (symmetry; apply Z.ltb_lt; lia).
  reflexivity.
Qed.

(** X18. [get_hyperliquid_funding] catches [KeyError] and [IndexError] only:
    when the answer is a list whose first item is no object, or an object
    whose [fundingRate] is refused by [float] (a [null], a string that is no
    number, an integer beyond the floats), the [TypeError], [ValueError] or
    [OverflowError] of the conversion gets out of the getter: it is never a
    [KeyError] or an [IndexError], the two classes of its handler. *)
Theorem hyperliquid_error_escapes (symbol : string) (n : Net) (item : json)
    (rest : list json) (e : Py.exception) :
  first_document W (length (requests n)) = JList (item :: rest) ->
  rate_error L item = Some e ->
  (exists n', get_hyperliquid_funding L W symbol n = (n', Py.Raise e))
  /\ is_KeyError_or_IndexError e = false.
Proof.
  intros Hdoc Herr. unfold get_hyperliquid_funding.
  destruct (make_request_returns "https://api.hyperliquid.xyz/info"
              (Some (JDict [("type", JStr "perpFundingRates"); ("symbol", JStr symbol)])) n)
    as (n' & Hrun).
  rewrite (bind_run _ _ _ _ _ Hrun), Hdoc. cbn [truthy negb].
  assert (Hget : getitem_int (JList (item :: rest)) 0 = Py.Ok item)
    by (unfold getitem_int; now rewrite item_at_head).
  unfold try_except. rewrite Hget, bind_lift_ok.
  unfold rate_error in Herr.
  destruct item as [| | | | |items|d]; try (injection Herr as <-; split; [now exists n' | reflexivity]).
  cbn [getitem_str]. destruct (dict_get "fundingRate" d) as [v|]; [|discriminate].
  rewrite bind_lift_ok.
  destruct (float_of L v) as [x|e'] eqn:Hf; [discriminate|]. injection Herr as ->.
  rewrite bind_lift_raise.
  assert (Hclass : is_KeyError_or_IndexError e = false).
  { destruct v; simpl in Hf; try discriminate Hf;
      try (injection Hf as <-; reflexivity).
    - unfold float_of_int in Hf. destruct (is_infinite _); [|discriminate].
      now injection Hf as <-.
    - destruct (float_of_str L s); [discriminate|]. now injection Hf as <-. }
  rewrite Hclass. split; [now exists n' | reflexivity].
Qed.

(** X19. [get_btc_dominance_and_alt_cap] catches [KeyError] only: when
    CoinGecko's answer is a document other than an object (a list, a string,
    a number), subscripting it raises [TypeError], and [get_all_metrics],
    which calls this getter first and has no handler, raises it too after the
    exchanges of that one call: no other metric is fetched. *)
Theorem dominance_error_aborts (n : Net) :
  truthy (first_document W (length (requests n))) = true ->
  is_object (first_document W (length (requests n))) = false ->
  exists n',
    get_all_metrics L W n = (n', Py.Raise Py.TypeError)
    /\ (length (requests n') <= length (requests n) + 3)%nat
    /\ time_reads n' = time_reads n.
Proof.
  intros Ht Ho. unfold get_all_metrics, get_btc_dominance_and_alt_cap.
  destruct (make_request_run "https://api.coingecko.com/api/v3/global" None n)
    as (n' & Hrun & Hr & _ & _ & Htime).
  unfold bind at 1. unfold bind at 1. rewrite Hrun, Ht. cbn [negb].
  unfold try_except.
  assert (Hget : getitem_str (first_document W (length (requests n))) "data"
                 = Py.Raise Py.TypeError).
  { destruct (first_document W (length (requests n))); try reflexivity. discriminate Ho. }
  rewrite Hget, bind_lift_raise. cbn [is_KeyError].
  exists n'. split; [reflexivity|]. split; [|exact Htime].
  rewrite Hr, length_app, repeat_length. lia.
Qed.

End ClientProperties.

(** * Runs of the readers and of the metric client *)


Lemma append_to_empty_file_witness :
  let E := test_env 50000 morning_of_event [] in
  let w := set_journal_file (Some []) initial_world in
  let w' := world_after
              (append_journal_entry E "BTC" (PyFloat Float.lit_0_25) "rotation" "calm") w in
  journal_fails E (journal_calls w) = false
  /\ journal_file w = Some []
  /\ journal_file w'
     = Some [[CTime morning_of_event; CStr "BTC"; CNum (PyFloat Float.lit_0_25);
              CStr "rotation"; CStr "calm"]]
  /\ read_journal PyText.text (journal_file w') None = []
  /\ get_journal_stats PyText.text (journal_file w') = Py.Ok no_stats.
Proof.
  intros E w w'. split; [reflexivity|]. split; [reflexivity|].
  exact (append_to_empty_file E PyText.text "BTC" (PyFloat Float.lit_0_25) "rotation" "calm"
           w eq_refl eq_refl).
Defined.


Lemma get_journal_stats_entries_witness :
  let file :=
    Some [journal_header;
          [CTime morning_of_event; CStr "BTC"; CNum (PyFloat Float.lit_0_25);
           CStr "rotation"; CStr "calm"];
          [CTime morning_of_event; CStr "ETH"; CNum (PyInt (-3)); CStr "exit"; CStr "tired"]] in
  let last : entry :=
    ([("date", Some "2025-07-12 06:00:00"); ("asset", Some "ETH"); ("change_pct", Some "-3");
      ("reason", Some "exit"); ("emotion", Some "tired")], []) in
  let stats :=
    {| total_entries := 2;
       total_changes := PyFloat (Float.div (Float.of_Z (-11)) (Float.of_Z 4));
       avg_change := PyFloat (Float.div (Float.of_Z (-11)) (Float.of_Z 8));
       last_entry := Some last |} in
  get_journal_stats PyText.text file = Py.Ok stats
  /\ length (read_journal PyText.text file None) = 2%nat
  /\ head (read_journal PyText.text file (Some 1)) = Some last.
Proof.
  intros file last stats.
  assert (Hrun : get_journal_stats PyText.text file = Py.Ok stats) by (vm_compute; reflexivity).
  split; [exact Hrun|].
  destruct (get_journal_stats_entries PyText.text file stats Hrun) as (Hn & Hl & _).
  split; [now rewrite <- Hn | now rewrite <- Hl].
Defined.

Lemma stablecoin_delta_of_object_witness :
  let W := web_of [json_response (CryptoMetrics.JDict [("peggedAssets", CryptoMetrics.JList [])])] in
  first_document W (length (CryptoMetrics.requests CryptoMetrics.idle))
  = CryptoMetrics.JDict [("peggedAssets", CryptoMetrics.JList [])]
  /\ exists n',
       CryptoMetrics.get_stablecoin_delta W CryptoMetrics.idle
       = (n', Py.Ok (PyFloat (S754_zero false))).
Proof.
  intros W. split; [reflexivity|].
  apply (stablecoin_delta_of_object W CryptoMetrics.idle
           [("peggedAssets", CryptoMetrics.JList [])]); [reflexivity | discriminate].
Defined.


Lemma hyperliquid_error_escapes_witness :
  let item := CryptoMetrics.JDict [("fundingRate", CryptoMetrics.JStr "n/a")] in
  let W := web_of [json_response (CryptoMetrics.JList [item])] in
  first_document W (length (CryptoMetrics.requests CryptoMetrics.idle))
  = CryptoMetrics.JList [item]
  /\ rate_error PyText.text item = Some Py.ValueError
  /\ exists n',
       CryptoMetrics.get_hyperliquid_funding PyText.text W "HYPE" CryptoMetrics.idle
       = (n', Py.Raise Py.ValueError).
Proof.
  intros item W. split; [reflexivity|]. split; [vm_compute; reflexivity|].
  apply (hyperliquid_error_escapes PyText.text W "HYPE" CryptoMetrics.idle item []
           Py.ValueError); [reflexivity | vm_compute; reflexivity].
Defined.

Lemma dominance_error_aborts_witness :
  let W := web_of [json_response (CryptoMetrics.JList [CryptoMetrics.JInt 1])] in
  CryptoMetrics.truthy (first_document W (length (CryptoMetrics.requests CryptoMetrics.idle)))
  = true
  /\ is_object (first_document W (length (CryptoMetrics.requests CryptoMetrics.idle))) = false
  /\ exists n',
       CryptoMetrics.get_all_metrics PyText.text W CryptoMetrics.idle
       = (n', Py.Raise Py.TypeError)
       /\ (length (CryptoMetrics.requests n') <= 3)%nat.
Proof.
  intros W. split; [reflexivity|]. split; [reflexivity|].
  destruct (dominance_error_aborts PyText.text W CryptoMetrics.idle eq_refl eq_refl)
    as (n' & Hrun & Hlen & _).
  exists n'. split; [exact Hrun | exact Hlen].
Defined.

